(** * project-bot: task store, claim/completion state machine, week
      bucketing, date parsing and the reminder scan

    A shallow embedding of [discord_aiops_project_bot.py].  The SQLite
    tables are lists of rows, the handlers are computations in a small
    state/exception monad whose state holds the database and the messages
    handed to Discord, and the calendar follows CPython's [datetime]
    (proleptic Gregorian ordinals). *)

From Stdlib Require Import ZArith List Bool Ascii String Lia.
From Stdlib Require Import Sorted Permutation.
Import ListNotations.

Local Open Scope Z_scope.

(** ** Calendar: [datetime.date] *)

(** A [date] as CPython holds it: three integers.  The constructor
    [datetime.date(y, m, d)] validates them ([date_new] below). *)
Record date : Type := mkdate { year : Z; month : Z; day : Z }.

Definition MINYEAR : Z := 1.
Definition MAXYEAR : Z := 9999.

(** [_is_leap(year)]:
    [year % 4 == 0 and (year % 100 != 0 or year % 400 == 0)] *)
Definition is_leap (y : Z) : bool :=
  (y mod 4 =? 0) && (negb (y mod 100 =? 0) || (y mod 400 =? 0)).

(** [_days_before_year(year)]: days before January 1st of [year]. *)
Definition days_before_year (y : Z) : Z :=
  let y1 := y - 1 in y1 * 365 + y1 / 4 - y1 / 100 + y1 / 400.

(** The table [_DAYS_IN_MONTH] (index 0 is the placeholder -1). *)
Definition DAYS_IN_MONTH (m : Z) : Z :=
  match m with
  | 1 => 31 | 2 => 28 | 3 => 31 | 4 => 30 | 5 => 31 | 6 => 30
  | 7 => 31 | 8 => 31 | 9 => 30 | 10 => 31 | 11 => 30 | 12 => 31
  | _ => -1
  end.

(** The table [_DAYS_BEFORE_MONTH], the running sum of the one above. *)
Definition DAYS_BEFORE_MONTH (m : Z) : Z :=
  match m with
  | 1 => 0 | 2 => 31 | 3 => 59 | 4 => 90 | 5 => 120 | 6 => 151
  | 7 => 181 | 8 => 212 | 9 => 243 | 10 => 273 | 11 => 304 | 12 => 334
  | _ => -1
  end.

(** [_days_in_month(year, month)] *)
Definition days_in_month (y m : Z) : Z :=
  if (m =? 2) && is_leap y then 29 else DAYS_IN_MONTH m.

(** [_days_before_month(year, month)] *)
Definition days_before_month (y m : Z) : Z :=
  DAYS_BEFORE_MONTH m + (if (2 <? m) && is_leap y then 1 else 0).

(** [_ymd2ord(year, month, day)]: 0001-01-01 is day 1. *)
Definition ymd2ord (y m d : Z) : Z :=
  days_before_year y + days_before_month y m + d.

Definition DI400Y : Z := Eval cbv in days_before_year 401.
Definition DI100Y : Z := Eval cbv in days_before_year 101.
Definition DI4Y : Z := Eval cbv in days_before_year 5.
Definition MAXORDINAL : Z := Eval cbv in ymd2ord 9999 12 31.

(** [_ord2ymd(n)], line by line: peel off 400-, 100-, 4- and 1-year
    cycles, then estimate the month with [(n + 50) >> 5] and correct it. *)
Definition ord2ymd (n0 : Z) : date :=
  let n := n0 - 1 in
  let n400 := n / DI400Y in
  let n := n mod DI400Y in
  let y := n400 * 400 + 1 in
  let n100 := n / DI100Y in
  let n := n mod DI100Y in
  let n4 := n / DI4Y in
  let n := n mod DI4Y in
  let n1 := n / 365 in
  let n := n mod 365 in
  let y := y + n100 * 100 + n4 * 4 + n1 in
  if (n1 =? 4) || (n100 =? 4) then mkdate (y - 1) 12 31
  else
    let leapyear := (n1 =? 3) && (negb (n4 =? 24) || (n100 =? 3)) in
    let m := Z.shiftr (n + 50) 5 in
    let preceding :=
      DAYS_BEFORE_MONTH m + (if (2 <? m) && leapyear then 1 else 0) in
    if n <? preceding then
      let m := m - 1 in
      let preceding :=
        preceding - (DAYS_IN_MONTH m + (if (m =? 2) && leapyear then 1 else 0)) in
      mkdate y m (n - preceding + 1)
    else mkdate y m (n - preceding + 1).

(** The checks of [_check_date_fields]: the dates the constructor accepts. *)
Definition valid_dateb (d : date) : bool :=
  (MINYEAR <=? year d) && (year d <=? MAXYEAR)
  && (1 <=? month d) && (month d <=? 12)
  && (1 <=? day d) && (day d <=? days_in_month (year d) (month d)).

(** [date(y, m, d)]: [None] stands for the [ValueError] it raises. *)
Definition date_new (y m d : Z) : option date :=
  if valid_dateb (mkdate y m d) then Some (mkdate y m d) else None.

(** [date.toordinal()] *)
Definition toordinal (d : date) : Z := ymd2ord (year d) (month d) (day d).

(** [date.fromordinal(n)] *)
Definition fromordinal (n : Z) : date := ord2ymd n.

(** [date.weekday()]: Monday is 0, Sunday is 6. *)
Definition weekday (d : date) : Z := (toordinal d + 6) mod 7.

(** [d - timedelta(days=n)], that is [date.__add__] with [-n] days;
    [None] stands for [OverflowError("result out of range")]. *)
Definition date_sub_days (d : date) (n : Z) : option date :=
  let o := toordinal d + (- n) in
  if (0 <? o) && (o <=? MAXORDINAL) then Some (fromordinal o) else None.

(** The week bucket of a date, the expression
    [due - timedelta(days=due.weekday())] of [add_task] (and of the
    default week of [_listtasks], [_announce_week] and [_progress]). *)
Definition week_start_of (d : date) : option date :=
  date_sub_days d (weekday d).

(** [date.isoformat()], ["%04d-%02d-%02d" % (year, month, day)].  The
    fields of a [date] object are within 1..9999, 1..12 and 1..31, so four
    and two decimal digits always suffice. *)
Definition digit_char (v : Z) : ascii := ascii_of_N (Z.to_N (48 + v)).

Definition fmt_02d (n : Z) : string :=
  String (digit_char (n / 10)) (String (digit_char (n mod 10)) EmptyString).

Definition fmt_04d (n : Z) : string :=
  String (digit_char (n / 1000))
    (String (digit_char (n / 100 mod 10))
       (String (digit_char (n / 10 mod 10))
          (String (digit_char (n mod 10)) EmptyString))).

Definition isoformat (d : date) : string :=
  (fmt_04d (year d) ++ "-" ++ fmt_02d (month d) ++ "-" ++ fmt_02d (day d))%string.

(** [iso_date(d)] *)
Definition iso_date (d : date) : string := isoformat d.

(** Python orders dates as the tuples [(year, month, day)]. *)
Definition date_compare (a b : date) : comparison :=
  match year a ?= year b with
  | Eq => match month a ?= month b with
          | Eq => day a ?= day b
          | c => c
          end
  | c => c
  end.

(** ** [datetime.strptime]: the regular expressions of [_strptime.py]

    [_strptime] turns the format into a regular expression, matches it at
    the start of the text with the backtracking engine of [re], rejects
    text left over after the match, converts the named groups with [int]
    and builds the date.

    A text is a [string] of ASCII characters, and on such a text [\d] is
    [0-9].  On other characters [\d] and [int] follow the Unicode tables
    of the interpreter (the four characters of [%Y] and the second
    character of a day from 10 to 29 may be any decimal digit of those
    tables): those texts are outside the model, and what is proved about
    rejected texts is stated for the texts [is_ascii] holds of. *)

Inductive regex : Type :=
| Eps
| Chr (c : ascii)
| Rng (lo hi : ascii)
| Dig
| Cat (r1 r2 : regex)
| Alt (r1 r2 : regex)
| Grp (name : ascii) (r : regex).

Definition code (c : ascii) : N := N_of_ascii c.

Definition in_range (lo hi c : ascii) : bool :=
  (code lo <=? code c)%N && (code c <=? code hi)%N.

Definition is_digit (c : ascii) : bool := in_range "0" "9" c.

(** [s.isascii()]: every character is below U+0080. *)
Fixpoint is_ascii (s : string) : bool :=
  match s with
  | EmptyString => true
  | String c s' => (code c <? 128)%N && is_ascii s'
  end.

(** [found.groupdict()]: group name to matched text. *)
Definition groupdict : Type := list (ascii * string).

(** The text a group matched: what was read between [s] and its suffix
    [s']. *)
Definition consumed (s s' : string) : string :=
  substring 0 (String.length s - String.length s') s.

(** The backtracking matcher: [k] is the rest of the pattern.  [Alt] tries
    its left branch with that continuation first and the right branch only
    when the left one, or anything after it, fails: the first match found
    this way is the one [re.match] returns. *)
Fixpoint rmatch {A : Type} (r : regex) (s : string) (g : groupdict)
    (k : groupdict -> string -> option A) : option A :=
  match r with
  | Eps => k g s
  | Chr c =>
      match s with
      | String c' s' => if Ascii.eqb c c' then k g s' else None
      | EmptyString => None
      end
  | Rng lo hi =>
      match s with
      | String c' s' => if in_range lo hi c' then k g s' else None
      | EmptyString => None
      end
  | Dig =>
      match s with
      | String c' s' => if is_digit c' then k g s' else None
      | EmptyString => None
      end
  | Cat r1 r2 => rmatch r1 s g (fun g' s' => rmatch r2 s' g' k)
  | Alt r1 r2 =>
      match rmatch r1 s g k with
      | Some x => Some x
      | None => rmatch r2 s g k
      end
  | Grp name r1 =>
      rmatch r1 s g (fun g' s' => k ((name, consumed s s') :: g') s')
  end.

(** [format_regex.match(data_string)]: the groups and the unread rest. *)
Definition re_match (r : regex) (s : string) : option (groupdict * string) :=
  rmatch r s [] (fun g s' => Some (g, s')).

(** The entries of [TimeRE] the three formats use:
    ['Y': (?P<Y>\d\d\d\d)], ['m': (?P<m>1[0-2]|0[1-9]|[1-9])],
    ['d': (?P<d>3[0-1]|[1-2]\d|0[1-9]|[1-9]| [1-9])]. *)
Definition re_Y : regex := Cat Dig (Cat Dig (Cat Dig Dig)).

Definition re_m : regex :=
  Alt (Cat (Chr "1") (Rng "0" "2"))
      (Alt (Cat (Chr "0") (Rng "1" "9")) (Rng "1" "9")).

Definition re_d : regex :=
  Alt (Cat (Chr "3") (Rng "0" "1"))
      (Alt (Cat (Rng "1" "2") Dig)
           (Alt (Cat (Chr "0") (Rng "1" "9"))
                (Alt (Rng "1" "9") (Cat (Chr " ") (Rng "1" "9"))))).

Definition directive_regex (c : ascii) : option regex :=
  if Ascii.eqb c "d" then Some (Grp "d" re_d)
  else if Ascii.eqb c "m" then Some (Grp "m" re_m)
  else if Ascii.eqb c "Y" then Some (Grp "Y" re_Y)
  else None.


(** [TimeRE.pattern(format)]: a directive becomes its regular expression,
    any other character stands for itself.  [None] is the [ValueError] for
    a stray [%] or an unknown directive; blanks in a format (which match
    [\s+]) are not needed here and are refused. *)
Fixpoint pattern (fmt : string) : option regex :=
  match fmt with
  | EmptyString => Some Eps
  | String c rest =>
      if Ascii.eqb c "%" then
        match rest with
        | EmptyString => None
        | String dchar rest' =>
            match directive_regex dchar, pattern rest' with
            | Some r, Some r' => Some (Cat r r')
            | _, _ => None
            end
        end
      else if Ascii.eqb c " " then None
      else option_map (Cat (Chr c)) (pattern rest)
  end.

Fixpoint lookup (name : ascii) (g : groupdict) : option string :=
  match g with
  | [] => None
  | (n, v) :: g' => if Ascii.eqb n name then Some v else lookup name g'
  end.

(** [int(text)] on the text of a group: decimal digits after optional
    leading blanks. *)
Fixpoint lstrip (s : string) : string :=
  match s with
  | String c s' => if Ascii.eqb c " " then lstrip s' else s
  | EmptyString => s
  end.

Fixpoint int_digits (acc : Z) (s : string) : option Z :=
  match s with
  | EmptyString => Some acc
  | String c s' =>
      if is_digit c then int_digits (10 * acc + (Z.of_N (code c) - 48)) s'
      else None
  end.

Definition py_int (s : string) : option Z :=
  match lstrip s with
  | EmptyString => None
  | t => int_digits 0 t
  end.

(** [datetime.strptime(s, fmt).date()]; [None] is the [ValueError] raised
    when the text does not match, when text remains after the match, or
    when the fields are not a calendar date. *)
Definition strptime_date (s fmt : string) : option date :=
  match pattern fmt with
  | None => None
  | Some r =>
      match re_match r s with
      | None => None
      | Some (g, rest) =>
          if negb (String.eqb rest "") then None
          else
            match option_map py_int (lookup "Y" g),
                  option_map py_int (lookup "m" g),
                  option_map py_int (lookup "d" g) with
            | Some (Some y), Some (Some m), Some (Some d) => date_new y m d
            | _, _, _ => None
            end
      end
  end.

(** ** Exceptions and [parse_date] *)

Inductive exn : Type :=
| ValueError (msg : string)
| OperationalError (msg : string)
| AttributeError
| OverflowError
| TypeError.

Inductive outcome (A : Type) : Type :=
| Ret (a : A)
| Raise (e : exn).
Arguments Ret {A} a.
Arguments Raise {A} e.

(** The loop of [parse_date] over the three formats: the first format
    [strptime] accepts gives the result, and [ValueError] is raised when
    none does. *)
Fixpoint parse_date_loop (s : string) (fmts : list string) : outcome date :=
  match fmts with
  | [] => Raise (ValueError "Date format should be YYYY-MM-DD or DD/MM/YYYY")
  | fmt :: rest =>
      match strptime_date s fmt with
      | Some d => Ret d
      | None => parse_date_loop s rest
      end
  end.

Definition parse_date (s : string) : outcome date :=
  parse_date_loop s ["%Y-%m-%d"; "%d/%m/%Y"; "%d-%m-%Y"]%string.

(** ** The database: the tables of [init_db] *)

(** A row of [tasks].  [completed] is the INTEGER column (0 or 1).
    [claimed_by] is the TEXT column holding [json.dumps] of a list of user
    ids: the model stores the list that text decodes to, [None] for
    NULL. *)
Record task : Type := mktask {
  id : Z;
  title : string;
  description : string;
  due_date : string;
  created_by : Z;
  created_at : string;
  completed : Z;
  claimed_by : option (list Z);
  week_start : string
}.

(** A row of [announcements]. *)
Record announcement : Type := mkannouncement {
  message_id : Z;
  a_week_start : string
}.

(** The rows of both tables and the AUTOINCREMENT counter of [tasks]
    (SQLite's [sqlite_sequence]). *)
Record database : Type := mkdatabase {
  tasks : list task;
  announcements : list announcement;
  tasks_seq : Z
}.

Definition set_tasks (rows : list task) (d : database) : database :=
  mkdatabase rows (announcements d) (tasks_seq d).

Definition set_claimed_by (c : option (list Z)) (t : task) : task :=
  mktask (id t) (title t) (description t) (due_date t) (created_by t)
         (created_at t) (completed t) c (week_start t).

Definition set_completed (c : Z) (t : task) : task :=
  mktask (id t) (title t) (description t) (due_date t) (created_by t)
         (created_at t) c (claimed_by t) (week_start t).

(** ** What the bot hands to Discord and to the logger

    Message texts are kept as data: which f-string it is and the values
    substituted into it. *)
Inductive text : Type :=
| TxtTaskNotFound
| TxtTaskCompleted (task_id : Z)
| TxtMustBeClaimed
| TxtClaimed (task_id : Z)
| TxtReminderClaimed (task_id : Z) (ttl due : string) (mentions : list Z)
| TxtReminderUnclaimed (task_id : Z) (ttl due : string).

(** One field of the embed built by [refresh_announcement]. *)
Record embed_field : Type := mkfield {
  f_id : Z;
  f_done : bool;
  f_title : string;
  f_due : string;
  f_claimers : list Z
}.

(** The buttons of a view, by their [custom_id]. *)
Inductive button : Type :=
| BtnClaim (task_id : Z)
| BtnComplete (task_id : Z).

Inductive event : Type :=
| CtxSend (t : text)
| ChannelSend (channel : Z) (t : text)
| InteractionSend (t : text)
| MessageEdit (msg : Z) (week : string) (fields : list embed_field)
              (view : list button)
| LogInfo
| LogWarning.

(** ** The state/exception monad of the handlers *)

Record world : Type := mkworld {
  db : database;
  outbox : list event
}.

Definition M (A : Type) : Type := world -> outcome A * world.

Definition ret {A : Type} (a : A) : M A := fun w => (Ret a, w).

Definition raise {A : Type} (e : exn) : M A := fun w => (Raise e, w).

Definition bind {A B : Type} (m : M A) (f : A -> M B) : M B :=
  fun w =>
    match m w with
    | (Ret a, w') => f a w'
    | (Raise e, w') => (Raise e, w')
    end.

Declare Scope monad_scope.
Delimit Scope monad_scope with monad.
Notation "x <- m ;; f" := (bind m (fun x => f))
  (at level 61, m at next level, right associativity) : monad_scope.
Notation "m ;; f" := (bind m (fun _ => f))
  (at level 61, right associativity) : monad_scope.
Local Open Scope monad_scope.

Definition get_db : M database := fun w => (Ret (db w), w).

Definition put_db (d : database) : M unit :=
  fun w => (Ret tt, mkworld d (outbox w)).

Definition emit (e : event) : M unit :=
  fun w => (Ret tt, mkworld (db w) (outbox w ++ [e])).

(** [for x in xs: body(x)] *)
Fixpoint for_each {A : Type} (xs : list A) (body : A -> M unit) : M unit :=
  match xs with
  | [] => ret tt
  | x :: rest => body x ;; for_each rest body
  end.

(** ** SQL statements

    [init_db] creates these two tables, and nothing in the program drops
    or creates another. *)
Definition init_db : list string := ["tasks"; "announcements"]%string.

(** A statement naming a table the database does not have raises
    [sqlite3.OperationalError: no such table]. *)
Definition cursor_table (name : string) : M unit :=
  if existsb (String.eqb name) init_db then ret tt
  else raise (OperationalError ("no such table: " ++ name)).

(** The integers [sqlite3] binds to the [?] of a statement: a Python
    [int] outside 64 bits raises [OverflowError: Python int too large to
    convert to SQLite INTEGER].  The statement is prepared first, so a
    missing table is reported before a value that does not fit.

    [params] lists the task ids a statement binds: they come from rows
    and from what a user types after [complete] and [deletetask].  The
    user, author and message ids are made by Discord, fit in 64 bits and
    are left out. *)
Definition sqlite_int (n : Z) : bool :=
  (- 2 ^ 63 <=? n) && (n <? 2 ^ 63).

Definition bind_params (params : list Z) : M unit :=
  if forallb sqlite_int params then ret tt else raise OverflowError.

(** [SELECT * FROM <table> WHERE ...] on task rows, in rowid order. *)
Definition select_tasks (table : string) (params : list Z)
    (where_ : task -> bool) : M (list task) :=
  cursor_table table ;;
  bind_params params ;;
  d <- get_db ;;
  ret (filter where_ (tasks d)).

(** [ORDER BY due_date]: the TEXT column is compared bytewise.  The sort
    is an insertion sort that keeps rows with equal keys in rowid order. *)
Fixpoint insert_by_due_date (t : task) (l : list task) : list task :=
  match l with
  | [] => [t]
  | u :: l' =>
      if String.leb (due_date t) (due_date u) then t :: l
      else u :: insert_by_due_date t l'
  end.

Definition order_by_due_date (l : list task) : list task :=
  fold_right insert_by_due_date [] l.

(** [UPDATE <table> SET ... WHERE ...] on task rows. *)
Definition update_tasks (table : string) (params : list Z)
    (set_ : task -> task) (where_ : task -> bool) : M unit :=
  cursor_table table ;;
  bind_params params ;;
  d <- get_db ;;
  put_db (set_tasks (map (fun r => if where_ r then set_ r else r) (tasks d)) d).

(** [SELECT * FROM <table> WHERE ...] on announcement rows. *)
Definition select_announcements (table : string)
    (where_ : announcement -> bool) : M (list announcement) :=
  cursor_table table ;;
  d <- get_db ;;
  ret (filter where_ (announcements d)).

(** [json.loads(t.get("claimed_by") or "[]")] *)
Definition json_loads_or_empty (c : option (list Z)) : list Z :=
  match c with
  | Some l => l
  | None => []
  end.

(** [json.dumps(claimed)] *)
Definition json_dumps (l : list Z) : option (list Z) := Some l.

(** [user_id in claimed] *)
Definition py_in (u : Z) (l : list Z) : bool := existsb (Z.eqb u) l.

(** [claimed.remove(user_id)]: drops the first occurrence. *)
Fixpoint py_remove (u : Z) (l : list Z) : list Z :=
  match l with
  | [] => []
  | x :: l' => if Z.eqb x u then l' else x :: py_remove u l'
  end.

(** ** The task store *)

Definition get_task (task_id : Z) : M (option task) :=
  rows <- select_tasks "tasks" [task_id] (fun r => id r =? task_id) ;;
  ret (hd_error rows).

Definition get_tasks_for_week (week_start_iso : string) : M (list task) :=
  rows <- select_tasks "tasks" []
            (fun r => String.eqb (week_start r) week_start_iso) ;;
  ret (order_by_due_date rows).

Definition get_open_tasks_for_week (week_start_iso : string)
  : M (list task) :=
  rows <- select_tasks "tasks" []
            (fun r => String.eqb (week_start r) week_start_iso
                      && (completed r =? 0)) ;;
  ret (order_by_due_date rows).

Definition claim_task (task_id user_id : Z) : M (option (list Z)) :=
  task <- get_task task_id ;;
  match task with
  | None => ret None
  | Some t =>
      let claimed := json_loads_or_empty (claimed_by t) in
      let claimed :=
        if negb (py_in user_id claimed) then claimed ++ [user_id]
        else claimed in
      update_tasks "tasks" [task_id] (set_claimed_by (json_dumps claimed))
                   (fun r => id r =? task_id) ;;
      ret (Some claimed)
  end.

Definition unclaim_task (task_id user_id : Z) : M (option (list Z)) :=
  task <- get_task task_id ;;
  match task with
  | None => ret None
  | Some t =>
      let claimed := json_loads_or_empty (claimed_by t) in
      let claimed :=
        if py_in user_id claimed then py_remove user_id claimed
        else claimed in
      update_tasks "tasks" [task_id] (set_claimed_by (json_dumps claimed))
                   (fun r => id r =? task_id) ;;
      ret (Some claimed)
  end.

Definition complete_task (task_id : Z) : M unit :=
  update_tasks "tasks" [task_id] (set_completed 1)
               (fun r => id r =? task_id).

(** [add_task]; [utcnow] is the text of [datetime.utcnow().isoformat()].
    The new row gets the next AUTOINCREMENT id and the column defaults
    [completed = 0] and [claimed_by = '[]']. *)
Definition add_task (ttl due_date_str descr : string) (creator : Z)
    (utcnow : string) : M Z :=
  match parse_date due_date_str with
  | Raise e => raise e
  | Ret due =>
      match week_start_of due with
      | None => raise OverflowError
      | Some monday =>
          cursor_table "tasks" ;;
          d <- get_db ;;
          let rowid := tasks_seq d + 1 in
          put_db (mkdatabase
                    (tasks d ++ [mktask rowid ttl descr (isoformat due)
                                        creator utcnow 0 (Some [])
                                        (isoformat monday)])
                    (announcements d) rowid) ;;
          ret rowid
      end
  end.

(** [get_announcement_for_message]: the statement reads
    [SELECT * FROM annoucements WHERE message_id = ?]. *)
Definition get_announcement_for_message (msg : Z)
  : M (option announcement) :=
  rows <- select_announcements "annoucements"
            (fun a => message_id a =? msg) ;;
  ret (hd_error rows).

(** ** Coroutines: the [async def] handlers

    discord.py runs every handler as a coroutine on one event loop, so a
    handler runs without interruption from one [await] to the next.  A
    coroutine is either finished or a segment: the code up to the next
    [await], which yields what remains to run after it.  The calls into
    SQLite are plain function calls: they sit inside one segment. *)
#[warnings="-register-all"]
Inductive coro : Type :=
| Stop
| Seg (run : M coro).

(** [await io]: the request is issued, then the coroutine is suspended and
    goes on with [k]. *)
Definition await (io : M unit) (k : coro) : M coro := io ;; ret k.

(** Running one coroutine alone, to its end or to the exception that
    ends it. *)
Fixpoint run_coro (c : coro) (w : world) : outcome unit * world :=
  match c with
  | Stop => (Ret tt, w)
  | Seg m =>
      match m w with
      | (Ret c', w') => run_coro c' w'
      | (Raise e, w') => (Raise e, w')
      end
  end.

(** Two coroutines on the event loop: at each step the loop resumes one
    of them for one segment.  A coroutine that raises is finished (the
    library logs the exception). *)
Inductive sched_step : coro * coro * world -> coro * coro * world -> Prop :=
| sched_left m b w a' w' :
    m w = (Ret a', w') -> sched_step (Seg m, b, w) (a', b, w')
| sched_left_raise m b w e w' :
    m w = (Raise e, w') -> sched_step (Seg m, b, w) (Stop, b, w')
| sched_right a m w b' w' :
    m w = (Ret b', w') -> sched_step (a, Seg m, w) (a, b', w')
| sched_right_raise a m w e w' :
    m w = (Raise e, w') -> sched_step (a, Seg m, w) (a, Stop, w').

Inductive sched_steps : coro * coro * world -> coro * coro * world -> Prop :=
| sched_done st : sched_steps st st
| sched_more st1 st2 st3 :
    sched_step st1 st2 -> sched_steps st2 st3 -> sched_steps st1 st3.

(** ** The handlers *)

(** What a handler reads from a button press: [interaction.user.id],
    [interaction.user.guild_permissions.manage_messages] and
    [interaction.message.id]. *)
Record interaction : Type := mkinteraction {
  user : Z;
  manage_messages : bool;
  message : Z
}.

(** What [_complete] reads from its command context: [ctx.author.id] and
    [ctx.author.guild_permissions.manage_messages]. *)
Record context : Type := mkcontext {
  author : Z;
  author_manage_messages : bool
}.

(** [refresh_announcement(message, week_start)], followed by [k] once
    [message.edit] has returned (an exception of [message.edit] is logged
    and swallowed there). *)
Definition refresh_announcement (msg : Z) (wk : string) (k : coro)
  : M coro :=
  tasks_week <- get_tasks_for_week wk ;;
  let embed :=
    map (fun t => mkfield (id t) (negb (completed t =? 0)) (title t)
                          (due_date t) (json_loads_or_empty (claimed_by t)))
        tasks_week in
  let view :=
    flat_map (fun t => [BtnClaim (id t); BtnComplete (id t)])
             (filter (fun tt => completed tt =? 0) tasks_week) in
  await (emit (MessageEdit msg wk embed view)) k.

(** [make_claim_callback] of [_announce_week]; [wk0] is the [week_start]
    the closure captured. *)
Definition make_claim_callback (wk0 : string) (task_id : Z)
    (i : interaction) : coro :=
  Seg (claimed <- claim_task task_id (user i) ;;
       ann <- get_announcement_for_message (message i) ;;
       let wk := match ann with
                 | None => wk0
                 | Some a => a_week_start a
                 end in
       refresh_announcement (message i) wk
         (Seg (await (emit (InteractionSend (TxtClaimed task_id))) Stop))).

(** [make_claim_callback] of [refresh_announcement]: no lookup. *)
Definition refresh_make_claim_callback (wk0 : string) (task_id : Z)
    (i : interaction) : coro :=
  Seg (claimed <- claim_task task_id (user i) ;;
       refresh_announcement (message i) wk0
         (Seg (await (emit (InteractionSend (TxtClaimed task_id))) Stop))).

(** [make_complete_callback], the same code in [_announce_week] and in
    [refresh_announcement] up to the wording of the refusal.
    [tdata.get] on a missing task is an [AttributeError]. *)
Definition make_complete_callback (wk0 : string) (task_id : Z)
    (i : interaction) : coro :=
  Seg (tdata <- get_task task_id ;;
       match tdata with
       | None => raise AttributeError
       | Some t =>
           let claimed := json_loads_or_empty (claimed_by t) in
           if py_in (user i) claimed || manage_messages i then
             complete_task task_id ;;
             refresh_announcement (message i) wk0
               (Seg (await (emit (InteractionSend (TxtTaskCompleted task_id)))
                           Stop))
           else await (emit (InteractionSend TxtMustBeClaimed)) Stop
       end).

(** The [complete] command. *)
Definition _complete (ctx : context) (task_id : Z) : coro :=
  Seg (t <- get_task task_id ;;
       match t with
       | None => await (emit (CtxSend TxtTaskNotFound)) Stop
       | Some t =>
           let claimed := json_loads_or_empty (claimed_by t) in
           if py_in (author ctx) claimed || author_manage_messages ctx then
             complete_task task_id ;;
             await (emit (CtxSend (TxtTaskCompleted task_id))) Stop
           else await (emit (CtxSend TxtMustBeClaimed)) Stop
       end).

(** ** The reminder scan *)

(** The fields of a [datetime] without time zone: [datetime.utcnow()] is
    naive, and so is what [strptime] reads with the format [%Y-%m-%d]. *)
Record datetime : Type := mkdatetime {
  dt_date : date;
  hour : Z;
  minute : Z;
  second : Z;
  microsecond : Z
}.

(** What [datetime.fromisoformat] returns: a naive datetime, or an aware
    one when the text ends in a UTC offset ([utcoffset], in seconds). *)
Inductive iso_datetime : Type :=
| Naive (dt : datetime)
| Aware (dt : datetime) (utcoffset : Z).

(** Python orders datetimes as the tuples
    [(year, month, day, hour, minute, second, microsecond)]. *)
Definition datetime_compare (a b : datetime) : comparison :=
  match date_compare (dt_date a) (dt_date b) with
  | Eq => match hour a ?= hour b with
          | Eq => match minute a ?= minute b with
                  | Eq => match second a ?= second b with
                          | Eq => microsecond a ?= microsecond b
                          | c => c
                          end
                  | c => c
                  end
          | c => c
          end
  | c => c
  end.

(** [a <= b] *)
Definition datetime_leb (a b : datetime) : bool :=
  match datetime_compare a b with
  | Gt => false
  | _ => true
  end.

(** [dt + timedelta(hours=h)]: [datetime.__add__] adds the normalised
    days and seconds and rebuilds the date from its ordinal; [None] is
    [OverflowError]. *)
Definition datetime_add_hours (dt : datetime) (h : Z) : option datetime :=
  let secs := hour dt * 3600 + minute dt * 60 + second dt + h * 3600 in
  let days := toordinal (dt_date dt) + secs / 86400 in
  let secs := secs mod 86400 in
  if (0 <? days) && (days <=? MAXORDINAL) then
    Some (mkdatetime (fromordinal days) (secs / 3600) (secs mod 3600 / 60)
                     (secs mod 3600 mod 60) (microsecond dt))
  else None.

Section Reminders.

(** The configuration read from the environment, the channel cache of
    the bot and [datetime.fromisoformat], whose grammar depends on the
    Python version. *)
Variable REMINDER_HOURS : Z.
Variable PROJECT_CHANNEL_ID : Z.
Variable get_channel : Z -> option Z.
Variable fromisoformat : string -> option iso_datetime.

(** The nested [try] of the loop: [fromisoformat], then
    [strptime(..., "%Y-%m-%d")], then give up ([continue]). *)
Definition parse_due (s : string) : option iso_datetime :=
  match fromisoformat s with
  | Some due => Some due
  | None =>
      match strptime_date s "%Y-%m-%d" with
      | Some d => Some (Naive (mkdatetime d 0 0 0 0))
      | None => None
      end
  end.

(** The body of the [for r in rows] loop.  [now] is naive, and
    [now <= due] with an aware [due] is a [TypeError] (can't compare
    offset-naive and offset-aware datetimes), raised outside the [try]. *)
Definition remind (now soon : datetime) (r : task) : M unit :=
  match parse_due (due_date r) with
  | None => ret tt
  | Some (Aware _ _) => raise TypeError
  | Some (Naive due) =>
      if datetime_leb now due && datetime_leb due soon then
        let claimed := json_loads_or_empty (claimed_by r) in
        match get_channel PROJECT_CHANNEL_ID with
        | None => emit LogWarning
        | Some channel =>
            match claimed with
            | _ :: _ =>
                emit (ChannelSend channel
                        (TxtReminderClaimed (id r) (title r) (due_date r)
                                            claimed))
            | [] =>
                emit (ChannelSend channel
                        (TxtReminderUnclaimed (id r) (title r) (due_date r)))
            end
        end
      else ret tt
  end.

(** [check_deadlines], one run of the loop body of the task; [now] is
    [datetime.utcnow()].  The rows are all fetched before the loop and
    the loop only reads them, so what a scan sends does not depend on
    what other handlers do while it is suspended in [channel.send]. *)
Definition check_deadlines (now : datetime) : M unit :=
  emit LogInfo ;;
  match datetime_add_hours now REMINDER_HOURS with
  | None => raise OverflowError
  | Some soon =>
      rows <- select_tasks "tasks" [] (fun r => completed r =? 0) ;;
      for_each rows (remind now soon)
  end.

End Reminders.

(** * Specification side

    What the theorems below are stated with: bounded checks run by
    computation, the texts of a date, the row a lookup finds, the events a
    handler owes. *)

(** [p] holds of [i], [i + 1], ..., [fuel] numbers in all. *)
Fixpoint all_from (fuel : nat) (i : Z) (p : Z -> bool) : bool :=
  match fuel with
  | O => true
  | S k => p i && all_from k (i + 1) p
  end.

(** The month and day [_ord2ymd] computes from the day [n] of a year
    (counted from 0), the last lines of [ord2ymd]. *)
Definition month_day (leapyear : bool) (n : Z) : Z * Z :=
    let m := Z.shiftr (n + 50) 5 in
    let preceding :=
      DAYS_BEFORE_MONTH m + (if (2 <? m) && leapyear then 1 else 0) in
    if n <? preceding then
      let m := m - 1 in
      let preceding :=
        preceding - (DAYS_IN_MONTH m + (if (m =? 2) && leapyear then 1 else 0)) in
      (m, n - preceding + 1)
    else (m, n - preceding + 1).

Definition month_day_ok (leap : bool) (n : Z) : bool :=
  let '(m, d) := month_day leap n in
  (1 <=? m) && (m <=? 12) && (1 <=? d)
  && (d <=? (if (m =? 2) && leap then 29 else DAYS_IN_MONTH m))
  && (DAYS_BEFORE_MONTH m + (if (2 <? m) && leap then 1 else 0) + d =? n + 1).

Section Layouts.

Local Open Scope string_scope.

(** [strip_prefix w s]: what is left of [s] after its prefix [w]. *)
Fixpoint strip_prefix (w s : string) : option string :=
  match w with
  | EmptyString => Some s
  | String a w' =>
      match s with
      | String b s' => if Ascii.eqb a b then strip_prefix w' s' else None
      | EmptyString => None
      end
  end.

(** The first element of [l] on which [f] succeeds: the search order of
    the backtracking matcher. *)
Fixpoint first_some {X A : Type} (f : X -> option A) (l : list X) : option A :=
  match l with
  | [] => None
  | x :: l' =>
      match f x with
      | Some a => Some a
      | None => first_some f l'
      end
  end.

Definition all_ascii : list ascii := map ascii_of_nat (seq 0 256).

Definition char_string (c : ascii) : string := String c EmptyString.

(** The texts a regular expression matches, in the order the backtracking
    matcher tries them. *)
Fixpoint lang (r : regex) : list string :=
  match r with
  | Eps => [EmptyString]
  | Chr c => [char_string c]
  | Rng lo hi => map char_string (filter (in_range lo hi) all_ascii)
  | Dig => map char_string (filter is_digit all_ascii)
  | Cat r1 r2 =>
      flat_map (fun w1 => map (String.append w1) (lang r2)) (lang r1)
  | Alt r1 r2 => lang r1 ++ lang r2
  | Grp _ r1 => lang r1
  end.

Fixpoint group_free (r : regex) : bool :=
  match r with
  | Cat r1 r2 | Alt r1 r2 => group_free r1 && group_free r2
  | Grp _ _ => false
  | _ => true
  end.

(** Month and day texts are made of digits and blanks; the separators
    [-] and [/] are neither. *)
Fixpoint all_chars (P : ascii -> bool) (w : string) : bool :=
  match w with
  | EmptyString => true
  | String c w' => P c && all_chars P w'
  end.

Definition token_char (c : ascii) : bool := is_digit c || Ascii.eqb c " ".

(** The texts of a month or a day number: two digits, and below ten also
    the digit alone and, for a day, the digit after a blank. *)
Definition month_texts (m : Z) : list string :=
  if (m <? 10)%Z then [fmt_02d m; char_string (digit_char m)] else [fmt_02d m].

Definition day_texts (d : Z) : list string :=
  if (d <? 10)%Z then
    [fmt_02d d; char_string (digit_char d); String " " (char_string (digit_char d))]
  else [fmt_02d d].

(** The texts of a date in the layout year-month-day and in the layouts
    day, month, year with separator [sep]; the year always at four
    digits. *)
Definition texts_ymd (d : date) : list string :=
  flat_map (fun mt =>
    map (fun dt => fmt_04d (year d) ++ String "-" (mt ++ String "-" dt))
        (day_texts (day d)))
    (month_texts (month d)).

Definition texts_dmy (sep : ascii) (d : date) : list string :=
  flat_map (fun dt =>
    map (fun mt => dt ++ String sep (mt ++ String sep (fmt_04d (year d))))
        (month_texts (month d)))
    (day_texts (day d)).

Definition accepted_texts (d : date) : list string :=
  texts_ymd d ++ texts_dmy "/" d ++ texts_dmy "-" d.

(** [DD<sep>MM<sep>YYYY], every field padded with zeros to its width. *)
Definition format_dmy (sep : ascii) (d : date) : string :=
  fmt_02d (day d) ++ String sep (fmt_02d (month d) ++ String sep (fmt_04d (year d))).
(** The three layouts read strictly: every field padded with zeros. *)
Definition strict_texts (d : date) : list string :=
  [isoformat d; format_dmy "/" d; format_dmy "-" d].

(** The value of a digit character. *)
Definition digit_value (c : ascii) : Z := Z.of_N (code c) - 48.

(** Checks over the finitely many month and day texts, run by
    computation: every text the pattern matches is a text of the number
    [int] reads from it, and conversely. *)
Definition month_tokens_ok : bool :=
  forallb (fun w => match py_int w with
                    | Some m => (1 <=? m)%Z && (m <=? 12)%Z
                                && existsb (String.eqb w) (month_texts m)
                    | None => false
                    end) (lang re_m).

Definition day_tokens_ok : bool :=
  forallb (fun w => match py_int w with
                    | Some m => (1 <=? m)%Z && (m <=? 31)%Z
                                && existsb (String.eqb w) (day_texts m)
                    | None => false
                    end) (lang re_d).

Definition texts_ok (texts : Z -> list string) (toks : list string) (m : Z)
  : bool :=
  forallb (fun w => existsb (String.eqb w) toks
                    && match py_int w with
                       | Some m' => (m' =? m)%Z
                       | None => false
                       end) (texts m).

(** The first text of [toks] that [s] starts with, and the rest of [s]. *)
Definition first_prefix (toks : list string) (s : string)
  : option (string * string) :=
  first_some (fun w => option_map (pair w) (strip_prefix w s)) toks.

Definition first_prefix_is (toks : list string) (wd : string) : bool :=
  match first_prefix toks wd with
  | Some (w, s') => String.eqb w wd && String.eqb s' ""
  | None => false
  end.

(** The patterns of the three formats, as [pattern] builds them. *)
Definition R_ymd : regex :=
  Cat (Grp "Y" re_Y) (Cat (Chr "-") (Cat (Grp "m" re_m)
      (Cat (Chr "-") (Cat (Grp "d" re_d) Eps)))).

Definition R_dmy (sep : ascii) : regex :=
  Cat (Grp "d" re_d) (Cat (Chr sep) (Cat (Grp "m" re_m)
      (Cat (Chr sep) (Cat (Grp "Y" re_Y) Eps)))).

Definition year_text (a b c d : ascii) : string :=
  String a (String b (String c (String d ""))).

End Layouts.

(** The row [get_task] finds, and the rows after an [UPDATE ... WHERE id
    = ?]. *)
(** Two rows that agree on every column but [claimed_by], and on every
    column but [completed]. *)
Definition same_but_claimed_by (t t' : task) : Prop :=
  id t' = id t /\ title t' = title t /\ description t' = description t
  /\ due_date t' = due_date t /\ created_by t' = created_by t
  /\ created_at t' = created_at t /\ completed t' = completed t
  /\ week_start t' = week_start t.

Definition same_but_completed (t t' : task) : Prop :=
  id t' = id t /\ title t' = title t /\ description t' = description t
  /\ due_date t' = due_date t /\ created_by t' = created_by t
  /\ created_at t' = created_at t /\ claimed_by t' = claimed_by t
  /\ week_start t' = week_start t.

Definition find_task (task_id : Z) (d : database) : option task :=
  hd_error (filter (fun r => id r =? task_id) (tasks d)).

Definition update_rows (task_id : Z) (f : task -> task) (rows : list task)
  : list task :=
  map (fun r => if id r =? task_id then f r else r) rows.

(** The decoded claimers of a row, and the list [claim_task] and
    [unclaim_task] write back. *)
Definition claimers (t : task) : list Z := json_loads_or_empty (claimed_by t).

Definition claim_list (u : Z) (l : list Z) : list Z :=
  if negb (py_in u l) then (l ++ [u])%list else l.

Definition unclaim_list (u : Z) (l : list Z) : list Z :=
  if py_in u l then py_remove u l else l.

Definition with_tasks (rows : list task) (w : world) : world :=
  mkworld (set_tasks rows (db w)) (outbox w).

(** The event [refresh_announcement] sends for a week, read off a
    database, and a world with one more event sent. *)
Definition refresh_event (msg : Z) (wk : string) (d : database) : event :=
  let tasks_week :=
    order_by_due_date
      (filter (fun r => String.eqb (week_start r) wk) (tasks d)) in
  MessageEdit msg wk
    (map (fun t => mkfield (id t) (negb (completed t =? 0)) (title t)
                           (due_date t) (json_loads_or_empty (claimed_by t)))
         tasks_week)
    (flat_map (fun t => [BtnClaim (id t); BtnComplete (id t)])
              (filter (fun tt => completed tt =? 0) tasks_week)).

Definition say (e : event) (w : world) : world :=
  mkworld (db w) (outbox w ++ [e]).

(** Sample rows and worlds for the concrete instances. *)
Definition ex_task (done : Z) (who : option (list Z)) : task :=
  mktask 1 "report" "" "2025-01-02" 10 "2024-12-30T08:00:00" done who
         "2024-12-30".

Definition ex_row (task_id : Z) (due : string) : task :=
  mktask task_id "slides" "" due 10 "2024-12-30T08:00:00" 0 None "2024-12-30".

Definition ex_world (rows : list task) : world :=
  mkworld (mkdatabase rows [] 1) [].
Definition ex_now : datetime := mkdatetime (mkdate 2025 1 1) 0 0 0 0.

(** The operations on a task, from the store and from Discord, and the
    world each leaves when it runs alone. *)
Inductive action : Type :=
| ActClaim (task_id user_id : Z)
| ActUnclaim (task_id user_id : Z)
| ActCompleteTask (task_id : Z)
| ActCompleteCommand (ctx : context) (task_id : Z)
| ActClaimButton (wk0 : string) (task_id : Z) (i : interaction)
| ActRefreshClaimButton (wk0 : string) (task_id : Z) (i : interaction)
| ActCompleteButton (wk0 : string) (task_id : Z) (i : interaction).

Definition perform (a : action) (w : world) : world :=
  match a with
  | ActClaim t u => snd (claim_task t u w)
  | ActUnclaim t u => snd (unclaim_task t u w)
  | ActCompleteTask t => snd (complete_task t w)
  | ActCompleteCommand ctx t => snd (run_coro (_complete ctx t) w)
  | ActClaimButton wk t i => snd (run_coro (make_claim_callback wk t i) w)
  | ActRefreshClaimButton wk t i =>
      snd (run_coro (refresh_make_claim_callback wk t i) w)
  | ActCompleteButton wk t i => snd (run_coro (make_complete_callback wk t i) w)
  end.

(** A change of a row that keeps its id and never clears [completed]. *)
Definition keeps_done (f : task -> task) : Prop :=
  forall r, id (f r) = id r /\ (completed r <> 0 -> completed (f r) <> 0).

(** A claim button of either kind: from [_announce_week] or from
    [refresh_announcement]. *)
Definition claim_button (announced : bool) (wk0 : string) (task_id : Z)
    (i : interaction) : coro :=
  if announced then make_claim_callback wk0 task_id i
  else refresh_make_claim_callback wk0 task_id i.

(** the segment that answers the interaction *)
Definition respond_claimed (task_id : Z) : coro :=
  Seg (await (emit (InteractionSend (TxtClaimed task_id))) Stop).

Definition has_claimed (task_id u : Z) (w : world) : Prop :=
  exists t, find_task task_id (db w) = Some t /\ In u (claimers t).

Definition task_exists (task_id : Z) (w : world) : Prop :=
  exists t, find_task task_id (db w) = Some t.

(** where a claim handler of user [u] stands *)
Definition claim_stage (announced : bool) (wk0 : string) (task_id : Z)
    (i : interaction) (c : coro) (w : world) : Prop :=
  c = claim_button announced wk0 task_id i
  \/ ((c = respond_claimed task_id \/ c = Stop)
      /\ has_claimed task_id (user i) w).

(** Rows in ascending order of the [due_date] text. *)
Definition due_le (a b : task) : Prop :=
  String.leb (due_date a) (due_date b) = true.

(** the reminder a scan owes a row *)
Definition reminder_text (r : task) : text :=
  match json_loads_or_empty (claimed_by r) with
  | _ :: _ =>
      TxtReminderClaimed (id r) (title r) (due_date r)
                         (json_loads_or_empty (claimed_by r))
  | [] => TxtReminderUnclaimed (id r) (title r) (due_date r)
  end.

(** whether an event is a reminder about the task with this id *)
Definition reminder_about (task_id : Z) (e : event) : bool :=
  match e with
  | ChannelSend _ (TxtReminderClaimed i _ _ _) => i =? task_id
  | ChannelSend _ (TxtReminderUnclaimed i _ _) => i =? task_id
  | _ => false
  end.

Definition is_channel_send (e : event) : bool :=
  match e with
  | ChannelSend _ _ => true
  | _ => false
  end.

(** Whether the due date of a row parses to an aware datetime, on which
    the scan stops, and whether it parses to a naive one inside the
    window. *)
Definition due_aware (fromisoformat : string -> option iso_datetime)
    (r : task) : bool :=
  match parse_due fromisoformat (due_date r) with
  | Some (Aware _ _) => true
  | _ => false
  end.

Definition in_window (fromisoformat : string -> option iso_datetime)
    (now soon : datetime) (r : task) : bool :=
  match parse_due fromisoformat (due_date r) with
  | Some (Naive due) => datetime_leb now due && datetime_leb due soon
  | _ => false
  end.

(** The rows before the first one whose due date is aware. *)
Fixpoint scanned (fromisoformat : string -> option iso_datetime)
    (rows : list task) : list task :=
  match rows with
  | [] => []
  | r :: rest =>
      if due_aware fromisoformat r then []
      else r :: scanned fromisoformat rest
  end.

(** What the loop body of [check_deadlines] sends for one row. *)
Definition notice (PROJECT_CHANNEL_ID : Z) (get_channel : Z -> option Z)
    (fromisoformat : string -> option iso_datetime) (now soon : datetime)
    (r : task) : list event :=
  if in_window fromisoformat now soon r then
    match get_channel PROJECT_CHANNEL_ID with
    | None => [LogWarning]
    | Some channel => [ChannelSend channel (reminder_text r)]
    end
  else [].

(** * The remaining commands and the store as a whole *)

(** [DELETE FROM <table> WHERE ...] on task rows. *)
Definition delete_tasks (table : string) (params : list Z)
    (where_ : task -> bool) : M unit :=
  cursor_table table ;;
  bind_params params ;;
  d <- get_db ;;
  put_db (set_tasks (filter (fun r => negb (where_ r)) (tasks d)) d).

(** [INSERT OR REPLACE INTO announcements (message_id, week_start)]:
    [message_id] is the primary key, so a row with the same key goes. *)
Definition replace_announcement (table : string) (a : announcement)
  : M unit :=
  cursor_table table ;;
  d <- get_db ;;
  put_db (mkdatabase (tasks d)
            (filter (fun b => negb (message_id b =? message_id a))
                    (announcements d) ++ [a])
            (tasks_seq d)).

(** [try: m except ValueError as e: handler(e)]: any other exception goes
    on to the caller. *)
Definition except_ValueError {A : Type} (m : M A) (handler : string -> M A)
  : M A :=
  fun w =>
    match m w with
    | (Raise (ValueError msg), w') => handler msg w'
    | r => r
    end.

(** One field of the embed built by [_announce_week]: its text has the
    id, the title, the due date and the claimers, and no status mark. *)
Record announce_field : Type := mkafield {
  a_id : Z;
  a_title : string;
  a_due : string;
  a_claimers : list Z
}.

(** Each of the commands below calls [ctx.send] once on every path, and
    the result stands for that message: which text it is and the values
    put into it. *)
Inductive reply : Type :=
| ReplyDeleteDenied
| ReplyDeleteMissing (task_id : Z)
| ReplyDeleted (task_id : Z)
| ReplyWrongChannel
| ReplyDateError (msg : string)
| ReplyTaskAdded (task_id : Z) (ttl due : string)
| ReplyBadWeek
| ReplyNoTasks
| ReplyNoOpenTasks
| ReplyTaskLines (lines : list embed_field)
| ReplyAnnouncement (week : string) (fields : list announce_field)
                    (view : list button).

(** [_deletetask]; [can_manage] is
    [ctx.author.guild_permissions.manage_messages]. *)
Definition _deletetask (can_manage : bool) (task_id : Z) : M reply :=
  if negb can_manage then ret ReplyDeleteDenied
  else
    rows <- select_tasks "tasks" [task_id] (fun r => id r =? task_id) ;;
    match hd_error rows with
    | None => ret (ReplyDeleteMissing task_id)
    | Some _ =>
        delete_tasks "tasks" [task_id] (fun r => id r =? task_id) ;;
        ret (ReplyDeleted task_id)
    end.

(** The line of [_listtasks] for a row: id, status, title, due date,
    claimers. *)
Definition task_line (t : task) : embed_field :=
  mkfield (id t) (negb (completed t =? 0)) (title t) (due_date t)
          (json_loads_or_empty (claimed_by t)).

(** The embed field of [_announce_week] for a row. *)
Definition announce_field_of (t : task) : announce_field :=
  mkafield (id t) (title t) (due_date t)
           (json_loads_or_empty (claimed_by t)).

(** The default week of the commands:
    [(today - timedelta(days=today.weekday())).isoformat()]. *)
Definition current_week (today : date) : M string :=
  match week_start_of today with
  | Some monday => ret (isoformat monday)
  | None => raise OverflowError
  end.

(** [try: parse_date(week_start) except ValueError: ...]: whether the
    text passed the check. *)
Definition week_text_ok (wk : string) : M bool :=
  except_ValueError
    (match parse_date wk with
     | Raise e => raise e
     | Ret _ => ret true
     end)
    (fun _ => ret false).

(** [_listtasks]; [today] is [date.today()], read only when no week is
    given. *)
Definition _listtasks (week_start_arg : option string) (today : date)
  : M reply :=
  wk <- match week_start_arg with
        | None => current_week today
        | Some s => ret s
        end ;;
  ok <- week_text_ok wk ;;
  if negb ok then ret ReplyBadWeek
  else
    tasks_week <- get_tasks_for_week wk ;;
    match tasks_week with
    | [] => ret ReplyNoTasks
    | _ :: _ => ret (ReplyTaskLines (map task_line tasks_week))
    end.

Section Commands.

(** [PROJECT_CHANNEL_ID], 0 when the restriction is off. *)
Variable PROJECT_CHANNEL_ID : Z.

(** [PROJECT_CHANNEL_ID and ctx.channel.id != PROJECT_CHANNEL_ID] *)
Definition wrong_channel (channel_id : Z) : bool :=
  negb (PROJECT_CHANNEL_ID =? 0) && negb (channel_id =? PROJECT_CHANNEL_ID).

(** [_addtask]; [channel_id] is [ctx.channel.id], [author_id] is
    [ctx.author.id]. *)
Definition _addtask (channel_id author_id : Z)
    (ttl due_date_str descr utcnow : string) : M reply :=
  if wrong_channel channel_id then ret ReplyWrongChannel
  else
    except_ValueError
      (tid <- add_task ttl due_date_str descr author_id utcnow ;;
       ret (ReplyTaskAdded tid ttl due_date_str))
      (fun msg => ret (ReplyDateError msg)).

(** [_announce_week], run without interruption; [sent_id] is the id
    Discord gives the message that [ctx.send(embed=embed, view=view)]
    posts. *)
Definition _announce_week (channel_id : Z) (week_start_arg : option string)
    (today : date) (sent_id : Z) : M reply :=
  if wrong_channel channel_id then ret ReplyWrongChannel
  else
    wk <- match week_start_arg with
          | None => current_week today
          | Some s => ret s
          end ;;
    ok <- week_text_ok wk ;;
    if negb ok then ret ReplyBadWeek
    else
      tasks_week <- get_open_tasks_for_week wk ;;
      match tasks_week with
      | [] => ret ReplyNoOpenTasks
      | _ :: _ =>
          replace_announcement "announcements" (mkannouncement sent_id wk) ;;
          ret (ReplyAnnouncement wk (map announce_field_of tasks_week)
                 (flat_map (fun t => [BtnClaim (id t); BtnComplete (id t)])
                           tasks_week))
      end.

End Commands.

(** ** What holds of every store the bot builds *)

(** The primary key of [tasks]: ids are distinct and none is above the
    AUTOINCREMENT counter. *)
Definition key_ok (d : database) : Prop :=
  NoDup (map id (tasks d)) /\ Forall (fun r => id r <= tasks_seq d) (tasks d).

(** A row as [add_task] writes its dates: [due_date] is the ISO text of a
    date and [week_start] the ISO text of the Monday of its week. *)
Definition dated_row (r : task) : Prop :=
  exists due monday,
    valid_dateb due = true /\ week_start_of due = Some monday
    /\ due_date r = isoformat due /\ week_start r = isoformat monday.

(** No user is listed twice among the claimers of a row. *)
Definition claimers_set (r : task) : Prop := NoDup (claimers r).

Definition store_ok (d : database) : Prop :=
  key_ok d /\ Forall dated_row (tasks d) /\ Forall claimers_set (tasks d).

(** A change of the rows that touches neither keys nor dates and keeps
    the claimers free of repetitions. *)
Definition gentle (rows : list task) (f : task -> task) : Prop :=
  forall r, id (f r) = id r /\ due_date (f r) = due_date r
            /\ week_start (f r) = week_start r
            /\ (Forall claimers_set rows -> claimers_set r ->
                claimers_set (f r)).

(** Everything that writes to the store: [add_task], the operations of
    [action] and [_deletetask]. *)
Inductive command : Type :=
| CmdAdd (ttl due_date_str descr : string) (creator : Z) (utcnow : string)
| CmdAct (a : action)
| CmdDelete (can_manage : bool) (task_id : Z).

Definition execute (c : command) (w : world) : world :=
  match c with
  | CmdAdd ttl due descr creator utcnow =>
      snd (add_task ttl due descr creator utcnow w)
  | CmdAct a => perform a w
  | CmdDelete can_manage task_id => snd (_deletetask can_manage task_id w)
  end.

(** The database before [init_db] has seen any row. *)
Definition empty_world : world := mkworld (mkdatabase [] [] 0) [].

(** Midnight of a date, what [strptime(..., "%Y-%m-%d")] yields. *)
Definition midnight (d : date) : datetime := mkdatetime d 0 0 0 0.

(** The checks of [_check_time_fields]: the times a [datetime] holds. *)
Definition valid_timeb (dt : datetime) : bool :=
  (0 <=? hour dt) && (hour dt <? 24) && (0 <=? minute dt) && (minute dt <? 60)
  && (0 <=? second dt) && (second dt <? 60)
  && (0 <=? microsecond dt) && (microsecond dt <? 1000000).

(** The dates of one Monday-to-Sunday week share the number of whole
    weeks since 0001-01-01, a Monday. *)
Definition week_number (d : date) : Z := (toordinal d - 1) / 7.

(** The seconds from the start of 0001-01-01 to a datetime, and the
    microseconds. *)
Definition seconds_of (dt : datetime) : Z :=
  toordinal (dt_date dt) * 86400 + hour dt * 3600 + minute dt * 60 + second dt.

Definition micros_of (dt : datetime) : Z :=
  seconds_of dt * 1000000 + microsecond dt.

(** A [datetime] the constructor accepts. *)
Definition valid_datetimeb (dt : datetime) : bool :=
  valid_dateb (dt_date dt) && valid_timeb dt.

(** * Theorems *)

(** ** The calendar *)

Lemma all_from_spec fuel : forall i p, all_from fuel i p = true ->
  forall j, i <= j < i + Z.of_nat fuel -> p j = true.
Proof.
  induction fuel as [|k IH]; intros i p H j Hj.
  - simpl in Hj. lia.
  - simpl in H. apply andb_true_iff in H as [Hi Hk].
    destruct (Z.eq_dec j i) as [->|Hne]; [exact Hi|].
    apply (IH (i + 1) p Hk). lia.
Qed.

Lemma month_day_all leap : all_from 365 0 (month_day_ok leap) = true.
Proof. destruct leap; vm_compute; reflexivity. Qed.

Lemma month_day_spec leap n : 0 <= n < 365 ->
  let '(m, d) := month_day leap n in
  1 <= m <= 12 /\ 1 <= d <= (if (m =? 2) && leap then 29 else DAYS_IN_MONTH m)
  /\ DAYS_BEFORE_MONTH m + (if (2 <? m) && leap then 1 else 0) + d = n + 1.
Proof.
  intros Hn.
  pose proof (all_from_spec 365 0 _ (month_day_all leap) n ltac:(lia)) as H.
  unfold month_day_ok in H. destruct (month_day leap n) as [m d].
  rewrite !andb_true_iff in H. lia.
Qed.

Lemma ord2ymd_eq n0 :
  ord2ymd n0 =
  let n := n0 - 1 in
  let n400 := n / DI400Y in
  let n := n mod DI400Y in
  let n100 := n / DI100Y in
  let n := n mod DI100Y in
  let n4 := n / DI4Y in
  let n := n mod DI4Y in
  let n1 := n / 365 in
  let n := n mod 365 in
  let y := n400 * 400 + 1 + n100 * 100 + n4 * 4 + n1 in
  if (n1 =? 4) || (n100 =? 4) then mkdate (y - 1) 12 31
  else
    let leapyear := (n1 =? 3) && (negb (n4 =? 24) || (n100 =? 3)) in
    mkdate y (fst (month_day leapyear n)) (snd (month_day leapyear n)).
Proof.
  unfold ord2ymd, month_day. cbv zeta.
  destruct (_ || _); [reflexivity|].
  destruct (_ <? _); reflexivity.
Qed.

Lemma is_leap_spec y :
  is_leap y = true <-> (y mod 4 = 0 /\ (y mod 100 <> 0 \/ y mod 400 = 0)).
Proof.
  unfold is_leap.
  rewrite andb_true_iff, orb_true_iff, negb_true_iff, !Z.eqb_eq, Z.eqb_neq.
  tauto.
Qed.

Lemma ord2ymd_correct n0 : 1 <= n0 ->
  let d := ord2ymd n0 in
  toordinal d = n0 /\ 1 <= month d <= 12
  /\ 1 <= day d <= days_in_month (year d) (month d)
  /\ 1 <= year d /\ days_before_year (year d) < n0.
Proof.
  intros Hn0. cbv zeta. rewrite ord2ymd_eq. cbv zeta.
  unfold DI400Y, DI100Y, DI4Y.
  set (a := n0 - 1).
  assert (Ha : 0 <= a) by (unfold a; lia).
  pose proof (Z.div_mod a 146097 ltac:(lia)) as E400.
  pose proof (Z.mod_pos_bound a 146097 ltac:(lia)) as B400.
  set (n400 := a / 146097) in *. set (r400 := a mod 146097) in *.
  pose proof (Z.div_mod r400 36524 ltac:(lia)) as E100.
  pose proof (Z.mod_pos_bound r400 36524 ltac:(lia)) as B100.
  set (n100 := r400 / 36524) in *. set (r100 := r400 mod 36524) in *.
  pose proof (Z.div_mod r100 1461 ltac:(lia)) as E4.
  pose proof (Z.mod_pos_bound r100 1461 ltac:(lia)) as B4.
  set (n4 := r100 / 1461) in *. set (r4 := r100 mod 1461) in *.
  pose proof (Z.div_mod r4 365 ltac:(lia)) as E1.
  pose proof (Z.mod_pos_bound r4 365 ltac:(lia)) as B1.
  set (n1 := r4 / 365) in *. set (n := r4 mod 365) in *.
  assert (H400 : 0 <= n400) by lia.
  assert (H100 : 0 <= n100 <= 4) by lia.
  assert (H4 : 0 <= n4 <= 24) by lia.
  assert (H1 : 0 <= n1 <= 4) by lia.
  clearbody n400 r400 n100 r100 n4 r4 n1 n.
  destruct ((n1 =? 4) || (n100 =? 4)) eqn:Hlast.
  - apply orb_true_iff in Hlast. rewrite !Z.eqb_eq in Hlast.
    unfold toordinal, ymd2ord, days_before_month, days_in_month,
      days_before_year.
    cbn [year month day].
    change (12 =? 2) with false. change (2 <? 12) with true.
    cbn [andb DAYS_IN_MONTH DAYS_BEFORE_MONTH].
    set (y := n400 * 400 + 1 + n100 * 100 + n4 * 4 + n1 - 1).
    assert (Hleap : is_leap y = true).
    { apply is_leap_spec. unfold y. clear y. Z.div_mod_to_equations. lia. }
    rewrite Hleap. subst y. Z.div_mod_to_equations. lia.
  - apply orb_false_iff in Hlast. rewrite !Z.eqb_neq in Hlast.
    set (leap := (n1 =? 3) && (negb (n4 =? 24) || (n100 =? 3))).
    pose proof (month_day_spec leap n ltac:(lia)) as Hmd.
    destruct (month_day leap n) as [m d]. cbn [fst snd].
    unfold toordinal, ymd2ord, days_before_month, days_in_month,
      days_before_year.
    cbn [year month day].
    set (y := n400 * 400 + 1 + n100 * 100 + n4 * 4 + n1).
    assert (Hleap : is_leap y = leap).
    { apply eq_true_iff_eq. rewrite is_leap_spec. unfold leap.
      rewrite andb_true_iff, orb_true_iff, negb_true_iff, !Z.eqb_eq, Z.eqb_neq.
      unfold y. clear - H400 H100 H4 H1 Hlast. Z.div_mod_to_equations. lia. }
    rewrite Hleap. subst y.
    destruct Hmd as (Hm & Hd & Hsum).
    Z.div_mod_to_equations. lia.
Qed.

Lemma days_before_year_mono a b : 1 <= a <= b ->
  days_before_year a <= days_before_year b.
Proof. unfold days_before_year. intros H. Z.div_mod_to_equations. lia. Qed.

Lemma days_before_year_succ y :
  days_before_year (y + 1) = days_before_year y + 365 + (if is_leap y then 1 else 0).
Proof.
  unfold days_before_year.
  destruct (is_leap y) eqn:E.
  - apply is_leap_spec in E. Z.div_mod_to_equations. lia.
  - assert (~ (y mod 4 = 0 /\ (y mod 100 <> 0 \/ y mod 400 = 0))) as N
      by (rewrite <- is_leap_spec; congruence).
    Z.div_mod_to_equations. lia.
Qed.

Lemma valid_date_spec d : valid_dateb d = true <->
  1 <= year d <= 9999 /\ 1 <= month d <= 12
  /\ 1 <= day d <= days_in_month (year d) (month d).
Proof.
  unfold valid_dateb, MINYEAR, MAXYEAR. rewrite !andb_true_iff, !Z.leb_le. lia.
Qed.

Lemma month_cases m : 1 <= m <= 12 ->
  m = 1 \/ m = 2 \/ m = 3 \/ m = 4 \/ m = 5 \/ m = 6 \/ m = 7 \/ m = 8
  \/ m = 9 \/ m = 10 \/ m = 11 \/ m = 12.
Proof. lia. Qed.

Lemma toordinal_bounds d : valid_dateb d = true ->
  days_before_year (year d) < toordinal d <= days_before_year (year d + 1).
Proof.
  rewrite valid_date_spec. intros (Hy & Hm & Hd).
  rewrite days_before_year_succ.
  unfold toordinal, ymd2ord, days_before_month, days_in_month in *.
  destruct (is_leap (year d));
    destruct (month_cases _ Hm) as [E|[E|[E|[E|[E|[E|[E|[E|[E|[E|[E|E]]]]]]]]]]];
    rewrite E in *; cbn in *; lia.
Qed.

Lemma toordinal_range d : valid_dateb d = true ->
  1 <= toordinal d <= MAXORDINAL.
Proof.
  intros Hv. pose proof (toordinal_bounds d Hv) as Hb.
  apply valid_date_spec in Hv as (Hy & _).
  pose proof (days_before_year_mono 1 (year d) ltac:(lia)).
  pose proof (days_before_year_mono (year d + 1) 10000 ltac:(lia)).
  change (days_before_year 1) with 0 in *.
  change (days_before_year 10000) with MAXORDINAL in *. lia.
Qed.

Lemma fromordinal_valid n : 1 <= n <= MAXORDINAL ->
  valid_dateb (fromordinal n) = true /\ toordinal (fromordinal n) = n.
Proof.
  intros Hn. unfold fromordinal.
  pose proof (ord2ymd_correct n ltac:(lia)) as H. cbv zeta in H.
  destruct H as (Ho & Hm & Hd & Hy & Hlt).
  split; [|exact Ho].
  apply valid_date_spec. repeat split; try lia.
  destruct (Z_le_gt_dec (year (ord2ymd n)) 9999) as [|Hbig]; [assumption|].
  pose proof (days_before_year_mono 10000 (year (ord2ymd n)) ltac:(lia)).
  change (days_before_year 10000) with MAXORDINAL in *. lia.
Qed.

Lemma toordinal_inj a b : valid_dateb a = true -> valid_dateb b = true ->
  toordinal a = toordinal b -> a = b.
Proof.
  intros Ha Hb E.
  pose proof (toordinal_bounds a Ha) as Ba.
  pose proof (toordinal_bounds b Hb) as Bb.
  apply valid_date_spec in Ha as (Hya & Hma & Hda).
  apply valid_date_spec in Hb as (Hyb & Hmb & Hdb).
  assert (Ey : year a = year b).
  { destruct (Z.lt_trichotomy (year a) (year b)) as [L|[L|L]]; [|exact L|].
    - pose proof (days_before_year_mono (year a + 1) (year b) ltac:(lia)). lia.
    - pose proof (days_before_year_mono (year b + 1) (year a) ltac:(lia)). lia. }
  destruct a as [ya ma da], b as [yb mb db]. cbn [year month day] in *.
  subst yb.
  unfold toordinal, ymd2ord, days_before_month, days_in_month in *.
  cbn [year month day] in *.
  assert (ma = mb /\ da = db) as [-> ->]; [|reflexivity].
  destruct (is_leap ya);
    destruct (month_cases _ Hma) as [E1|[E1|[E1|[E1|[E1|[E1|[E1|[E1|[E1|[E1|[E1|E1]]]]]]]]]]];
    destruct (month_cases _ Hmb) as [E2|[E2|[E2|[E2|[E2|[E2|[E2|[E2|[E2|[E2|[E2|E2]]]]]]]]]]];
    rewrite E1, E2 in *; cbn in *; lia.
Qed.

Lemma toordinal_compare a b : valid_dateb a = true -> valid_dateb b = true ->
  (toordinal a ?= toordinal b) = date_compare a b.
Proof.
  intros Ha Hb.
  pose proof (toordinal_bounds a Ha) as Ba.
  pose proof (toordinal_bounds b Hb) as Bb.
  apply valid_date_spec in Ha as (Hya & Hma & Hda).
  apply valid_date_spec in Hb as (Hyb & Hmb & Hdb).
  unfold date_compare.
  destruct (Z.compare_spec (year a) (year b)) as [Ey|Ly|Ly].
  - destruct a as [ya ma da], b as [yb mb db]. cbn [year month day] in *.
    subst yb. clear Ba Bb.
    unfold toordinal, ymd2ord, days_before_month, days_in_month in *.
    cbn [year month day] in *.
    destruct (Z.compare_spec ma mb) as [Em|Lm|Lm].
    + subst mb. destruct (Z.compare_spec da db); 
        [apply Z.compare_eq_iff|apply Z.compare_lt_iff|apply Z.compare_gt_iff]; lia.
    + apply Z.compare_lt_iff.
      destruct (is_leap ya);
      destruct (month_cases _ Hma) as [E1|[E1|[E1|[E1|[E1|[E1|[E1|[E1|[E1|[E1|[E1|E1]]]]]]]]]]];
      destruct (month_cases _ Hmb) as [E2|[E2|[E2|[E2|[E2|[E2|[E2|[E2|[E2|[E2|[E2|E2]]]]]]]]]]];
      rewrite E1, E2 in *; cbn in *; lia.
    + apply Z.compare_gt_iff.
      destruct (is_leap ya);
      destruct (month_cases _ Hma) as [E1|[E1|[E1|[E1|[E1|[E1|[E1|[E1|[E1|[E1|[E1|E1]]]]]]]]]]];
      destruct (month_cases _ Hmb) as [E2|[E2|[E2|[E2|[E2|[E2|[E2|[E2|[E2|[E2|[E2|E2]]]]]]]]]]];
      rewrite E1, E2 in *; cbn in *; lia.
  - apply Z.compare_lt_iff.
    pose proof (days_before_year_mono (year a + 1) (year b) ltac:(lia)). lia.
  - apply Z.compare_gt_iff.
    pose proof (days_before_year_mono (year b + 1) (year a) ltac:(lia)). lia.
Qed.

Lemma weekday_range d : 0 <= weekday d <= 6.
Proof. unfold weekday. pose proof (Z.mod_pos_bound (toordinal d + 6) 7). lia. Qed.

Lemma week_start_of_some d : valid_dateb d = true ->
  week_start_of d = Some (fromordinal (toordinal d - weekday d))
  /\ 1 <= toordinal d - weekday d <= MAXORDINAL.
Proof.
  intros Hv. pose proof (toordinal_range d Hv) as Hr.
  assert (Hw : 1 <= toordinal d - weekday d).
  { unfold weekday. Z.div_mod_to_equations. lia. }
  pose proof (weekday_range d) as Hwd.
  split; [|lia].
  unfold week_start_of, date_sub_days.
  replace (toordinal d + - weekday d) with (toordinal d - weekday d) by lia.
  destruct (0 <? _) eqn:E1; [|apply Z.ltb_ge in E1; lia].
  destruct (_ <=? MAXORDINAL) eqn:E2; [|apply Z.leb_gt in E2; lia].
  reflexivity.
Qed.


Lemma monday_arith o : ((o - (o + 6) mod 7) + 6) mod 7 = 0.
Proof. Z.div_mod_to_equations. lia. Qed.

Lemma monday_max o o' : (o' + 6) mod 7 = 0 -> o' <= o ->
  o' <= o - (o + 6) mod 7.
Proof. intros H1 H2. Z.div_mod_to_equations. lia. Qed.

(** C9.  The week bucket of every date the constructor accepts exists
    (the subtraction never overflows), is itself such a date, is a
    Monday, is on or before the date and at most six days before it, is
    the latest Monday on or before the date, and is its own week
    bucket. *)
Theorem week_start_of_is_monday (d : date) (Hv : valid_dateb d = true) :
  exists m,
    week_start_of d = Some m
    /\ valid_dateb m = true
    /\ weekday m = 0
    /\ date_compare m d <> Gt
    /\ 0 <= toordinal d - toordinal m <= 6
    /\ (forall m', valid_dateb m' = true -> weekday m' = 0 ->
          date_compare m' d <> Gt -> date_compare m' m <> Gt)
    /\ week_start_of m = Some m.
Proof.
  destruct (week_start_of_some d Hv) as [Hws Hr].
  destruct (fromordinal_valid _ Hr) as [Hvm Hom].
  pose proof (weekday_range d) as Hwd.
  remember (fromordinal (toordinal d - weekday d)) as m eqn:Em.
  clear Em.
  assert (Hwm : weekday m = 0).
  { unfold weekday at 1. rewrite Hom. unfold weekday. apply monday_arith. }
  exists m.
  split; [exact Hws|]. split; [exact Hvm|]. split; [exact Hwm|].
  split.
  { rewrite <- (toordinal_compare m d Hvm Hv). rewrite Hom.
    rewrite Z.compare_gt_iff. lia. }
  split; [rewrite Hom; lia|].
  split.
  { intros m' Hv' Hw' Hle.
    rewrite <- (toordinal_compare m' d Hv' Hv) in Hle.
    rewrite <- (toordinal_compare m' m Hv' Hvm).
    rewrite Z.compare_gt_iff in Hle. rewrite Z.compare_gt_iff. rewrite Hom.
    unfold weekday in Hw'.
    pose proof (monday_max (toordinal d) (toordinal m') Hw' ltac:(lia)) as Hmax.
    unfold weekday. lia. }
  destruct (week_start_of_some m Hvm) as [Hws' _].
  rewrite Hws', Hwm, Z.sub_0_r.
  f_equal. apply toordinal_inj; try assumption.
  - apply fromordinal_valid. apply toordinal_range. exact Hvm.
  - apply fromordinal_valid. apply toordinal_range. exact Hvm.
Qed.

Lemma week_start_of_is_monday_witness :
  valid_dateb (mkdate 2025 1 1) = true
  /\ exists m,
    week_start_of (mkdate 2025 1 1) = Some m
    /\ valid_dateb m = true
    /\ weekday m = 0
    /\ date_compare m (mkdate 2025 1 1) <> Gt
    /\ 0 <= toordinal (mkdate 2025 1 1) - toordinal m <= 6
    /\ (forall m', valid_dateb m' = true -> weekday m' = 0 ->
          date_compare m' (mkdate 2025 1 1) <> Gt -> date_compare m' m <> Gt)
    /\ week_start_of m = Some m.
Proof.
  split; [reflexivity|].
  exact (week_start_of_is_monday (mkdate 2025 1 1) eq_refl).
Defined.

(** ** The matcher against the texts of a pattern *)

Section MatcherFacts.

Local Open Scope string_scope.

Lemma first_some_app {X A} (f : X -> option A) l1 l2 :
  first_some f (l1 ++ l2) =
  match first_some f l1 with Some a => Some a | None => first_some f l2 end.
Proof.
  induction l1 as [|x l1 IH]; simpl; [reflexivity|].
  destruct (f x); [reflexivity|exact IH].
Qed.

Lemma first_some_ext {X A} (f g : X -> option A) l :
  (forall x, In x l -> f x = g x) -> first_some f l = first_some g l.
Proof.
  induction l as [|x l IH]; simpl; intros H; [reflexivity|].
  rewrite (H x (or_introl eq_refl)). destruct (g x); [reflexivity|].
  apply IH. intros y Hy. apply H. right. exact Hy.
Qed.

Lemma first_some_map {X Y A} (h : X -> Y) (f : Y -> option A) l :
  first_some f (map h l) = first_some (fun x => f (h x)) l.
Proof.
  induction l as [|x l IH]; simpl; [reflexivity|].
  destruct (f (h x)); [reflexivity|exact IH].
Qed.

Lemma first_some_flat_map {X Y A} (h : X -> list Y) (f : Y -> option A) l :
  first_some f (flat_map h l) = first_some (fun x => first_some f (h x)) l.
Proof.
  induction l as [|x l IH]; simpl; [reflexivity|].
  rewrite first_some_app. destruct (first_some f (h x)); [reflexivity|exact IH].
Qed.

Lemma first_some_none {X A} (f : X -> option A) l :
  (forall x, In x l -> f x = None) -> first_some f l = None.
Proof.
  induction l as [|x l IH]; simpl; intros H; [reflexivity|].
  rewrite (H x (or_introl eq_refl)). apply IH. intros y Hy. apply H. now right.
Qed.

Lemma first_some_unique {X A} (f : X -> option A) l x0 :
  In x0 l -> (forall x, In x l -> f x = None \/ x = x0) ->
  first_some f l = f x0.
Proof.
  intros Hin H.
  destruct (f x0) eqn:E0.
  - induction l as [|x l IH]; simpl; [contradiction|].
    destruct (H x (or_introl eq_refl)) as [Hx| ->].
    + rewrite Hx. destruct Hin as [->|Hin]; [congruence|].
      apply IH; [exact Hin|]. intros y Hy. apply H. now right.
    + now rewrite E0.
  - apply first_some_none. intros x Hx.
    destruct (H x Hx) as [Hn| ->]; assumption.
Qed.

Lemma first_some_sound {X A} (f : X -> option A) l a :
  first_some f l = Some a -> exists x, In x l /\ f x = Some a.
Proof.
  induction l as [|x l IH]; simpl; [discriminate|].
  destruct (f x) eqn:E.
  - intros [= <-]. exists x. auto.
  - intros H. destruct (IH H) as (y & Hy & Hf). exists y. auto.
Qed.

Lemma strip_prefix_spec w : forall s s',
  strip_prefix w s = Some s' <-> s = w ++ s'.
Proof.
  induction w as [|a w IH]; intros s s'; simpl.
  - split; [intros [= ->]; reflexivity|intros ->; reflexivity].
  - destruct s as [|b s]; [split; discriminate|].
    destruct (Ascii.eqb_spec a b) as [->|Hne].
    + rewrite IH. split; [intros ->; reflexivity|intros [= ->]; reflexivity].
    + split; [discriminate|]. intros [= E _]. congruence.
Qed.

Lemma strip_prefix_app w1 : forall w2 s,
  strip_prefix (w1 ++ w2) s =
  match strip_prefix w1 s with
  | Some s' => strip_prefix w2 s'
  | None => None
  end.
Proof.
  induction w1 as [|a w1 IH]; intros w2 s; simpl; [reflexivity|].
  destruct s as [|b s]; [reflexivity|].
  destruct (Ascii.eqb a b); [apply IH|reflexivity].
Qed.

Lemma strip_prefix_refl w s : strip_prefix w (w ++ s) = Some s.
Proof. apply strip_prefix_spec. reflexivity. Qed.

Lemma length_append (a b : string) :
  String.length (a ++ b) = (String.length a + String.length b)%nat.
Proof. induction a as [|c a IH]; simpl; [reflexivity|now rewrite IH]. Qed.

Lemma substring_prefix w : forall s,
  substring 0 (String.length w) (w ++ s) = w.
Proof.
  induction w as [|a w IH]; intros s; simpl.
  - destruct s; reflexivity.
  - now rewrite IH.
Qed.

Lemma consumed_app w s : consumed (w ++ s) s = w.
Proof.
  unfold consumed. rewrite length_append.
  replace (String.length w + String.length s - String.length s)%nat
    with (String.length w) by lia.
  apply substring_prefix.
Qed.

Lemma in_all_ascii c : In c all_ascii.
Proof.
  unfold all_ascii. apply in_map_iff. exists (nat_of_ascii c).
  split; [apply ascii_nat_embedding|].
  apply in_seq. pose proof (nat_ascii_bounded c). lia.
Qed.

Lemma rmatch_class {A} (P : ascii -> bool) s g
    (k : groupdict -> string -> option A) :
  match s with
  | String c' s' => if P c' then k g s' else None
  | EmptyString => None
  end =
  first_some (fun w => match strip_prefix w s with
                       | Some s' => k g s'
                       | None => None
                       end)
             (map char_string (filter P all_ascii)).
Proof.
  destruct s as [|c' s'].
  - symmetry. apply first_some_none. intros w Hw.
    apply in_map_iff in Hw as (c & <- & _). reflexivity.
  - destruct (P c') eqn:E.
    + rewrite (first_some_unique _ _ (char_string c')).
      * simpl. now rewrite Ascii.eqb_refl.
      * apply in_map. apply filter_In. split; [apply in_all_ascii|exact E].
      * intros w Hw. apply in_map_iff in Hw as (c & <- & _). simpl.
        destruct (Ascii.eqb_spec c c') as [->|]; [now right|now left].
    + symmetry. apply first_some_none. intros w Hw.
      apply in_map_iff in Hw as (c & <- & Hc). apply filter_In in Hc as [_ Hc].
      simpl. destruct (Ascii.eqb_spec c c') as [->|]; [congruence|reflexivity].
Qed.

Lemma rmatch_lang {A} r : group_free r = true ->
  forall s g (k : groupdict -> string -> option A),
  rmatch r s g k =
  first_some (fun w => match strip_prefix w s with
                       | Some s' => k g s'
                       | None => None
                       end) (lang r).
Proof.
  induction r as [|c|lo hi| |r1 IH1 r2 IH2|r1 IH1 r2 IH2|n r IH];
    intros Hgf s g k; cbn [rmatch lang].
  - simpl. destruct (k g s); reflexivity.
  - simpl. destruct s as [|c' s]; [reflexivity|].
    destruct (Ascii.eqb c c'); [destruct (k g s)|]; reflexivity.
  - apply rmatch_class.
  - apply (rmatch_class is_digit).
  - cbn [group_free] in Hgf. apply andb_true_iff in Hgf as [H1 H2].
    rewrite (IH1 H1). rewrite first_some_flat_map.
    apply first_some_ext. intros w1 _.
    rewrite first_some_map.
    destruct (strip_prefix w1 s) as [s1|] eqn:E1.
    + rewrite (IH2 H2). apply first_some_ext. intros w2 _.
      rewrite strip_prefix_app, E1. reflexivity.
    + symmetry. apply first_some_none. intros w2 _.
      rewrite strip_prefix_app, E1. reflexivity.
  - cbn [group_free] in Hgf. apply andb_true_iff in Hgf as [H1 H2].
    rewrite first_some_app, (IH1 H1), (IH2 H2). reflexivity.
  - discriminate.
Qed.

Lemma rmatch_group {A} n r : group_free r = true ->
  forall s g (k : groupdict -> string -> option A),
  rmatch (Grp n r) s g k =
  first_some (fun w => match strip_prefix w s with
                       | Some s' => k ((n, w) :: g) s'
                       | None => None
                       end) (lang r).
Proof.
  intros Hgf s g k. cbn [rmatch]. rewrite (rmatch_lang r Hgf).
  apply first_some_ext. intros w _.
  destruct (strip_prefix w s) as [s'|] eqn:E; [|reflexivity].
  apply strip_prefix_spec in E. subst s. now rewrite consumed_app.
Qed.

Lemma split_unique P c1 c2 : P c1 = false -> P c2 = false ->
  forall w w' r r', all_chars P w = true -> all_chars P w' = true ->
  w ++ String c1 r = w' ++ String c2 r' -> w = w' /\ c1 = c2 /\ r = r'.
Proof.
  intros H1 H2. induction w as [|a w IH]; intros w' r r' Hw Hw' E.
  - destruct w' as [|b w']; simpl in *.
    + injection E as -> ->. auto.
    + injection E as -> _. apply andb_true_iff in Hw' as [Hb _]. congruence.
  - destruct w' as [|b w']; simpl in *.
    + injection E as -> _. apply andb_true_iff in Hw as [Ha _]. congruence.
    + injection E as -> E.
      apply andb_true_iff in Hw as [_ Hw]. apply andb_true_iff in Hw' as [_ Hw'].
      destruct (IH w' r r' Hw Hw' E) as (-> & -> & ->). auto.
Qed.

Lemma rmatch_token_sep {A} n r sep R s g (k : groupdict -> string -> option A) :
  group_free r = true ->
  rmatch (Cat (Grp n r) (Cat (Chr sep) R)) s g k =
  first_some (fun w => match strip_prefix w s with
                       | Some (String c s'') =>
                           if Ascii.eqb sep c then rmatch R s'' ((n, w) :: g) k
                           else None
                       | _ => None
                       end) (lang r).
Proof.
  intros Hgf. cbn [rmatch]. rewrite (rmatch_lang r Hgf).
  apply first_some_ext. intros w _.
  destruct (strip_prefix w s) as [s'|] eqn:E; [|reflexivity].
  apply strip_prefix_spec in E. subst s. rewrite consumed_app.
  destruct s' as [|c s'']; reflexivity.
Qed.

Lemma rmatch_token_sep_sound {A} n r sep R s g
    (k : groupdict -> string -> option A) x :
  group_free r = true ->
  rmatch (Cat (Grp n r) (Cat (Chr sep) R)) s g k = Some x ->
  exists w rest, In w (lang r) /\ s = w ++ String sep rest
                 /\ rmatch R rest ((n, w) :: g) k = Some x.
Proof.
  intros Hgf H. rewrite rmatch_token_sep in H by exact Hgf.
  apply first_some_sound in H as (w & Hw & H).
  destruct (strip_prefix w s) as [[|c s'']|] eqn:E; try discriminate.
  destruct (Ascii.eqb_spec sep c) as [<-|]; [|discriminate].
  apply strip_prefix_spec in E. eauto.
Qed.

Lemma rmatch_token_sep_complete {A} P n r sep R w rest g
    (k : groupdict -> string -> option A) :
  group_free r = true -> P sep = false ->
  (forall t, In t (lang r) -> all_chars P t = true) ->
  In w (lang r) ->
  rmatch (Cat (Grp n r) (Cat (Chr sep) R)) (w ++ String sep rest) g k =
  rmatch R rest ((n, w) :: g) k.
Proof.
  intros Hgf Hsep Htok Hw. rewrite rmatch_token_sep by exact Hgf.
  rewrite (first_some_unique _ _ w Hw).
  - rewrite strip_prefix_refl, Ascii.eqb_refl. reflexivity.
  - intros t Ht.
    destruct (strip_prefix t (w ++ String sep rest)) as [[|c s'']|] eqn:E;
      try (now left).
    destruct (Ascii.eqb_spec sep c) as [<-|]; [|now left].
    apply strip_prefix_spec in E. right.
    destruct (split_unique P sep sep Hsep Hsep w t rest s''
                (Htok w Hw) (Htok t Ht) E) as (-> & _).
    reflexivity.
Qed.

Lemma rmatch_last_sound n r s g x :
  group_free r = true ->
  rmatch (Cat (Grp n r) Eps) s g (fun g' s' => Some (g', s')) = Some x ->
  exists w, In w (lang r) /\ s = w ++ snd x /\ fst x = (n, w) :: g.
Proof.
  intros Hgf H. cbn [rmatch] in H. rewrite (rmatch_lang r Hgf) in H.
  apply first_some_sound in H as (w & Hw & H).
  destruct (strip_prefix w s) as [s'|] eqn:E; [|discriminate].
  apply strip_prefix_spec in E. subst s. rewrite consumed_app in H.
  injection H as <-. exists w. auto.
Qed.

Lemma consumed4 a b c d rest :
  consumed (String a (String b (String c (String d rest)))) rest
  = String a (String b (String c (String d ""))).
Proof.
  change (String a (String b (String c (String d rest))))
    with (String a (String b (String c (String d ""))) ++ rest).
  apply consumed_app.
Qed.

Lemma rmatch_year {A} s g (k : groupdict -> string -> option A) :
  rmatch (Grp "Y" re_Y) s g k =
  match s with
  | String a (String b (String c (String d rest))) =>
      if is_digit a && is_digit b && is_digit c && is_digit d
      then k (("Y"%char, String a (String b (String c (String d "")))) :: g) rest
      else None
  | _ => None
  end.
Proof.
  destruct s as [|a [|b [|c [|d rest]]]]; cbn [rmatch re_Y];
    repeat match goal with |- context [is_digit ?x] => destruct (is_digit x) end;
    cbn [andb]; try reflexivity.
  now rewrite consumed4.
Qed.

Lemma existsb_eqb_In w l : existsb (String.eqb w) l = true <-> In w l.
Proof.
  rewrite existsb_exists. split.
  - intros (x & Hx & E). apply String.eqb_eq in E. now subst.
  - intros H. exists w. split; [exact H|apply String.eqb_refl].
Qed.

Lemma month_token_value w : In w (lang re_m) ->
  exists m, py_int w = Some m /\ 1 <= m <= 12 /\ In w (month_texts m).
Proof.
  intros Hw.
  assert (H : month_tokens_ok = true) by (vm_compute; reflexivity).
  unfold month_tokens_ok in H. rewrite forallb_forall in H.
  specialize (H w Hw). destruct (py_int w) as [m|]; [|discriminate].
  rewrite !andb_true_iff, !Z.leb_le, existsb_eqb_In in H.
  exists m. intuition.
Qed.

Lemma day_token_value w : In w (lang re_d) ->
  exists m, py_int w = Some m /\ 1 <= m <= 31 /\ In w (day_texts m).
Proof.
  intros Hw.
  assert (H : day_tokens_ok = true) by (vm_compute; reflexivity).
  unfold day_tokens_ok in H. rewrite forallb_forall in H.
  specialize (H w Hw). destruct (py_int w) as [m|]; [|discriminate].
  rewrite !andb_true_iff, !Z.leb_le, existsb_eqb_In in H.
  exists m. intuition.
Qed.

Lemma texts_ok_spec texts toks m w : texts_ok texts toks m = true ->
  In w (texts m) -> In w toks /\ py_int w = Some m.
Proof.
  unfold texts_ok. rewrite forallb_forall. intros H Hw.
  specialize (H w Hw). apply andb_true_iff in H as [H1 H2].
  apply existsb_eqb_In in H1. split; [exact H1|].
  destruct (py_int w) as [m'|]; [|discriminate].
  apply Z.eqb_eq in H2. now subst.
Qed.

Lemma month_text_token m w : 1 <= m <= 12 -> In w (month_texts m) ->
  In w (lang re_m) /\ py_int w = Some m.
Proof.
  intros Hm. apply texts_ok_spec.
  assert (H : all_from 12 1 (texts_ok month_texts (lang re_m)) = true)
    by (vm_compute; reflexivity).
  apply (all_from_spec _ _ _ H). simpl. lia.
Qed.

Lemma day_text_token m w : 1 <= m <= 31 -> In w (day_texts m) ->
  In w (lang re_d) /\ py_int w = Some m.
Proof.
  intros Hm. apply texts_ok_spec.
  assert (H : all_from 31 1 (texts_ok day_texts (lang re_d)) = true)
    by (vm_compute; reflexivity).
  apply (all_from_spec _ _ _ H). simpl. lia.
Qed.

Lemma month_token_chars t : In t (lang re_m) -> all_chars token_char t = true.
Proof.
  assert (H : forallb (all_chars token_char) (lang re_m) = true)
    by (vm_compute; reflexivity).
  rewrite forallb_forall in H. apply H.
Qed.

Lemma day_token_chars t : In t (lang re_d) -> all_chars token_char t = true.
Proof.
  assert (H : forallb (all_chars token_char) (lang re_d) = true)
    by (vm_compute; reflexivity).
  rewrite forallb_forall in H. apply H.
Qed.

Lemma day_token_short t : In t (lang re_d) -> (String.length t <= 2)%nat.
Proof.
  assert (H : forallb (fun t => Nat.leb (String.length t) 2) (lang re_d) = true)
    by (vm_compute; reflexivity).
  rewrite forallb_forall in H. intros Ht. apply Nat.leb_le. now apply H.
Qed.

Lemma first_some_total {X A B} (p : X -> option B) (K : X -> B -> option A) l :
  (forall x b, K x b <> None) ->
  first_some (fun x => match p x with Some b => K x b | None => None end) l =
  match first_some (fun x => option_map (pair x) (p x)) l with
  | Some (x, b) => K x b
  | None => None
  end.
Proof.
  intros HK. induction l as [|x l IH]; simpl; [reflexivity|].
  destruct (p x) as [b|]; simpl; [|exact IH].
  destruct (K x b) eqn:E; [reflexivity|]. now apply HK in E.
Qed.

Lemma rmatch_cat {A} r1 r2 s g (k : groupdict -> string -> option A) :
  rmatch (Cat r1 r2) s g k = rmatch r1 s g (fun g' s' => rmatch r2 s' g' k).
Proof. reflexivity. Qed.

Lemma first_prefix_last toks wd n (g : groupdict) :
  first_prefix toks wd = Some (wd, "") ->
  first_some (fun w => match strip_prefix w wd with
                       | Some s' => Some ((n, w) :: g, s')
                       | None => None
                       end) toks
  = Some ((n, wd) :: g, "").
Proof.
  unfold first_prefix. intros H.
  rewrite (first_some_total (fun w => strip_prefix w wd)
             (fun w s' => Some ((n, w) :: g, s'))) by discriminate.
  rewrite H. reflexivity.
Qed.

Lemma forallb_In {X} (p : X -> bool) l x :
  forallb p l = true -> In x l -> p x = true.
Proof. intros H. now apply forallb_forall. Qed.

Lemma first_prefix_is_spec toks wd :
  first_prefix_is toks wd = true -> first_prefix toks wd = Some (wd, "").
Proof.
  unfold first_prefix_is.
  destruct (first_prefix toks wd) as [[w s']|]; [|discriminate].
  intros H. apply andb_true_iff in H as [H1 H2].
  apply String.eqb_eq in H1, H2. now subst.
Qed.

Lemma day_last_ok_true :
  forallb (first_prefix_is (lang re_d)) (lang re_d) = true.
Proof. vm_compute. reflexivity. Qed.

Lemma day_first_prefix wd : In wd (lang re_d) ->
  first_prefix (lang re_d) wd = Some (wd, "").
Proof.
  intros Hw. apply first_prefix_is_spec.
  exact (forallb_In _ _ wd day_last_ok_true Hw).
Qed.

Lemma rmatch_day_last wd g : In wd (lang re_d) ->
  rmatch (Cat (Grp "d" re_d) Eps) wd g (fun g' s' => Some (g', s'))
  = Some (("d"%char, wd) :: g, "").
Proof.
  intros Hw. rewrite rmatch_cat, (rmatch_group "d" re_d eq_refl).
  apply first_prefix_last. apply day_first_prefix. exact Hw.
Qed.

(** digits *)
Lemma is_digit_code c : is_digit c = true <-> (48 <= code c <= 57)%N.
Proof.
  unfold is_digit, in_range. rewrite andb_true_iff, !N.leb_le.
  change (code "0") with 48%N. change (code "9") with 57%N. tauto.
Qed.

Lemma digit_value_range c : is_digit c = true -> 0 <= digit_value c <= 9.
Proof. rewrite is_digit_code. unfold digit_value. lia. Qed.

Lemma digit_char_value c : is_digit c = true -> digit_char (digit_value c) = c.
Proof.
  rewrite is_digit_code. intros H. unfold digit_char, digit_value.
  replace (48 + (Z.of_N (code c) - 48)) with (Z.of_N (code c)) by lia.
  rewrite N2Z.id. apply ascii_N_embedding.
Qed.

Lemma digit_char_ok v : 0 <= v <= 9 ->
  is_digit (digit_char v) = true /\ digit_value (digit_char v) = v.
Proof.
  intros Hv.
  assert (v = 0 \/ v = 1 \/ v = 2 \/ v = 3 \/ v = 4 \/ v = 5 \/ v = 6
          \/ v = 7 \/ v = 8 \/ v = 9) as H by lia.
  repeat (destruct H as [->|H]; [split; reflexivity|]). subst. split; reflexivity.
Qed.

Lemma digit_not_blank c : is_digit c = true -> Ascii.eqb c " " = false.
Proof.
  rewrite is_digit_code. intros H.
  destruct (Ascii.eqb_spec c " ") as [->|]; [|reflexivity].
  change (code " ") with 32%N in H. lia.
Qed.

Lemma py_int_year a b c d :
  is_digit a = true -> is_digit b = true -> is_digit c = true ->
  is_digit d = true ->
  py_int (String a (String b (String c (String d "")))) =
  Some (((digit_value a * 10 + digit_value b) * 10 + digit_value c) * 10
        + digit_value d).
Proof.
  intros Ha Hb Hc Hd. unfold py_int. cbn [lstrip].
  rewrite (digit_not_blank a Ha). cbn [int_digits].
  rewrite Ha, Hb, Hc, Hd. unfold digit_value. f_equal. lia.
Qed.

Lemma fmt_04d_digits a b c d :
  is_digit a = true -> is_digit b = true -> is_digit c = true ->
  is_digit d = true ->
  fmt_04d (((digit_value a * 10 + digit_value b) * 10 + digit_value c) * 10
           + digit_value d)
  = String a (String b (String c (String d ""))).
Proof.
  intros Ha Hb Hc Hd.
  pose proof (digit_value_range a Ha). pose proof (digit_value_range b Hb).
  pose proof (digit_value_range c Hc). pose proof (digit_value_range d Hd).
  set (y := ((digit_value a * 10 + digit_value b) * 10 + digit_value c) * 10
            + digit_value d).
  assert (E1 : y / 1000 = digit_value a)
    by (unfold y; Z.div_mod_to_equations; lia).
  assert (E2 : y / 100 mod 10 = digit_value b)
    by (unfold y; Z.div_mod_to_equations; lia).
  assert (E3 : y / 10 mod 10 = digit_value c)
    by (unfold y; Z.div_mod_to_equations; lia).
  assert (E4 : y mod 10 = digit_value d)
    by (unfold y; Z.div_mod_to_equations; lia).
  unfold fmt_04d. rewrite E1, E2, E3, E4.
  now rewrite !digit_char_value.
Qed.

Lemma fmt_04d_shape y : 0 <= y <= 9999 ->
  exists a b c d,
    fmt_04d y = String a (String b (String c (String d "")))
    /\ is_digit a = true /\ is_digit b = true /\ is_digit c = true
    /\ is_digit d = true
    /\ ((digit_value a * 10 + digit_value b) * 10 + digit_value c) * 10
        + digit_value d = y.
Proof.
  intros Hy.
  exists (digit_char (y / 1000)), (digit_char (y / 100 mod 10)),
         (digit_char (y / 10 mod 10)), (digit_char (y mod 10)).
  split; [reflexivity|].
  destruct (digit_char_ok (y / 1000)) as [A1 A2];
    [Z.div_mod_to_equations; lia|].
  destruct (digit_char_ok (y / 100 mod 10)) as [B1 B2];
    [Z.div_mod_to_equations; lia|].
  destruct (digit_char_ok (y / 10 mod 10)) as [C1 C2];
    [Z.div_mod_to_equations; lia|].
  destruct (digit_char_ok (y mod 10)) as [D1 D2];
    [Z.div_mod_to_equations; lia|].
  rewrite A2, B2, C2, D2. repeat split; try assumption.
  Z.div_mod_to_equations. lia.
Qed.

Lemma pattern_ymd : pattern "%Y-%m-%d" = Some R_ymd.
Proof. reflexivity. Qed.

Lemma pattern_dmy_slash : pattern "%d/%m/%Y" = Some (R_dmy "/").
Proof. reflexivity. Qed.

Lemma pattern_dmy_dash : pattern "%d-%m-%Y" = Some (R_dmy "-").
Proof. reflexivity. Qed.

Lemma rmatch_chr_cat {A} c T s g (k : groupdict -> string -> option A) :
  rmatch (Cat (Chr c) T) s g k =
  match s with
  | String c' s' => if Ascii.eqb c c' then rmatch T s' g k else None
  | EmptyString => None
  end.
Proof. destruct s; reflexivity. Qed.

Lemma re_match_ymd_sound s g rest :
  re_match R_ymd s = Some (g, rest) ->
  exists a b c d wm wd,
    is_digit a = true /\ is_digit b = true /\ is_digit c = true
    /\ is_digit d = true /\ In wm (lang re_m) /\ In wd (lang re_d)
    /\ s = year_text a b c d ++ String "-" (wm ++ String "-" (wd ++ rest))
    /\ g = [("d"%char, wd); ("m"%char, wm); ("Y"%char, year_text a b c d)].
Proof.
  unfold re_match, R_ymd. rewrite rmatch_cat, rmatch_year.
  destruct s as [|a [|b [|c [|d s1]]]]; try discriminate.
  destruct (is_digit a) eqn:Ha; [|discriminate].
  destruct (is_digit b) eqn:Hb; [|discriminate].
  destruct (is_digit c) eqn:Hc; [|discriminate].
  destruct (is_digit d) eqn:Hd; [|discriminate].
  cbn [andb]. rewrite rmatch_chr_cat.
  destruct s1 as [|c1 s2]; [discriminate|].
  destruct (Ascii.eqb_spec "-" c1) as [<-|]; [|discriminate].
  intros H.
  apply rmatch_token_sep_sound in H as (wm & s3 & Hwm & -> & H);
    [|reflexivity].
  apply rmatch_last_sound in H as (wd & Hwd & E & Hg); [|reflexivity].
  cbn [fst snd] in *. subst s3 g.
  exists a, b, c, d, wm, wd. repeat split; auto.
Qed.

Lemma re_match_ymd_complete a b c d wm wd :
  is_digit a = true -> is_digit b = true -> is_digit c = true ->
  is_digit d = true -> In wm (lang re_m) -> In wd (lang re_d) ->
  re_match R_ymd (year_text a b c d ++ String "-" (wm ++ String "-" wd))
  = Some ([("d"%char, wd); ("m"%char, wm); ("Y"%char, year_text a b c d)], "").
Proof.
  intros Ha Hb Hc Hd Hwm Hwd.
  unfold re_match, R_ymd. rewrite rmatch_cat, rmatch_year.
  cbn [year_text String.append]. rewrite Ha, Hb, Hc, Hd. cbn [andb].
  rewrite rmatch_chr_cat, Ascii.eqb_refl.
  rewrite (rmatch_token_sep_complete token_char); auto using month_token_chars.
  apply rmatch_day_last. exact Hwd.
Qed.

Lemma re_match_dmy_sound sep s g rest :
  re_match (R_dmy sep) s = Some (g, rest) ->
  exists a b c d wm wd,
    is_digit a = true /\ is_digit b = true /\ is_digit c = true
    /\ is_digit d = true /\ In wm (lang re_m) /\ In wd (lang re_d)
    /\ s = wd ++ String sep (wm ++ String sep (year_text a b c d ++ rest))
    /\ g = [("Y"%char, year_text a b c d); ("m"%char, wm); ("d"%char, wd)].
Proof.
  unfold re_match, R_dmy. intros H.
  apply rmatch_token_sep_sound in H as (wd & s1 & Hwd & -> & H);
    [|reflexivity].
  apply rmatch_token_sep_sound in H as (wm & s2 & Hwm & -> & H);
    [|reflexivity].
  rewrite rmatch_cat, rmatch_year in H.
  destruct s2 as [|a [|b [|c [|d s3]]]]; try discriminate.
  destruct (is_digit a) eqn:Ha; [|discriminate].
  destruct (is_digit b) eqn:Hb; [|discriminate].
  destruct (is_digit c) eqn:Hc; [|discriminate].
  destruct (is_digit d) eqn:Hd; [|discriminate].
  cbn [andb rmatch] in H. injection H as <- <-.
  exists a, b, c, d, wm, wd. repeat split; auto.
Qed.

Lemma re_match_dmy_complete sep a b c d wm wd :
  token_char sep = false ->
  is_digit a = true -> is_digit b = true -> is_digit c = true ->
  is_digit d = true -> In wm (lang re_m) -> In wd (lang re_d) ->
  re_match (R_dmy sep) (wd ++ String sep (wm ++ String sep (year_text a b c d)))
  = Some ([("Y"%char, year_text a b c d); ("m"%char, wm); ("d"%char, wd)], "").
Proof.
  intros Hsep Ha Hb Hc Hd Hwm Hwd.
  unfold re_match, R_dmy.
  rewrite (rmatch_token_sep_complete token_char);
    auto using day_token_chars.
  rewrite (rmatch_token_sep_complete token_char);
    auto using month_token_chars.
  rewrite rmatch_cat, rmatch_year. cbn [year_text].
  rewrite Ha, Hb, Hc, Hd. reflexivity.
Qed.

End MatcherFacts.

(** ** [parse_date] *)

Section ParseDateFacts.

Local Open Scope string_scope.
Local Open Scope Z_scope.

Lemma append_nil_r (w : string) : (w ++ "")%string = w.
Proof. induction w as [|a w IH]; simpl; [reflexivity|now rewrite IH]. Qed.

Lemma date_new_some y m d x : date_new y m d = Some x ->
  x = mkdate y m d /\ valid_dateb x = true.
Proof.
  unfold date_new. destruct (valid_dateb (mkdate y m d)) eqn:E; [|discriminate].
  intros [= <-]. auto.
Qed.

Lemma date_new_valid d : valid_dateb d = true ->
  date_new (year d) (month d) (day d) = Some d.
Proof. destruct d as [y m dd]. unfold date_new. cbn [year month day]. now intros ->. Qed.

Lemma days_in_month_le y m : days_in_month y m <= 31.
Proof.
  unfold days_in_month. destruct ((m =? 2) && is_leap y); [lia|].
  unfold DAYS_IN_MONTH.
  repeat match goal with |- context [match ?x with _ => _ end] => destruct x end;
    lia.
Qed.

Lemma strptime_with_groups s fmt R :
  pattern fmt = Some R ->
  strptime_date s fmt =
  match re_match R s with
  | Some (g, rest) =>
      if negb (String.eqb rest "") then None
      else match option_map py_int (lookup "Y" g),
                 option_map py_int (lookup "m" g),
                 option_map py_int (lookup "d" g) with
           | Some (Some y), Some (Some m), Some (Some d) => date_new y m d
           | _, _, _ => None
           end
  | None => None
  end.
Proof. intros H. unfold strptime_date. rewrite H. reflexivity. Qed.

Lemma strptime_ymd_iff s d :
  strptime_date s "%Y-%m-%d" = Some d <->
  valid_dateb d = true /\ In s (texts_ymd d).
Proof.
  rewrite (strptime_with_groups s _ _ pattern_ymd). split.
  - destruct (re_match R_ymd s) as [[g rest]|] eqn:E; [|discriminate].
    apply re_match_ymd_sound in E
      as (a & b & c & e & wm & wd & Ha & Hb & Hc & He & Hwm & Hwd & -> & ->).
    destruct (String.eqb_spec rest "") as [->|]; [|discriminate].
    cbn [negb lookup option_map Ascii.eqb Bool.eqb]. unfold year_text.
    rewrite (py_int_year a b c e Ha Hb Hc He).
    destruct (month_token_value wm Hwm) as (m & -> & Hm & Hmt).
    destruct (day_token_value wd Hwd) as (dd & -> & Hd & Hdt).
    intros H. apply date_new_some in H as [-> Hv]. split; [exact Hv|].
    unfold texts_ymd. cbn [year month day].
    apply in_flat_map. exists wm. split; [exact Hmt|].
    apply in_map_iff. exists wd. split; [|exact Hdt].
    rewrite (fmt_04d_digits a b c e Ha Hb Hc He).
    rewrite append_nil_r. reflexivity.
  - intros [Hv Hin]. unfold texts_ymd in Hin.
    apply in_flat_map in Hin as (wm & Hmt & Hin).
    apply in_map_iff in Hin as (wd & <- & Hdt).
    pose proof (proj1 (valid_date_spec d) Hv) as (Hy & Hm & Hd).
    pose proof (days_in_month_le (year d) (month d)) as Hdim.
    destruct (fmt_04d_shape (year d) ltac:(lia))
      as (a & b & c & e & -> & Ha & Hb & Hc & He & Ey).
    destruct (month_text_token _ _ Hm Hmt) as [Hwm Pm].
    destruct (day_text_token (day d) wd ltac:(lia) Hdt) as [Hwd Pd].
    change (String a (String b (String c (String e ""))))
      with (year_text a b c e).
    rewrite (re_match_ymd_complete a b c e wm wd Ha Hb Hc He Hwm Hwd).
    cbn [negb lookup option_map Ascii.eqb Bool.eqb String.eqb]. unfold year_text.
    rewrite (py_int_year a b c e Ha Hb Hc He), Pm, Pd, Ey.
    apply date_new_valid. exact Hv.
Qed.

Lemma strptime_dmy_iff sep fmt s d :
  token_char sep = false -> pattern fmt = Some (R_dmy sep) ->
  strptime_date s fmt = Some d <->
  valid_dateb d = true /\ In s (texts_dmy sep d).
Proof.
  intros Hsep Hpat.
  rewrite (strptime_with_groups s _ _ Hpat). split.
  - destruct (re_match (R_dmy sep) s) as [[g rest]|] eqn:E; [|discriminate].
    apply re_match_dmy_sound in E
      as (a & b & c & e & wm & wd & Ha & Hb & Hc & He & Hwm & Hwd & -> & ->).
    destruct (String.eqb_spec rest "") as [->|]; [|discriminate].
    cbn [negb lookup option_map Ascii.eqb Bool.eqb]. unfold year_text.
    rewrite (py_int_year a b c e Ha Hb Hc He).
    destruct (month_token_value wm Hwm) as (m & -> & Hm & Hmt).
    destruct (day_token_value wd Hwd) as (dd & -> & Hd & Hdt).
    intros H. apply date_new_some in H as [-> Hv]. split; [exact Hv|].
    unfold texts_dmy. cbn [year month day].
    apply in_flat_map. exists wd. split; [exact Hdt|].
    apply in_map_iff. exists wm. split; [|exact Hmt].
    rewrite (fmt_04d_digits a b c e Ha Hb Hc He).
    unfold year_text. rewrite append_nil_r. reflexivity.
  - intros [Hv Hin]. unfold texts_dmy in Hin.
    apply in_flat_map in Hin as (wd & Hdt & Hin).
    apply in_map_iff in Hin as (wm & <- & Hmt).
    pose proof (proj1 (valid_date_spec d) Hv) as (Hy & Hm & Hd).
    pose proof (days_in_month_le (year d) (month d)) as Hdim.
    destruct (fmt_04d_shape (year d) ltac:(lia))
      as (a & b & c & e & -> & Ha & Hb & Hc & He & Ey).
    destruct (month_text_token _ _ Hm Hmt) as [Hwm Pm].
    destruct (day_text_token (day d) wd ltac:(lia) Hdt) as [Hwd Pd].
    change (String a (String b (String c (String e ""))))
      with (year_text a b c e).
    rewrite (re_match_dmy_complete sep a b c e wm wd Hsep Ha Hb Hc He Hwm Hwd).
    cbn [negb lookup option_map Ascii.eqb Bool.eqb String.eqb]. unfold year_text.
    rewrite (py_int_year a b c e Ha Hb Hc He), Pm, Pd, Ey.
    apply date_new_valid. exact Hv.
Qed.

Lemma digits_token_chars a b c d :
  is_digit a = true -> is_digit b = true -> is_digit c = true ->
  is_digit d = true -> all_chars token_char (year_text a b c d) = true.
Proof.
  intros Ha Hb Hc Hd. unfold year_text, token_char. cbn [all_chars].
  now rewrite Ha, Hb, Hc, Hd.
Qed.

Lemma texts_ymd_shape d s : valid_dateb d = true -> In s (texts_ymd d) ->
  exists a b c e r, all_chars token_char (year_text a b c e) = true
                    /\ s = year_text a b c e ++ String "-" r.
Proof.
  intros Hv Hin. unfold texts_ymd in Hin.
  apply in_flat_map in Hin as (wm & _ & Hin).
  apply in_map_iff in Hin as (wd & <- & _).
  pose proof (proj1 (valid_date_spec d) Hv) as (Hy & _).
  destruct (fmt_04d_shape (year d) ltac:(lia))
    as (a & b & c & e & -> & Ha & Hb & Hc & He & _).
  exists a, b, c, e, (wm ++ String "-" wd).
  split; [now apply digits_token_chars|reflexivity].
Qed.

Lemma texts_dmy_shape sep d s : valid_dateb d = true -> In s (texts_dmy sep d) ->
  exists wd r, In wd (lang re_d) /\ s = wd ++ String sep r.
Proof.
  intros Hv Hin. unfold texts_dmy in Hin.
  apply in_flat_map in Hin as (wd & Hdt & Hin).
  apply in_map_iff in Hin as (wm & <- & _).
  pose proof (proj1 (valid_date_spec d) Hv) as (_ & _ & Hd).
  pose proof (days_in_month_le (year d) (month d)) as Hdim.
  destruct (day_text_token (day d) wd ltac:(lia) Hdt) as [Hwd _].
  eauto.
Qed.

Lemma ymd_not_dmy sep d1 d2 s : token_char sep = false ->
  valid_dateb d1 = true -> valid_dateb d2 = true ->
  In s (texts_ymd d1) -> In s (texts_dmy sep d2) -> False.
Proof.
  intros Hsep Hv1 Hv2 H1 H2.
  destruct (texts_ymd_shape d1 s Hv1 H1) as (a & b & c & e & r & Hy & ->).
  destruct (texts_dmy_shape sep d2 _ Hv2 H2) as (wd & r' & Hwd & E).
  destruct (split_unique token_char "-" sep eq_refl Hsep _ _ _ _
              Hy (day_token_chars wd Hwd) E) as (Ew & _).
  pose proof (day_token_short wd Hwd) as Hlen. rewrite <- Ew in Hlen.
  cbn in Hlen. lia.
Qed.

Lemma dmy_sep_unique sep1 sep2 d1 d2 s :
  token_char sep1 = false -> token_char sep2 = false ->
  valid_dateb d1 = true -> valid_dateb d2 = true ->
  In s (texts_dmy sep1 d1) -> In s (texts_dmy sep2 d2) -> sep1 = sep2.
Proof.
  intros Hs1 Hs2 Hv1 Hv2 H1 H2.
  destruct (texts_dmy_shape sep1 d1 s Hv1 H1) as (w1 & r1 & Hw1 & ->).
  destruct (texts_dmy_shape sep2 d2 _ Hv2 H2) as (w2 & r2 & Hw2 & E).
  now destruct (split_unique token_char sep1 sep2 Hs1 Hs2 _ _ _ _
                  (day_token_chars w1 Hw1) (day_token_chars w2 Hw2) E)
    as (_ & ? & _).
Qed.

Lemma strptime_slash_iff s d :
  strptime_date s "%d/%m/%Y" = Some d <->
  valid_dateb d = true /\ In s (texts_dmy "/" d).
Proof. apply strptime_dmy_iff; reflexivity. Qed.

Lemma strptime_dash_iff s d :
  strptime_date s "%d-%m-%Y" = Some d <->
  valid_dateb d = true /\ In s (texts_dmy "-" d).
Proof. apply strptime_dmy_iff; reflexivity. Qed.

Lemma parse_date_unfold s :
  parse_date s =
  match strptime_date s "%Y-%m-%d" with
  | Some d => Ret d
  | None =>
      match strptime_date s "%d/%m/%Y" with
      | Some d => Ret d
      | None =>
          match strptime_date s "%d-%m-%Y" with
          | Some d => Ret d
          | None =>
              Raise (ValueError "Date format should be YYYY-MM-DD or DD/MM/YYYY")
          end
      end
  end.
Proof. reflexivity. Qed.

Lemma parse_date_iff s d :
  parse_date s = Ret d <-> valid_dateb d = true /\ In s (accepted_texts d).
Proof.
  rewrite parse_date_unfold. unfold accepted_texts. split.
  - destruct (strptime_date s "%Y-%m-%d") as [d1|] eqn:E1.
    { intros [= ->]. apply strptime_ymd_iff in E1 as [Hv Hin].
      split; [exact Hv|]. apply in_or_app. now left. }
    destruct (strptime_date s "%d/%m/%Y") as [d2|] eqn:E2.
    { intros [= ->]. apply strptime_slash_iff in E2 as [Hv Hin].
      split; [exact Hv|]. apply in_or_app. right. apply in_or_app. now left. }
    destruct (strptime_date s "%d-%m-%Y") as [d3|] eqn:E3; [|discriminate].
    intros [= ->]. apply strptime_dash_iff in E3 as [Hv Hin].
    split; [exact Hv|]. apply in_or_app. right. apply in_or_app. now right.
  - intros [Hv Hin].
    apply in_app_or in Hin as [Hin|Hin];
      [|apply in_app_or in Hin as [Hin|Hin]].
    + now rewrite (proj2 (strptime_ymd_iff s d) (conj Hv Hin)).
    + destruct (strptime_date s "%Y-%m-%d") as [d1|] eqn:E1.
      { apply strptime_ymd_iff in E1 as [Hv1 Hin1].
        now destruct (ymd_not_dmy "/" d1 d s eq_refl Hv1 Hv Hin1 Hin). }
      now rewrite (proj2 (strptime_slash_iff s d) (conj Hv Hin)).
    + destruct (strptime_date s "%Y-%m-%d") as [d1|] eqn:E1.
      { apply strptime_ymd_iff in E1 as [Hv1 Hin1].
        now destruct (ymd_not_dmy "-" d1 d s eq_refl Hv1 Hv Hin1 Hin). }
      destruct (strptime_date s "%d/%m/%Y") as [d2|] eqn:E2.
      { apply strptime_slash_iff in E2 as [Hv2 Hin2].
        pose proof (dmy_sep_unique "/" "-" d2 d s eq_refl eq_refl Hv2 Hv Hin2 Hin).
        discriminate. }
      now rewrite (proj2 (strptime_dash_iff s d) (conj Hv Hin)).
Qed.

Lemma month_texts_head m : In (fmt_02d m) (month_texts m).
Proof. unfold month_texts. destruct (m <? 10); now left. Qed.

Lemma day_texts_head m : In (fmt_02d m) (day_texts m).
Proof. unfold day_texts. destruct (m <? 10); now left. Qed.

Lemma strict_texts_accepted d s : In s (strict_texts d) -> In s (accepted_texts d).
Proof.
  unfold strict_texts, accepted_texts. intros [<-|[<-|[<-|[]]]].
  - apply in_or_app. left. unfold texts_ymd. apply in_flat_map.
    exists (fmt_02d (month d)). split; [apply month_texts_head|].
    apply in_map_iff. exists (fmt_02d (day d)). split; [reflexivity|apply day_texts_head].
  - apply in_or_app. right. apply in_or_app. left. unfold texts_dmy.
    apply in_flat_map. exists (fmt_02d (day d)). split; [apply day_texts_head|].
    apply in_map_iff. exists (fmt_02d (month d)). split; [reflexivity|apply month_texts_head].
  - apply in_or_app. right. apply in_or_app. right. unfold texts_dmy.
    apply in_flat_map. exists (fmt_02d (day d)). split; [apply day_texts_head|].
    apply in_map_iff. exists (fmt_02d (month d)). split; [reflexivity|apply month_texts_head].
Qed.

Lemma is_ascii_app (s t : string) :
  is_ascii (s ++ t)%string = is_ascii s && is_ascii t.
Proof.
  induction s as [|c s IH]; [reflexivity|].
  cbn [append is_ascii]. now rewrite IH, andb_assoc.
Qed.

Lemma is_digit_ascii c : is_digit c = true -> (code c <? 128)%N = true.
Proof. rewrite is_digit_code. intros H. apply N.ltb_lt. lia. Qed.

Lemma fmt_04d_ascii y : 0 <= y <= 9999 -> is_ascii (fmt_04d y) = true.
Proof.
  intros Hy. destruct (fmt_04d_shape y Hy)
    as (a & b & c & e & -> & Ha & Hb & Hc & He & _).
  cbn [is_ascii].
  now rewrite !is_digit_ascii by assumption.
Qed.

Lemma month_texts_ascii m t : 1 <= m <= 12 -> In t (month_texts m) ->
  is_ascii t = true.
Proof.
  intros Hm Ht.
  assert (H : all_from 12 1 (fun m => forallb is_ascii (month_texts m)) = true)
    by (vm_compute; reflexivity).
  pose proof (all_from_spec 12 1 _ H m ltac:(lia)) as Hall. cbv beta in Hall.
  exact (proj1 (forallb_forall _ _) Hall t Ht).
Qed.

Lemma day_texts_ascii n t : 1 <= n <= 31 -> In t (day_texts n) ->
  is_ascii t = true.
Proof.
  intros Hn Ht.
  assert (H : all_from 31 1 (fun n => forallb is_ascii (day_texts n)) = true)
    by (vm_compute; reflexivity).
  pose proof (all_from_spec 31 1 _ H n ltac:(lia)) as Hall. cbv beta in Hall.
  exact (proj1 (forallb_forall _ _) Hall t Ht).
Qed.

Lemma accepted_texts_ascii d s :
  valid_dateb d = true -> In s (accepted_texts d) -> is_ascii s = true.
Proof.
  intros Hv Hin.
  pose proof (proj1 (valid_date_spec d) Hv) as (Hy & Hm & Hd).
  pose proof (days_in_month_le (year d) (month d)) as Hdim.
  assert (Hyear : is_ascii (fmt_04d (year d)) = true)
    by (apply fmt_04d_ascii; lia).
  assert (Hdmy : forall sep, (code sep <? 128)%N = true ->
            In s (texts_dmy sep d) -> is_ascii s = true).
  { intros sep Hsep H. unfold texts_dmy in H.
    apply in_flat_map in H as (dt & Hdt & H).
    apply in_map_iff in H as (mt & <- & Hmt).
    rewrite is_ascii_app. cbn [is_ascii]. rewrite is_ascii_app.
    cbn [is_ascii]. rewrite Hsep, Hyear.
    rewrite (day_texts_ascii (day d) dt ltac:(lia) Hdt).
    now rewrite (month_texts_ascii (month d) mt Hm Hmt). }
  unfold accepted_texts in Hin.
  apply in_app_or in Hin as [H|H]; [|apply in_app_or in H as [H|H]].
  - unfold texts_ymd in H. apply in_flat_map in H as (mt & Hmt & H).
    apply in_map_iff in H as (dt & <- & Hdt).
    rewrite is_ascii_app. cbn [is_ascii]. rewrite is_ascii_app.
    cbn [is_ascii]. rewrite Hyear.
    rewrite (day_texts_ascii (day d) dt ltac:(lia) Hdt).
    now rewrite (month_texts_ascii (month d) mt Hm Hmt).
  - now apply (Hdmy "/"%char).
  - now apply (Hdmy "-"%char).
Qed.

(** C8, as amended.  The texts of a date in the three layouts, where the
    year has four digits and a month or day below ten may also be written
    without its leading zero (a day also with a blank in its place), are
    texts of ASCII characters, and [parse_date] returns the date on each
    of them; on a text of ASCII characters it returns a date only when
    the text is one of these texts of that date, and raises the
    [ValueError] on every other one; no text is accepted by two of the
    formats, so the order of the loop never decides a result; and the
    zero-padded text of a date in each layout parses to that date. *)
Theorem parse_date_three_layouts :
  (forall s d, valid_dateb d = true -> In s (accepted_texts d) ->
               is_ascii s = true /\ parse_date s = Ret d)
  /\ (forall s d, is_ascii s = true -> parse_date s = Ret d ->
                  valid_dateb d = true /\ In s (accepted_texts d))
  /\ (forall s, is_ascii s = true ->
        (forall d, valid_dateb d = true -> ~ In s (accepted_texts d)) ->
        parse_date s =
        Raise (ValueError "Date format should be YYYY-MM-DD or DD/MM/YYYY"))
  /\ (forall s d e f g,
        In f ["%Y-%m-%d"; "%d/%m/%Y"; "%d-%m-%Y"]%string ->
        In g ["%Y-%m-%d"; "%d/%m/%Y"; "%d-%m-%Y"]%string ->
        strptime_date s f = Some d -> strptime_date s g = Some e -> f = g)
  /\ (forall d s, valid_dateb d = true -> In s (strict_texts d) ->
                  parse_date s = Ret d).
Proof.
  split; [|split; [|split; [|split]]].
  - intros s d Hv Hin. split; [now apply (accepted_texts_ascii d)|].
    apply parse_date_iff. now split.
  - intros s d _ H. now apply parse_date_iff.
  - intros s _ H. rewrite parse_date_unfold.
    destruct (strptime_date s "%Y-%m-%d") as [d1|] eqn:E1.
    { assert (P : parse_date s = Ret d1) by (rewrite parse_date_unfold; now rewrite E1).
      apply parse_date_iff in P as [Hv Hin]. now destruct (H d1 Hv). }
    destruct (strptime_date s "%d/%m/%Y") as [d2|] eqn:E2.
    { assert (P : parse_date s = Ret d2)
        by (rewrite parse_date_unfold; now rewrite E1, E2).
      apply parse_date_iff in P as [Hv Hin]. now destruct (H d2 Hv). }
    destruct (strptime_date s "%d-%m-%Y") as [d3|] eqn:E3; [|reflexivity].
    assert (P : parse_date s = Ret d3)
      by (rewrite parse_date_unfold; now rewrite E1, E2, E3).
    apply parse_date_iff in P as [Hv Hin]. now destruct (H d3 Hv).
  - intros s d e f g Hf Hg Ef Eg.
    cbn [In] in Hf, Hg.
    destruct Hf as [<-|[<-|[<-|[]]]]; destruct Hg as [<-|[<-|[<-|[]]]];
      try reflexivity; exfalso;
      repeat match goal with
        | H : strptime_date _ "%Y-%m-%d" = Some _ |- _ =>
            apply strptime_ymd_iff in H as [? ?]
        | H : strptime_date _ "%d/%m/%Y" = Some _ |- _ =>
            apply strptime_slash_iff in H as [? ?]
        | H : strptime_date _ "%d-%m-%Y" = Some _ |- _ =>
            apply strptime_dash_iff in H as [? ?]
        end;
      try match goal with
        | H1 : In ?s (texts_ymd ?d1), H2 : In ?s (texts_dmy ?sep ?d2),
          V1 : valid_dateb ?d1 = true, V2 : valid_dateb ?d2 = true |- _ =>
            exact (ymd_not_dmy sep d1 d2 s eq_refl V1 V2 H1 H2)
        end;
      match goal with
      | H1 : In ?s (texts_dmy ?sep1 ?d1), H2 : In ?s (texts_dmy ?sep2 ?d2),
        V1 : valid_dateb ?d1 = true, V2 : valid_dateb ?d2 = true |- _ =>
          first [ discriminate (dmy_sep_unique sep1 sep2 d1 d2 s eq_refl eq_refl
                                  V1 V2 H1 H2)
                | discriminate (dmy_sep_unique sep2 sep1 d2 d1 s eq_refl eq_refl
                                  V2 V1 H2 H1) ]
      end.
  - intros d s Hv Hs. apply parse_date_iff. split; [exact Hv|].
    now apply strict_texts_accepted.
Qed.

(** C8, the claim as stated fails: [2025-1-5] is not the text of any date
    in a layout read with zero-padded fields, and [parse_date] accepts
    it. *)
Lemma parse_date_accepts_unpadded_text :
  parse_date "2025-1-5" = Ret (mkdate 2025 1 5)
  /\ ~ In "2025-1-5"%string (strict_texts (mkdate 2025 1 5)).
Proof.
  split; [reflexivity|].
  cbn. intros [H|[H|[H|[]]]]; discriminate H.
Qed.

End ParseDateFacts.

(** ** The task store *)

Lemma bind_params_run task_id w :
  sqlite_int task_id = true -> bind_params [task_id] w = (Ret tt, w).
Proof. intros H. unfold bind_params. cbn [forallb]. now rewrite H. Qed.

Lemma bind_params_overflow task_id w :
  sqlite_int task_id = false ->
  bind_params [task_id] w = (Raise OverflowError, w).
Proof. intros H. unfold bind_params. cbn [forallb]. now rewrite H. Qed.

Lemma get_task_run task_id w :
  sqlite_int task_id = true ->
  get_task task_id w = (Ret (find_task task_id (db w)), w).
Proof.
  intros H. unfold get_task, select_tasks, bind. cbn [cursor_table].
  cbn. now rewrite (bind_params_run task_id w H).
Qed.

Lemma get_task_overflow task_id w :
  sqlite_int task_id = false -> get_task task_id w = (Raise OverflowError, w).
Proof.
  intros H. unfold get_task, select_tasks, bind. cbn.
  now rewrite (bind_params_overflow task_id w H).
Qed.

Lemma get_task_bound task_id w o w' :
  get_task task_id w = (Ret o, w') -> sqlite_int task_id = true.
Proof.
  destruct (sqlite_int task_id) eqn:E; [reflexivity|].
  rewrite (get_task_overflow task_id w E). discriminate.
Qed.

Lemma get_task_find task_id w o w' :
  get_task task_id w = (Ret o, w') ->
  sqlite_int task_id = true /\ find_task task_id (db w) = o.
Proof.
  intros H. pose proof (get_task_bound _ _ _ _ H) as Hb. split; [exact Hb|].
  rewrite (get_task_run task_id w Hb) in H. congruence.
Qed.

Lemma complete_task_run task_id w :
  sqlite_int task_id = true ->
  complete_task task_id w =
  (Ret tt, with_tasks (update_rows task_id (set_completed 1) (tasks (db w))) w).
Proof.
  intros H. unfold complete_task, update_tasks, bind. cbn.
  now rewrite (bind_params_run task_id w H).
Qed.

Lemma complete_task_overflow task_id w :
  sqlite_int task_id = false ->
  complete_task task_id w = (Raise OverflowError, w).
Proof.
  intros H. unfold complete_task, update_tasks, bind. cbn.
  now rewrite (bind_params_overflow task_id w H).
Qed.

Lemma claim_task_run task_id u w :
  sqlite_int task_id = true ->
  claim_task task_id u w =
  match find_task task_id (db w) with
  | None => (Ret None, w)
  | Some t =>
      (Ret (Some (claim_list u (claimers t))),
       with_tasks (update_rows task_id
                     (set_claimed_by (Some (claim_list u (claimers t))))
                     (tasks (db w))) w)
  end.
Proof.
  intros H. unfold claim_task, bind. rewrite (get_task_run task_id w H).
  destruct (find_task task_id (db w)); [|reflexivity].
  unfold update_tasks, bind. cbn.
  now rewrite (bind_params_run task_id w H).
Qed.

Lemma claim_task_overflow task_id u w :
  sqlite_int task_id = false ->
  claim_task task_id u w = (Raise OverflowError, w).
Proof.
  intros H. unfold claim_task, bind. now rewrite (get_task_overflow task_id w H).
Qed.

Lemma unclaim_task_run task_id u w :
  sqlite_int task_id = true ->
  unclaim_task task_id u w =
  match find_task task_id (db w) with
  | None => (Ret None, w)
  | Some t =>
      (Ret (Some (unclaim_list u (claimers t))),
       with_tasks (update_rows task_id
                     (set_claimed_by (Some (unclaim_list u (claimers t))))
                     (tasks (db w))) w)
  end.
Proof.
  intros H. unfold unclaim_task, bind. rewrite (get_task_run task_id w H).
  destruct (find_task task_id (db w)); [|reflexivity].
  unfold update_tasks, bind. cbn.
  now rewrite (bind_params_run task_id w H).
Qed.

Lemma unclaim_task_overflow task_id u w :
  sqlite_int task_id = false ->
  unclaim_task task_id u w = (Raise OverflowError, w).
Proof.
  intros H. unfold unclaim_task, bind.
  now rewrite (get_task_overflow task_id w H).
Qed.

Lemma find_update_rows task_id tid f rows :
  (forall r, id (f r) = id r) ->
  hd_error (filter (fun r => id r =? task_id) (update_rows tid f rows)) =
  option_map (fun r => if id r =? tid then f r else r)
             (hd_error (filter (fun r => id r =? task_id) rows)).
Proof.
  intros Hid. induction rows as [|r rows IH]; [reflexivity|].
  cbn [update_rows map filter].
  assert (E : id (if id r =? tid then f r else r) = id r)
    by (destruct (id r =? tid); [apply Hid|reflexivity]).
  rewrite E. destruct (id r =? task_id); [reflexivity|exact IH].
Qed.

Lemma find_task_id task_id d t : find_task task_id d = Some t -> id t = task_id.
Proof.
  unfold find_task. induction (tasks d) as [|r rows IH]; [discriminate|].
  cbn [filter]. destruct (id r =? task_id) eqn:E; [|exact IH].
  intros [= <-]. now apply Z.eqb_eq.
Qed.

Lemma find_task_with_tasks task_id tid f w :
  (forall r, id (f r) = id r) ->
  find_task task_id (db (with_tasks (update_rows tid f (tasks (db w))) w)) =
  option_map (fun r => if id r =? tid then f r else r) (find_task task_id (db w)).
Proof. intros H. unfold find_task. cbn. now apply find_update_rows. Qed.

Lemma update_rows_idem tid f rows :
  (forall r, id (f r) = id r) -> (forall r, f (f r) = f r) ->
  update_rows tid f (update_rows tid f rows) = update_rows tid f rows.
Proof.
  intros Hid Hf. unfold update_rows. rewrite map_map. apply map_ext.
  intros r. destruct (id r =? tid) eqn:E; [|now rewrite E].
  rewrite Hid, E. apply Hf.
Qed.

Lemma update_rows_same tid f rows :
  (forall r, In r rows -> id r = tid -> f r = r) ->
  update_rows tid f rows = rows.
Proof.
  intros H. unfold update_rows. rewrite <- (map_id rows) at 2.
  apply map_ext_in. intros r Hr. destruct (id r =? tid) eqn:E; [|reflexivity].
  apply H; [exact Hr|now apply Z.eqb_eq].
Qed.

Lemma py_in_In u l : py_in u l = true <-> In u l.
Proof.
  unfold py_in. rewrite existsb_exists. split.
  - intros (x & Hx & E). apply Z.eqb_eq in E. now subst.
  - intros H. exists u. split; [exact H|apply Z.eqb_refl].
Qed.

Lemma claim_list_In u l x : In x (claim_list u l) <-> In x l \/ x = u.
Proof.
  unfold claim_list. destruct (py_in u l) eqn:E; cbn [negb].
  - apply py_in_In in E. split; [auto|]. intros [H| ->]; assumption.
  - rewrite in_app_iff. cbn. intuition.
Qed.

Lemma claim_list_idem u l : claim_list u (claim_list u l) = claim_list u l.
Proof.
  unfold claim_list at 1.
  assert (H : py_in u (claim_list u l) = true).
  { apply py_in_In. apply claim_list_In. now right. }
  now rewrite H.
Qed.

Lemma claim_list_NoDup u l : NoDup l -> NoDup (claim_list u l).
Proof.
  intros H. unfold claim_list. destruct (py_in u l) eqn:E; cbn [negb]; [exact H|].
  apply NoDup_app; [exact H|repeat constructor; intros []| ].
  intros x Hx [->|[]]. apply py_in_In in Hx. congruence.
Qed.

Lemma claimers_some u t : py_in u (claimers t) = true ->
  claimed_by t = Some (claimers t).
Proof.
  unfold claimers. destruct (claimed_by t); [reflexivity|discriminate].
Qed.

Lemma set_claimed_by_same t l : claimed_by t = Some l ->
  set_claimed_by (Some l) t = t.
Proof. destruct t. cbn. now intros ->. Qed.

Lemma claim_task_spec w task_id u t :
  sqlite_int task_id = true ->
  find_task task_id (db w) = Some t ->
  let new := claim_list u (claimers t) in
  let w' := snd (claim_task task_id u w) in
  claim_task task_id u w = (Ret (Some new), w')
  /\ find_task task_id (db w') = Some (set_claimed_by (Some new) t)
  /\ outbox w' = outbox w.
Proof.
  intros Hb Hf new w'. subst w'. rewrite (claim_task_run _ _ _ Hb), Hf.
  cbn [snd].
  split; [reflexivity|]. split; [|reflexivity].
  rewrite find_task_with_tasks by reflexivity. rewrite Hf. cbn [option_map].
  now rewrite (find_task_id _ _ _ Hf), Z.eqb_refl.
Qed.

Lemma claim_task_twice w task_id u :
  let w' := snd (claim_task task_id u w) in
  claim_task task_id u w' = (fst (claim_task task_id u w), w').
Proof.
  cbv zeta. destruct (sqlite_int task_id) eqn:Hb;
    [|now rewrite !(claim_task_overflow task_id u _ Hb)].
  rewrite (claim_task_run task_id u w Hb).
  destruct (find_task task_id (db w)) as [t|] eqn:Hf; cbn [fst snd].
  - rewrite (claim_task_run _ _ _ Hb).
    rewrite find_task_with_tasks by reflexivity. rewrite Hf. cbn [option_map].
    rewrite (find_task_id _ _ _ Hf), Z.eqb_refl.
    unfold claimers at 1 3. cbn [claimed_by set_claimed_by json_loads_or_empty].
    rewrite claim_list_idem. f_equal.
    unfold with_tasks. cbn [db outbox set_tasks tasks announcements tasks_seq].
    now rewrite update_rows_idem.
  - now rewrite (claim_task_run _ _ _ Hb), Hf.
Qed.

Lemma get_task_other task_id other f w :
  (forall r, id (f r) = id r) -> other <> task_id ->
  fst (get_task other (with_tasks (update_rows task_id f (tasks (db w))) w))
  = fst (get_task other w).
Proof.
  intros Hid Hne. destruct (sqlite_int other) eqn:Hb.
  - rewrite !(get_task_run other _ Hb). cbn [fst]. f_equal.
    rewrite (find_task_with_tasks other task_id f w Hid).
    destruct (find_task other (db w)) as [r|] eqn:Hf; [|reflexivity].
    cbn [option_map]. rewrite (find_task_id _ _ _ Hf).
    destruct (Z.eqb_spec other task_id); [contradiction|reflexivity].
  - now rewrite !(get_task_overflow other _ Hb).
Qed.

(** C7.  On a task that exists, [claim_task] returns the old claimers
    with the user appended when absent, and the row it leaves in the
    table has exactly that list in [claimed_by]: the user is among the
    stored claimers, the stored claimers are the old ones and the user,
    every other column of the row and every other row are as they were;
    when the user already claims the task the list and the whole row stay
    as they were; and a second call by the same user returns the same
    list and changes nothing. *)
Theorem claim_task_adds_user_once (w : world) (task_id u : Z) (t : task)
    (Hget : get_task task_id w = (Ret (Some t), w)) :
  let old := json_loads_or_empty (claimed_by t) in
  let new := if py_in u old then old else (old ++ [u])%list in
  let w' := snd (claim_task task_id u w) in
  claim_task task_id u w = (Ret (Some new), w')
  /\ (exists t',
        get_task task_id w' = (Ret (Some t'), w')
        /\ claimed_by t' = Some new
        /\ In u (json_loads_or_empty (claimed_by t'))
        /\ (forall x, In x (json_loads_or_empty (claimed_by t')) <->
                      In x old \/ x = u)
        /\ same_but_claimed_by t t')
  /\ (forall other, other <> task_id ->
        fst (get_task other w') = fst (get_task other w))
  /\ get_task task_id w' = (Ret (Some (set_claimed_by (Some new) t)), w')
  /\ (forall x, In x new <-> In x old \/ x = u)
  /\ (py_in u old = true -> new = old /\ get_task task_id w' = (Ret (Some t), w'))
  /\ claim_task task_id u w' = (Ret (Some new), w').
Proof.
  apply get_task_find in Hget as [Hb Hf].
  cbv zeta.
  assert (En : (if py_in u (json_loads_or_empty (claimed_by t))
                then json_loads_or_empty (claimed_by t)
                else (json_loads_or_empty (claimed_by t) ++ [u])%list)
               = claim_list u (claimers t)).
  { unfold claim_list, claimers. now destruct (py_in u _). }
  rewrite En.
  destruct (claim_task_spec w task_id u t Hb Hf) as (E1 & Hf' & _).
  cbv zeta in *.
  assert (Hstored : get_task task_id (snd (claim_task task_id u w))
                    = (Ret (Some (set_claimed_by
                                    (Some (claim_list u (claimers t))) t)),
                       snd (claim_task task_id u w)))
    by (now rewrite (get_task_run _ _ Hb), Hf').
  split; [exact E1|]. split; [|split; [|split; [exact Hstored|]]].
  - exists (set_claimed_by (Some (claim_list u (claimers t))) t).
    split; [exact Hstored|]. cbn [claimed_by set_claimed_by json_loads_or_empty].
    split; [reflexivity|]. split; [apply claim_list_In; now right|].
    split; [intros x; apply claim_list_In|].
    unfold same_but_claimed_by. cbn. tauto.
  - intros other Hne. rewrite (claim_task_run _ _ _ Hb), Hf. cbn [snd].
    now apply get_task_other.
  - split; [apply claim_list_In|]. split.
    + intros Hin. assert (Ec : claim_list u (claimers t) = claimers t).
      { unfold claim_list. fold (claimers t) in Hin. now rewrite Hin. }
      split; [exact Ec|].
      rewrite Hstored, Ec.
      now rewrite (set_claimed_by_same t _ (claimers_some u t Hin)).
    + rewrite claim_task_twice. now rewrite E1.
Qed.

Lemma claim_task_adds_user_once_witness :
  get_task 1 (ex_world [ex_task 0 (Some [5])])
    = (Ret (Some (ex_task 0 (Some [5]))), ex_world [ex_task 0 (Some [5])])
  /\ claim_task 1 7 (ex_world [ex_task 0 (Some [5])])
     = (Ret (Some [5; 7]), snd (claim_task 1 7 (ex_world [ex_task 0 (Some [5])])))
  /\ exists t',
       get_task 1 (snd (claim_task 1 7 (ex_world [ex_task 0 (Some [5])])))
       = (Ret (Some t'), snd (claim_task 1 7 (ex_world [ex_task 0 (Some [5])])))
       /\ claimed_by t' = Some [5; 7]
       /\ In 7 (json_loads_or_empty (claimed_by t')).
Proof.
  split; [reflexivity|].
  destruct (claim_task_adds_user_once (ex_world [ex_task 0 (Some [5])]) 1 7
              (ex_task 0 (Some [5])) eq_refl)
    as (Hret & (t' & Hstored & Hcol & Hin & _) & _).
  split; [exact Hret|].
  exists t'. split; [exact Hstored|]. split; [exact Hcol|exact Hin].
Defined.

(** C3, the claim as stated fails: a claim on a completed task is
    recorded like any other. *)
Lemma claim_on_completed_task_is_recorded :
  completed (ex_task 1 (Some [])) = 1
  /\ get_task 1 (ex_world [ex_task 1 (Some [])])
     = (Ret (Some (ex_task 1 (Some []))), ex_world [ex_task 1 (Some [])])
  /\ get_task 1 (snd (claim_task 1 7 (ex_world [ex_task 1 (Some [])])))
     = (Ret (Some (ex_task 1 (Some [7]))),
        snd (claim_task 1 7 (ex_world [ex_task 1 (Some [])])))
  /\ ex_task 1 (Some [7]) <> ex_task 1 (Some []).
Proof. repeat split; try reflexivity. discriminate. Qed.

(** C3, as amended.  [claim_task] never reads [completed]: on a
    completed task it adds the user to the claimers as on an open one and
    changes no other column, [completed] included. *)
Theorem claim_task_ignores_completed (w : world) (task_id u : Z) (t : task)
    (Hget : get_task task_id w = (Ret (Some t), w))
    (Hdone : completed t <> 0) :
  exists t',
    get_task task_id (snd (claim_task task_id u w))
      = (Ret (Some t'), snd (claim_task task_id u w))
    /\ fst (claim_task task_id u w) = Ret (claimed_by t')
    /\ (forall x, In x (json_loads_or_empty (claimed_by t')) <->
                  In x (json_loads_or_empty (claimed_by t)) \/ x = u)
    /\ completed t' = completed t
    /\ t' = set_claimed_by (claimed_by t') t.
Proof.
  apply get_task_find in Hget as [Hb Hf].
  destruct (claim_task_spec w task_id u t Hb Hf) as (E1 & Hf' & _).
  cbv zeta in *.
  exists (set_claimed_by (Some (claim_list u (claimers t))) t).
  split; [now rewrite (get_task_run _ _ Hb), Hf'|].
  split; [now rewrite E1|].
  split; [apply claim_list_In|]. split; reflexivity.
Qed.

Lemma claim_task_ignores_completed_witness :
  completed (ex_task 1 (Some [])) <> 0
  /\ exists t',
    get_task 1 (snd (claim_task 1 7 (ex_world [ex_task 1 (Some [])])))
      = (Ret (Some t'), snd (claim_task 1 7 (ex_world [ex_task 1 (Some [])])))
    /\ fst (claim_task 1 7 (ex_world [ex_task 1 (Some [])])) = Ret (claimed_by t')
    /\ (forall x, In x (json_loads_or_empty (claimed_by t')) <->
                  In x (json_loads_or_empty (claimed_by (ex_task 1 (Some [])))) \/ x = 7)
    /\ completed t' = completed (ex_task 1 (Some []))
    /\ t' = set_claimed_by (claimed_by t') (ex_task 1 (Some [])).
Proof.
  assert (H : completed (ex_task 1 (Some [])) <> 0) by discriminate.
  split; [exact H|].
  exact (claim_task_ignores_completed (ex_world [ex_task 1 (Some [])]) 1 7
           (ex_task 1 (Some [])) eq_refl H).
Defined.

Lemma refresh_announcement_run msg wk k w :
  refresh_announcement msg wk k w = (Ret k, say (refresh_event msg wk (db w)) w).
Proof. reflexivity. Qed.

Lemma get_announcement_raises msg w :
  get_announcement_for_message msg w
  = (Raise (OperationalError "no such table: annoucements"), w).
Proof. reflexivity. Qed.

Lemma claim_task_never_raises task_id u w :
  sqlite_int task_id = true ->
  exists r, claim_task task_id u w = (Ret r, snd (claim_task task_id u w)).
Proof.
  intros Hb. rewrite (claim_task_run _ _ _ Hb).
  destruct (find_task task_id (db w)); eauto.
Qed.

Lemma claim_button_run wk0 task_id i w :
  sqlite_int task_id = true ->
  run_coro (make_claim_callback wk0 task_id i) w
  = (Raise (OperationalError "no such table: annoucements"),
     snd (claim_task task_id (user i) w)).
Proof.
  intros Hb. cbn [run_coro make_claim_callback]. unfold bind at 1.
  destruct (claim_task_never_raises task_id (user i) w Hb) as [r ->].
  reflexivity.
Qed.

Lemma claim_button_overflow wk0 task_id i w :
  sqlite_int task_id = false ->
  run_coro (make_claim_callback wk0 task_id i) w = (Raise OverflowError, w).
Proof.
  intros Hb. cbn [run_coro make_claim_callback]. unfold bind at 1.
  now rewrite (claim_task_overflow task_id (user i) w Hb).
Qed.

Lemma refresh_claim_button_run wk0 task_id i w :
  sqlite_int task_id = true ->
  run_coro (refresh_make_claim_callback wk0 task_id i) w
  = (Ret tt,
     say (InteractionSend (TxtClaimed task_id))
         (say (refresh_event (message i) wk0
                 (db (snd (claim_task task_id (user i) w))))
              (snd (claim_task task_id (user i) w)))).
Proof.
  intros Hb. cbn [run_coro refresh_make_claim_callback]. unfold bind at 1.
  destruct (claim_task_never_raises task_id (user i) w Hb) as [r ->].
  reflexivity.
Qed.

Lemma refresh_claim_button_overflow wk0 task_id i w :
  sqlite_int task_id = false ->
  run_coro (refresh_make_claim_callback wk0 task_id i) w
  = (Raise OverflowError, w).
Proof.
  intros Hb. cbn [run_coro refresh_make_claim_callback]. unfold bind at 1.
  now rewrite (claim_task_overflow task_id (user i) w Hb).
Qed.

Lemma claim_task_outbox task_id u w :
  outbox (snd (claim_task task_id u w)) = outbox w.
Proof.
  destruct (sqlite_int task_id) eqn:Hb;
    [|now rewrite (claim_task_overflow _ _ _ Hb)].
  rewrite (claim_task_run _ _ _ Hb).
  destruct (find_task task_id (db w)); reflexivity.
Qed.

(** C6.  What the code does on every claim button of [_announce_week]:
    the lookup raises [OperationalError] (no table [annoucements]); the
    handler is ended by that exception after [claim_task] has run, so the
    claim is stored, and nothing is sent: no refreshed view, no answer to
    the interaction.  There is no fall-back to the captured week.  (The
    id of a button is the id of a row; on an id outside 64 bits
    [claim_task] itself is ended by SQLite's [OverflowError].) *)
Theorem announce_claim_button_raises (wk0 : string) (task_id : Z)
    (i : interaction) (w : world) :
  get_announcement_for_message (message i) w
  = (Raise (OperationalError "no such table: annoucements"), w)
  /\ run_coro (make_claim_callback wk0 task_id i) w
     = (Raise (if sqlite_int task_id
               then OperationalError "no such table: annoucements"
               else OverflowError),
        snd (claim_task task_id (user i) w))
  /\ outbox (snd (run_coro (make_claim_callback wk0 task_id i) w)) = outbox w.
Proof.
  split; [reflexivity|]. destruct (sqlite_int task_id) eqn:Hb.
  - rewrite (claim_button_run _ _ _ _ Hb). split; [reflexivity|].
    apply claim_task_outbox.
  - rewrite (claim_button_overflow _ _ _ _ Hb).
    rewrite (claim_task_overflow _ _ _ Hb). split; reflexivity.
Qed.

Lemma complete_command_run ctx task_id w :
  sqlite_int task_id = true ->
  run_coro (_complete ctx task_id) w =
  match find_task task_id (db w) with
  | None => (Ret tt, say (CtxSend TxtTaskNotFound) w)
  | Some t =>
      if py_in (author ctx) (claimers t) || author_manage_messages ctx then
        (Ret tt, say (CtxSend (TxtTaskCompleted task_id))
                     (with_tasks (update_rows task_id (set_completed 1)
                                    (tasks (db w))) w))
      else (Ret tt, say (CtxSend TxtMustBeClaimed) w)
  end.
Proof.
  intros Hb. cbn [run_coro _complete]. unfold bind at 1.
  rewrite (get_task_run _ _ Hb).
  destruct (find_task task_id (db w)) as [t|]; [|reflexivity].
  fold (claimers t).
  destruct (py_in (author ctx) (claimers t) || author_manage_messages ctx);
    [|reflexivity].
  unfold bind at 1. now rewrite (complete_task_run _ _ Hb).
Qed.

Lemma complete_command_overflow ctx task_id w :
  sqlite_int task_id = false ->
  run_coro (_complete ctx task_id) w = (Raise OverflowError, w).
Proof.
  intros Hb. cbn [run_coro _complete]. unfold bind at 1.
  now rewrite (get_task_overflow _ _ Hb).
Qed.

Lemma complete_button_run wk0 task_id i w :
  sqlite_int task_id = true ->
  run_coro (make_complete_callback wk0 task_id i) w =
  match find_task task_id (db w) with
  | None => (Raise AttributeError, w)
  | Some t =>
      if py_in (user i) (claimers t) || manage_messages i then
        let w1 := with_tasks (update_rows task_id (set_completed 1)
                                (tasks (db w))) w in
        (Ret tt, say (InteractionSend (TxtTaskCompleted task_id))
                     (say (refresh_event (message i) wk0 (db w1)) w1))
      else (Ret tt, say (InteractionSend TxtMustBeClaimed) w)
  end.
Proof.
  intros Hb. cbn [run_coro make_complete_callback]. unfold bind at 1.
  rewrite (get_task_run _ _ Hb).
  destruct (find_task task_id (db w)) as [t|]; [|reflexivity].
  fold (claimers t).
  destruct (py_in (user i) (claimers t) || manage_messages i);
    [|reflexivity].
  unfold bind at 1. now rewrite (complete_task_run _ _ Hb).
Qed.

Lemma complete_button_overflow wk0 task_id i w :
  sqlite_int task_id = false ->
  run_coro (make_complete_callback wk0 task_id i) w = (Raise OverflowError, w).
Proof.
  intros Hb. cbn [run_coro make_complete_callback]. unfold bind at 1.
  now rewrite (get_task_overflow _ _ Hb).
Qed.

Lemma find_task_completed task_id w t :
  find_task task_id (db w) = Some t ->
  find_task task_id
    (db (with_tasks (update_rows task_id (set_completed 1) (tasks (db w))) w))
  = Some (set_completed 1 t).
Proof.
  intros Hf. rewrite find_task_with_tasks by reflexivity. rewrite Hf.
  cbn [option_map]. now rewrite (find_task_id _ _ _ Hf), Z.eqb_refl.
Qed.

Lemma get_task_db task_id w1 w2 :
  db w1 = db w2 -> fst (get_task task_id w1) = fst (get_task task_id w2).
Proof.
  intros E. destruct (sqlite_int task_id) eqn:Hb.
  - rewrite !(get_task_run _ _ Hb). cbn [fst]. now rewrite E.
  - now rewrite !(get_task_overflow _ _ Hb).
Qed.

Lemma completed_row_stored task_id w e t :
  sqlite_int task_id = true -> find_task task_id (db w) = Some t ->
  let w' := say e (with_tasks (update_rows task_id (set_completed 1)
                                 (tasks (db w))) w) in
  (exists t', get_task task_id w' = (Ret (Some t'), w')
              /\ completed t' = 1 /\ same_but_completed t t')
  /\ (forall other, other <> task_id ->
        fst (get_task other w') = fst (get_task other w))
  /\ get_task task_id w' = (Ret (Some (set_completed 1 t)), w').
Proof.
  intros Hb Hf. cbv zeta.
  assert (Hstored : forall w1, db w1
            = db (with_tasks (update_rows task_id (set_completed 1)
                                (tasks (db w))) w) ->
            get_task task_id w1 = (Ret (Some (set_completed 1 t)), w1)).
  { intros w1 E. rewrite (get_task_run _ _ Hb), E.
    now rewrite (find_task_completed _ _ _ Hf). }
  split; [|split].
  - exists (set_completed 1 t). split; [now apply Hstored|].
    split; [reflexivity|]. unfold same_but_completed. cbn. tauto.
  - intros other Hne.
    rewrite (get_task_db other
               (say e (with_tasks (update_rows task_id (set_completed 1)
                                     (tasks (db w))) w))
               (with_tasks (update_rows task_id (set_completed 1)
                              (tasks (db w))) w) eq_refl).
    now apply get_task_other.
  - now apply Hstored.
Qed.

(** C2.  On a task that exists, the [complete] command and the
    [Complete] button set [completed] to 1 exactly when the requester is
    among the claimers or holds the permission: the row then read back
    from the table has [completed = 1] and every other column as before,
    the other rows are as they were, and the confirmation is sent;
    otherwise the database is left as it is, the row reads back as it
    was, and the only effect is the refusal message. *)
Theorem complete_iff_claimer_or_privileged (w : world) (task_id : Z) (t : task)
    (ctx : context) (wk0 : string) (i : interaction)
    (Hget : get_task task_id w = (Ret (Some t), w)) :
  let claimed := json_loads_or_empty (claimed_by t) in
  (let w' := snd (run_coro (_complete ctx task_id) w) in
   fst (run_coro (_complete ctx task_id) w) = Ret tt
   /\ if py_in (author ctx) claimed || author_manage_messages ctx then
        (exists t', get_task task_id w' = (Ret (Some t'), w')
                    /\ completed t' = 1 /\ same_but_completed t t')
        /\ (forall other, other <> task_id ->
              fst (get_task other w') = fst (get_task other w))
        /\ get_task task_id w' = (Ret (Some (set_completed 1 t)), w')
        /\ outbox w' = (outbox w ++ [CtxSend (TxtTaskCompleted task_id)])%list
      else
        w' = mkworld (db w) (outbox w ++ [CtxSend TxtMustBeClaimed])
        /\ get_task task_id w' = (Ret (Some t), w'))
  /\
  (let w' := snd (run_coro (make_complete_callback wk0 task_id i) w) in
   fst (run_coro (make_complete_callback wk0 task_id i) w) = Ret tt
   /\ if py_in (user i) claimed || manage_messages i then
        (exists t', get_task task_id w' = (Ret (Some t'), w')
                    /\ completed t' = 1 /\ same_but_completed t t')
        /\ (forall other, other <> task_id ->
              fst (get_task other w') = fst (get_task other w))
        /\ get_task task_id w' = (Ret (Some (set_completed 1 t)), w')
        /\ exists edit,
             outbox w' = (outbox w ++ [edit;
                            InteractionSend (TxtTaskCompleted task_id)])%list
      else
        w' = mkworld (db w) (outbox w ++ [InteractionSend TxtMustBeClaimed])
        /\ get_task task_id w' = (Ret (Some t), w')).
Proof.
  apply get_task_find in Hget as [Hb Hf]. cbv zeta.
  assert (Hsame : forall w1, db w1 = db w ->
            get_task task_id w1 = (Ret (Some t), w1))
    by (intros w1 E; now rewrite (get_task_run _ _ Hb), E, Hf).
  split.
  - rewrite (complete_command_run _ _ _ Hb), Hf. fold (claimers t).
    destruct (py_in (author ctx) (claimers t) || author_manage_messages ctx);
      cbn [fst snd]; (split; [reflexivity|]).
    + destruct (completed_row_stored task_id w
                  (CtxSend (TxtTaskCompleted task_id)) t Hb Hf)
        as (H1 & H2 & H3).
      split; [exact H1|]. split; [exact H2|]. split; [exact H3|reflexivity].
    + split; [reflexivity|]. now apply Hsame.
  - rewrite (complete_button_run _ _ _ _ Hb), Hf. fold (claimers t).
    destruct (py_in (user i) (claimers t) || manage_messages i);
      cbn [fst snd]; (split; [reflexivity|]).
    + set (w1 := with_tasks (update_rows task_id (set_completed 1)
                               (tasks (db w))) w).
      destruct (completed_row_stored task_id w
                  (InteractionSend (TxtTaskCompleted task_id)) t Hb Hf)
        as ((t' & H1 & H1') & H2 & H3).
      fold w1 in H1, H2, H3.
      assert (Hdb : db (say (InteractionSend (TxtTaskCompleted task_id))
                          (say (refresh_event (message i) wk0 (db w1)) w1))
                    = db (say (InteractionSend (TxtTaskCompleted task_id)) w1))
        by reflexivity.
      assert (Hg : forall k,
                fst (get_task k
                       (say (InteractionSend (TxtTaskCompleted task_id))
                          (say (refresh_event (message i) wk0 (db w1)) w1)))
                = fst (get_task k
                         (say (InteractionSend (TxtTaskCompleted task_id)) w1)))
        by (intros k; now apply get_task_db).
      assert (Hfull : forall o,
                get_task task_id
                  (say (InteractionSend (TxtTaskCompleted task_id)) w1)
                = (Ret o, say (InteractionSend (TxtTaskCompleted task_id)) w1) ->
                get_task task_id
                  (say (InteractionSend (TxtTaskCompleted task_id))
                     (say (refresh_event (message i) wk0 (db w1)) w1))
                = (Ret o,
                   say (InteractionSend (TxtTaskCompleted task_id))
                     (say (refresh_event (message i) wk0 (db w1)) w1))).
      { intros o E. rewrite (get_task_run _ _ Hb) in E.
        rewrite (get_task_run _ _ Hb). injection E as E.
        rewrite <- E. reflexivity. }
      split; [exists t'; split; [now apply Hfull|exact H1']|].
      split; [intros other Hne; rewrite Hg; now apply H2|].
      split; [now apply Hfull|].
      eexists. cbn [outbox say with_tasks w1]. rewrite <- app_assoc. reflexivity.
    + split; [reflexivity|]. now apply Hsame.
Qed.

Lemma complete_iff_claimer_or_privileged_witness :
  get_task 1 (ex_world [ex_task 0 (Some [5])])
    = (Ret (Some (ex_task 0 (Some [5]))), ex_world [ex_task 0 (Some [5])])
  /\ (exists t',
        get_task 1 (snd (run_coro (_complete (mkcontext 5 false) 1)
                           (ex_world [ex_task 0 (Some [5])])))
        = (Ret (Some t'),
           snd (run_coro (_complete (mkcontext 5 false) 1)
                  (ex_world [ex_task 0 (Some [5])])))
        /\ completed t' = 1 /\ same_but_completed (ex_task 0 (Some [5])) t')
  /\ snd (run_coro (_complete (mkcontext 6 false) 1)
            (ex_world [ex_task 0 (Some [5])]))
     = mkworld (db (ex_world [ex_task 0 (Some [5])]))
               (outbox (ex_world [ex_task 0 (Some [5])])
                ++ [CtxSend TxtMustBeClaimed]).
Proof.
  split; [reflexivity|]. split.
  - exact (proj1 (proj2 (proj1 (complete_iff_claimer_or_privileged
                           (ex_world [ex_task 0 (Some [5])]) 1
                           (ex_task 0 (Some [5])) (mkcontext 5 false)
                           "2024-12-30" (mkinteraction 5 false 100) eq_refl)))).
  - exact (proj1 (proj2 (proj1 (complete_iff_claimer_or_privileged
                           (ex_world [ex_task 0 (Some [5])]) 1
                           (ex_task 0 (Some [5])) (mkcontext 6 false)
                           "2024-12-30" (mkinteraction 6 false 100) eq_refl)))).
Defined.

Lemma keeps_done_id : keeps_done (fun r => r).
Proof. intros r. auto. Qed.

Lemma keeps_done_update tid f : keeps_done f ->
  keeps_done (fun r => if id r =? tid then f r else r).
Proof. intros H r. destruct (id r =? tid); [apply H|auto]. Qed.

Lemma keeps_done_claimed c : keeps_done (set_claimed_by c).
Proof. intros r. auto. Qed.

Lemma keeps_done_completed : keeps_done (set_completed 1).
Proof. intros r. cbn. split; [reflexivity|discriminate]. Qed.

Lemma perform_rows a w :
  exists f, keeps_done f /\ tasks (db (perform a w)) = map f (tasks (db w)).
Proof.
  assert (Hsame : forall w', tasks (db w') = tasks (db w) ->
            exists f, keeps_done f /\ tasks (db w') = map f (tasks (db w))).
  { intros w' E. exists (fun r => r). split; [apply keeps_done_id|].
    now rewrite map_id. }
  assert (Hupd : forall tid g, keeps_done g ->
            exists f, keeps_done f /\
              update_rows tid g (tasks (db w)) = map f (tasks (db w))).
  { intros tid g Hg. eexists. split; [apply (keeps_done_update tid g Hg)|].
    reflexivity. }
  assert (Hclaim : forall tid u, exists f, keeps_done f /\
            tasks (db (snd (claim_task tid u w))) = map f (tasks (db w))).
  { intros tid u. destruct (sqlite_int tid) eqn:Hb;
      [|rewrite (claim_task_overflow _ _ _ Hb); now apply Hsame].
    rewrite (claim_task_run _ _ _ Hb).
    destruct (find_task tid (db w)); cbn [snd]; [|now apply Hsame].
    apply Hupd, keeps_done_claimed. }
  destruct a as [tid u|tid u|tid|ctx tid|wk tid i|wk tid i|wk tid i];
    cbn [perform]; destruct (sqlite_int tid) eqn:Hb.
  - apply Hclaim.
  - apply Hclaim.
  - rewrite (unclaim_task_run _ _ _ Hb).
    destruct (find_task tid (db w)); cbn [snd]; [|now apply Hsame].
    apply Hupd, keeps_done_claimed.
  - rewrite (unclaim_task_overflow _ _ _ Hb). now apply Hsame.
  - rewrite (complete_task_run _ _ Hb). cbn [snd].
    apply Hupd, keeps_done_completed.
  - rewrite (complete_task_overflow _ _ Hb). now apply Hsame.
  - rewrite (complete_command_run _ _ _ Hb).
    destruct (find_task tid (db w)) as [t|]; cbn [snd]; [|now apply Hsame].
    destruct (_ || _); cbn [snd]; [|now apply Hsame].
    apply Hupd, keeps_done_completed.
  - rewrite (complete_command_overflow _ _ _ Hb). now apply Hsame.
  - rewrite (claim_button_run _ _ _ _ Hb). cbn [snd]. apply Hclaim.
  - rewrite (claim_button_overflow _ _ _ _ Hb). now apply Hsame.
  - rewrite (refresh_claim_button_run _ _ _ _ Hb). cbn [snd]. apply Hclaim.
  - rewrite (refresh_claim_button_overflow _ _ _ _ Hb). now apply Hsame.
  - rewrite (complete_button_run _ _ _ _ Hb).
    destruct (find_task tid (db w)) as [t|]; cbn [snd]; [|now apply Hsame].
    destruct (_ || _); cbn [snd]; [|now apply Hsame].
    apply Hupd, keeps_done_completed.
  - rewrite (complete_button_overflow _ _ _ _ Hb). now apply Hsame.
Qed.

Lemma find_task_map task_id f rows :
  (forall r, id (f r) = id r) ->
  hd_error (filter (fun r => id r =? task_id) (map f rows)) =
  option_map f (hd_error (filter (fun r => id r =? task_id) rows)).
Proof.
  intros Hid. induction rows as [|r rows IH]; [reflexivity|].
  cbn [map filter]. rewrite Hid.
  destruct (id r =? task_id); [reflexivity|exact IH].
Qed.

Lemma perform_keeps_completed a w task_id t :
  find_task task_id (db w) = Some t -> completed t <> 0 ->
  exists t', find_task task_id (db (perform a w)) = Some t' /\ completed t' <> 0.
Proof.
  intros Hf Hd. destruct (perform_rows a w) as (f & Hk & E).
  unfold find_task in *. rewrite E, find_task_map by apply Hk.
  rewrite Hf. exists (f t). split; [reflexivity|]. now apply Hk.
Qed.

(** C4.  After any sequence of claims, unclaims and completions, run
    through the store or through the handlers, a task that was completed
    is still there and still completed. *)
Theorem completed_is_terminal (actions : list action) (w : world)
    (task_id : Z) (t : task)
    (Hget : get_task task_id w = (Ret (Some t), w))
    (Hdone : completed t <> 0) :
  let w' := fold_left (fun w a => perform a w) actions w in
  exists t', get_task task_id w' = (Ret (Some t'), w') /\ completed t' <> 0.
Proof.
  apply get_task_find in Hget as [Hb Hf]. cbv zeta.
  revert w t Hf Hdone.
  induction actions as [|a actions IH]; intros w t Hf Hdone; cbn [fold_left].
  - exists t. now rewrite (get_task_run _ _ Hb), Hf.
  - destruct (perform_keeps_completed a w task_id t Hf Hdone) as (t1 & Hf1 & Hd1).
    exact (IH (perform a w) t1 Hf1 Hd1).
Qed.

Lemma completed_is_terminal_witness :
  get_task 1 (ex_world [ex_task 1 (Some [5])])
    = (Ret (Some (ex_task 1 (Some [5]))), ex_world [ex_task 1 (Some [5])])
  /\ completed (ex_task 1 (Some [5])) <> 0
  /\ exists t',
       get_task 1 (fold_left (fun w a => perform a w)
                     [ActClaim 1 7; ActUnclaim 1 5; ActCompleteTask 1]
                     (ex_world [ex_task 1 (Some [5])]))
       = (Ret (Some t'),
          fold_left (fun w a => perform a w)
            [ActClaim 1 7; ActUnclaim 1 5; ActCompleteTask 1]
            (ex_world [ex_task 1 (Some [5])]))
       /\ completed t' <> 0.
Proof.
  assert (H : completed (ex_task 1 (Some [5])) <> 0) by discriminate.
  split; [reflexivity|]. split; [exact H|].
  exact (completed_is_terminal [ActClaim 1 7; ActUnclaim 1 5; ActCompleteTask 1]
           (ex_world [ex_task 1 (Some [5])]) 1 (ex_task 1 (Some [5])) eq_refl H).
Defined.

Lemma claim_button_first_segment announced wk0 task_id i :
  sqlite_int task_id = true ->
  exists m, claim_button announced wk0 task_id i = Seg m
    /\ forall w,
         (exists e, m w = (Raise e, snd (claim_task task_id (user i) w)))
         \/ (exists e, m w = (Ret (respond_claimed task_id),
                       say e (snd (claim_task task_id (user i) w)))).
Proof.
  intros Hb. destruct announced; cbn [claim_button].
  - eexists. split; [reflexivity|]. intros w. left.
    unfold bind at 1.
    destruct (claim_task_never_raises task_id (user i) w Hb) as [r E].
    rewrite E. cbn [snd]. eexists. reflexivity.
  - eexists. split; [reflexivity|]. intros w. right.
    unfold bind at 1.
    destruct (claim_task_never_raises task_id (user i) w Hb) as [r E].
    rewrite E. cbn [snd]. rewrite refresh_announcement_run.
    eexists. reflexivity.
Qed.

Lemma claim_task_has_claimed task_id u w :
  sqlite_int task_id = true ->
  task_exists task_id w -> has_claimed task_id u (snd (claim_task task_id u w)).
Proof.
  intros Hb [t Hf].
  destruct (claim_task_spec w task_id u t Hb Hf) as (_ & Hf' & _).
  cbv zeta in Hf'. eexists. split; [exact Hf'|].
  unfold claimers. cbn. apply claim_list_In. now right.
Qed.

Lemma claim_task_keeps_claimed task_id u v w :
  sqlite_int task_id = true ->
  has_claimed task_id v w -> has_claimed task_id v (snd (claim_task task_id u w)).
Proof.
  intros Hb (t & Hf & Hin).
  destruct (claim_task_spec w task_id u t Hb Hf) as (_ & Hf' & _).
  cbv zeta in Hf'. eexists. split; [exact Hf'|].
  unfold claimers. cbn. apply claim_list_In. now left.
Qed.

Lemma claim_task_keeps_task task_id u w :
  sqlite_int task_id = true ->
  task_exists task_id w -> task_exists task_id (snd (claim_task task_id u w)).
Proof.
  intros Hb [t Hf].
  destruct (claim_task_spec w task_id u t Hb Hf) as (_ & Hf' & _).
  cbv zeta in Hf'. eexists. exact Hf'.
Qed.

Lemma has_claimed_say task_id u e w :
  has_claimed task_id u (say e w) <-> has_claimed task_id u w.
Proof. reflexivity. Qed.

Lemma task_exists_say task_id e w :
  task_exists task_id (say e w) <-> task_exists task_id w.
Proof. reflexivity. Qed.

Lemma respond_claimed_run task_id w m :
  respond_claimed task_id = Seg m ->
  m w = (Ret Stop, say (InteractionSend (TxtClaimed task_id)) w).
Proof. intros [= <-]. reflexivity. Qed.

(** one step of a claim handler of [i], seen from itself and from the
    handler of another user [j] *)
Lemma claim_stage_step announced wk0 task_id i m w c' w' :
  sqlite_int task_id = true ->
  task_exists task_id w ->
  claim_stage announced wk0 task_id i (Seg m) w ->
  (m w = (Ret c', w') \/ exists e, m w = (Raise e, w') /\ c' = Stop) ->
  task_exists task_id w'
  /\ claim_stage announced wk0 task_id i c' w'
  /\ (forall v, has_claimed task_id v w -> has_claimed task_id v w').
Proof.
  intros Hbound Hex [Hc|[[Hc|Hc] Hcl]] Hrun; [| |discriminate].
  - destruct (claim_button_first_segment announced wk0 task_id i Hbound)
      as (m0 & Em & Hm).
    rewrite Em in Hc. injection Hc as ->.
    assert (Hw' : (w' = snd (claim_task task_id (user i) w)
                   \/ exists e, w' = say e (snd (claim_task task_id (user i) w)))
                  /\ (c' = respond_claimed task_id \/ c' = Stop)).
    { destruct (Hm w) as [[e He]|[e He]]; rewrite He in Hrun;
        destruct Hrun as [Hr|(e' & Hr & ->)]; try discriminate;
        injection Hr as ? ?; subst; eauto. }
    destruct Hw' as [Hw' Hc'].
    assert (Hin : task_exists task_id w'
                  /\ has_claimed task_id (user i) w'
                  /\ forall v, has_claimed task_id v w -> has_claimed task_id v w').
    { destruct Hw' as [->|[e ->]].
      - split; [now apply claim_task_keeps_task|].
        split; [now apply claim_task_has_claimed|].
        intros v. now apply claim_task_keeps_claimed.
      - split; [apply task_exists_say; now apply claim_task_keeps_task|].
        split; [apply has_claimed_say; now apply claim_task_has_claimed|].
        intros v Hv. apply has_claimed_say.
        now apply claim_task_keeps_claimed. }
    destruct Hin as (H1 & H2 & H3).
    split; [exact H1|]. split; [right; now split|exact H3].
  - rewrite (respond_claimed_run task_id w m (eq_sym Hc)) in Hrun.
    assert (E : c' = Stop
                /\ w' = say (InteractionSend (TxtClaimed task_id)) w).
    { destruct Hrun as [Hr|(e & Hr & _)]; [|discriminate].
      injection Hr as ? ?. now subst. }
    destruct E as [-> ->].
    split; [now apply task_exists_say|].
    split; [right; split; [now right|now apply has_claimed_say]|].
    intros v Hv. now apply has_claimed_say.
Qed.

Lemma claim_stage_frame announced wk0 task_id i c w w' :
  claim_stage announced wk0 task_id i c w ->
  (forall v, has_claimed task_id v w -> has_claimed task_id v w') ->
  claim_stage announced wk0 task_id i c w'.
Proof. intros [Hc|[Hc Hcl]] Hk; [now left|right; split; auto]. Qed.

Lemma sched_invariant ka kb wa wb task_id ia ib st st' :
  sqlite_int task_id = true ->
  sched_steps st st' ->
  forall a b w, st = (a, b, w) ->
  task_exists task_id w ->
  claim_stage ka wa task_id ia a w ->
  claim_stage kb wb task_id ib b w ->
  forall a' b' w', st' = (a', b', w') ->
  task_exists task_id w'
  /\ claim_stage ka wa task_id ia a' w'
  /\ claim_stage kb wb task_id ib b' w'.
Proof.
  intros Hbound.
  induction 1 as [st|st1 st2 st3 Hstep Hsteps IH];
    intros a b w E Hex Ha Hb a' b' w' E'.
  - subst st. injection E' as <- <- <-. auto.
  - subst st1 st3.
    inversion Hstep as [m b0 w0 a1 w1 Hm|m b0 w0 e w1 Hm
                       |a0 m w0 b1 w1 Hm|a0 m w0 e w1 Hm]; subst.
    + destruct (claim_stage_step ka wa task_id ia m w a1 w1 Hbound Hex Ha
                  (or_introl Hm)) as (H1 & H2 & H3).
      eapply IH; eauto using claim_stage_frame.
    + destruct (claim_stage_step ka wa task_id ia m w Stop w1 Hbound Hex Ha
                  (or_intror (ex_intro _ e (conj Hm eq_refl))))
        as (H1 & H2 & H3).
      eapply IH; eauto using claim_stage_frame.
    + destruct (claim_stage_step kb wb task_id ib m w b1 w1 Hbound Hex Hb
                  (or_introl Hm)) as (H1 & H2 & H3).
      eapply IH; eauto using claim_stage_frame.
    + destruct (claim_stage_step kb wb task_id ib m w Stop w1 Hbound Hex Hb
                  (or_intror (ex_intro _ e (conj Hm eq_refl))))
        as (H1 & H2 & H3).
      eapply IH; eauto using claim_stage_frame.
Qed.

Lemma claim_button_not_stop k wk0 task_id i :
  claim_button k wk0 task_id i <> Stop.
Proof. destruct k; discriminate. Qed.

(** C1.  Two claim buttons pressed on the same existing task by two
    users, scheduled in any way the event loop can (it switches
    coroutines only at an [await]): when both handlers have ended, both
    users are among the stored claimers. *)
Theorem concurrent_claims_both_persist
    (ka kb : bool) (wa wb : string) (task_id : Z) (ia ib : interaction)
    (w w' : world) (t : task)
    (Hget : get_task task_id w = (Ret (Some t), w))
    (Hrun : sched_steps
              (claim_button ka wa task_id ia, claim_button kb wb task_id ib, w)
              (Stop, Stop, w')) :
  exists t', get_task task_id w' = (Ret (Some t'), w')
             /\ In (user ia) (json_loads_or_empty (claimed_by t'))
             /\ In (user ib) (json_loads_or_empty (claimed_by t')).
Proof.
  apply get_task_find in Hget as [Hbound Hf].
  destruct (sched_invariant ka kb wa wb task_id ia ib _ _ Hbound Hrun
              _ _ _ eq_refl
              (ex_intro _ t Hf) (or_introl eq_refl) (or_introl eq_refl)
              _ _ _ eq_refl) as (_ & Ha & Hb).
  destruct Ha as [Ha|[_ (ta & Hfa & Hina)]];
    [symmetry in Ha; now apply claim_button_not_stop in Ha|].
  destruct Hb as [Hb|[_ (tb & Hfb & Hinb)]];
    [symmetry in Hb; now apply claim_button_not_stop in Hb|].
  rewrite Hfa in Hfb. injection Hfb as <-.
  exists ta. rewrite (get_task_run _ _ Hbound), Hfa. auto.
Qed.

Lemma ascii_compare_trans_lt a b c :
  Ascii.compare a b = Lt -> Ascii.compare b c = Lt -> Ascii.compare a c = Lt.
Proof.
  unfold Ascii.compare. rewrite !N.compare_lt_iff. lia.
Qed.

Lemma string_leb_trans s1 : forall s2 s3,
  String.leb s1 s2 = true -> String.leb s2 s3 = true -> String.leb s1 s3 = true.
Proof.
  unfold String.leb.
  induction s1 as [|a s1 IH]; intros [|b s2] [|c s3]; cbn [String.compare];
    try reflexivity; try discriminate.
  destruct (Ascii.compare a b) eqn:Eab; try discriminate;
    destruct (Ascii.compare b c) eqn:Ebc; try discriminate.
  - apply Ascii.compare_eq_iff in Eab, Ebc. subst.
    assert (E : Ascii.compare c c = Eq)
      by (unfold Ascii.compare; apply N.compare_refl).
    rewrite E. apply IH.
  - apply Ascii.compare_eq_iff in Eab. subst. now rewrite Ebc.
  - apply Ascii.compare_eq_iff in Ebc. subst. now rewrite Eab.
  - now rewrite (ascii_compare_trans_lt a b c Eab Ebc).
Qed.

Lemma string_leb_total s1 s2 :
  String.leb s1 s2 = false -> String.leb s2 s1 = true.
Proof.
  intros H. destruct (String.leb_total s1 s2) as [E|E]; congruence.
Qed.

Lemma insert_by_due_date_perm t l : Permutation (t :: l) (insert_by_due_date t l).
Proof.
  induction l as [|u l IH]; cbn [insert_by_due_date]; [reflexivity|].
  destruct (String.leb (due_date t) (due_date u)); [reflexivity|].
  rewrite perm_swap. now apply perm_skip.
Qed.

Lemma order_by_due_date_perm l : Permutation l (order_by_due_date l).
Proof.
  induction l as [|t l IH]; cbn; [reflexivity|].
  rewrite <- insert_by_due_date_perm. now apply perm_skip.
Qed.

Lemma insert_by_due_date_sorted t l :
  StronglySorted due_le l -> StronglySorted due_le (insert_by_due_date t l).
Proof.
  induction 1 as [|u l Hs IH Hall]; cbn [insert_by_due_date].
  - repeat constructor.
  - destruct (String.leb (due_date t) (due_date u)) eqn:E.
    + constructor; [now constructor|]. constructor; [exact E|].
      eapply Forall_impl; [|exact Hall]. intros v Hv.
      exact (string_leb_trans _ _ _ E Hv).
    + constructor; [exact IH|].
      apply (Permutation_Forall (insert_by_due_date_perm t l)).
      constructor; [now apply string_leb_total|exact Hall].
Qed.

Lemma order_by_due_date_sorted l : StronglySorted due_le (order_by_due_date l).
Proof.
  induction l as [|t l IH]; cbn; [constructor|].
  now apply insert_by_due_date_sorted.
Qed.

Lemma order_by_due_date_In t l : In t (order_by_due_date l) <-> In t l.
Proof.
  split; apply Permutation_in;
    [symmetry|]; apply order_by_due_date_perm.
Qed.

(** C10.  [get_tasks_for_week] returns exactly the rows whose
    [week_start] is the argument, in ascending order of [due_date];
    [get_open_tasks_for_week] returns those of them with [completed = 0],
    in the same order. *)
Theorem tasks_for_week_listing (w : world) (wk : string) :
  (exists rows,
     get_tasks_for_week wk w = (Ret rows, w)
     /\ (forall t, In t rows <-> In t (tasks (db w)) /\ week_start t = wk)
     /\ StronglySorted due_le rows
     /\ Permutation rows
          (filter (fun r => String.eqb (week_start r) wk) (tasks (db w))))
  /\
  (exists rows,
     get_open_tasks_for_week wk w = (Ret rows, w)
     /\ (forall t, In t rows <->
                   In t (tasks (db w)) /\ week_start t = wk /\ completed t = 0)
     /\ StronglySorted due_le rows
     /\ Permutation rows
          (filter (fun r => String.eqb (week_start r) wk && (completed r =? 0))
                  (tasks (db w)))).
Proof.
  split.
  - eexists. split; [reflexivity|]. split; [|split].
    + intros t. rewrite order_by_due_date_In, filter_In, String.eqb_eq. tauto.
    + apply order_by_due_date_sorted.
    + symmetry. apply order_by_due_date_perm.
  - eexists. split; [reflexivity|]. split; [|split].
    + intros t. rewrite order_by_due_date_In, filter_In, andb_true_iff,
        String.eqb_eq, Z.eqb_eq. tauto.
    + apply order_by_due_date_sorted.
    + symmetry. apply order_by_due_date_perm.
Qed.

Lemma concurrent_claims_both_persist_witness :
  get_task 1 (ex_world [ex_task 0 (Some [])])
    = (Ret (Some (ex_task 0 (Some []))), ex_world [ex_task 0 (Some [])])
  /\ exists w',
       sched_steps
         (claim_button true "2024-12-30" 1 (mkinteraction 5 false 100),
          claim_button false "2024-12-30" 1 (mkinteraction 7 false 100),
          ex_world [ex_task 0 (Some [])])
         (Stop, Stop, w')
       /\ exists t', get_task 1 w' = (Ret (Some t'), w')
                     /\ In 5 (json_loads_or_empty (claimed_by t'))
                     /\ In 7 (json_loads_or_empty (claimed_by t')).
Proof.
  split; [reflexivity|].
  assert (Hrun : sched_steps
         (claim_button true "2024-12-30" 1 (mkinteraction 5 false 100),
          claim_button false "2024-12-30" 1 (mkinteraction 7 false 100),
          ex_world [ex_task 0 (Some [])])
         (Stop, Stop,
          snd (run_coro
                 (refresh_make_claim_callback "2024-12-30" 1
                    (mkinteraction 7 false 100))
                 (snd (claim_task 1 5 (ex_world [ex_task 0 (Some [])])))))).
  { eapply sched_more; [eapply sched_left_raise; cbv; reflexivity|].
    eapply sched_more; [apply sched_right; cbv; reflexivity|].
    eapply sched_more; [apply sched_right; cbv; reflexivity|].
    apply sched_done. }
  eexists. split; [exact Hrun|].
  exact (concurrent_claims_both_persist true false "2024-12-30" "2024-12-30" 1
           (mkinteraction 5 false 100) (mkinteraction 7 false 100)
           (ex_world [ex_task 0 (Some [])]) _ (ex_task 0 (Some [])) eq_refl
           Hrun).
Defined.

(** ** The reminder scan *)

Lemma select_tasks_run p w :
  select_tasks "tasks" [] p w = (Ret (filter p (tasks (db w))), w).
Proof. reflexivity. Qed.

Lemma select_tasks_bound task_id p w :
  sqlite_int task_id = true ->
  select_tasks "tasks" [task_id] p w = (Ret (filter p (tasks (db w))), w).
Proof.
  intros Hb. unfold select_tasks, bind. cbn.
  now rewrite (bind_params_run task_id w Hb).
Qed.

Lemma select_tasks_overflow task_id p w :
  sqlite_int task_id = false ->
  select_tasks "tasks" [task_id] p w = (Raise OverflowError, w).
Proof.
  intros Hb. unfold select_tasks, bind. cbn.
  now rewrite (bind_params_overflow task_id w Hb).
Qed.

Section ReminderFacts.

Variable REMINDER_HOURS : Z.
Variable PROJECT_CHANNEL_ID : Z.
Variable get_channel : Z -> option Z.
Variable fromisoformat : string -> option iso_datetime.

Local Abbreviation notice_of :=
  (notice PROJECT_CHANNEL_ID get_channel fromisoformat).

Lemma notice_aware now soon r :
  due_aware fromisoformat r = true -> notice_of now soon r = [].
Proof.
  unfold due_aware, notice, in_window.
  destruct (parse_due fromisoformat (due_date r)) as [[due|due off]|];
    [discriminate|reflexivity|discriminate].
Qed.

Lemma remind_run now soon r w :
  remind PROJECT_CHANNEL_ID get_channel fromisoformat now soon r w
  = (if due_aware fromisoformat r then Raise TypeError else Ret tt,
     mkworld (db w) (outbox w ++ notice_of now soon r)).
Proof.
  unfold remind, notice, in_window, due_aware.
  destruct (parse_due fromisoformat (due_date r)) as [[due|due off]|];
    [|cbn; now rewrite app_nil_r; destruct w
     |cbn; now rewrite app_nil_r; destruct w].
  destruct (datetime_leb now due && datetime_leb due soon);
    [|cbn; now rewrite app_nil_r; destruct w].
  destruct (get_channel PROJECT_CHANNEL_ID) as [ch|]; [|reflexivity].
  unfold reminder_text.
  destruct (json_loads_or_empty (claimed_by r)); reflexivity.
Qed.

Lemma for_each_remind_run now soon rows : forall w,
  for_each rows (remind PROJECT_CHANNEL_ID get_channel fromisoformat now soon) w
  = (if existsb (due_aware fromisoformat) rows then Raise TypeError
     else Ret tt,
     mkworld (db w)
       (outbox w ++ flat_map (notice_of now soon)
                      (scanned fromisoformat rows))).
Proof.
  induction rows as [|r rows IH]; intros w.
  - cbn. rewrite app_nil_r. now destruct w.
  - cbn [for_each flat_map existsb scanned]. unfold bind.
    rewrite remind_run.
    destruct (due_aware fromisoformat r) eqn:Ea; cbn [orb].
    + now rewrite (notice_aware now soon r Ea).
    + rewrite IH. cbn [db outbox flat_map]. now rewrite app_assoc.
Qed.

Lemma check_deadlines_run now soon w :
  datetime_add_hours now REMINDER_HOURS = Some soon ->
  check_deadlines REMINDER_HOURS PROJECT_CHANNEL_ID get_channel fromisoformat
                  now w
  = (if existsb (due_aware fromisoformat)
          (filter (fun r => completed r =? 0) (tasks (db w)))
     then Raise TypeError else Ret tt,
     mkworld (db w)
       (outbox w ++ LogInfo ::
          flat_map (notice_of now soon)
            (scanned fromisoformat
               (filter (fun r => completed r =? 0) (tasks (db w)))))).
Proof.
  intros Hsoon. unfold check_deadlines. rewrite Hsoon.
  unfold bind. cbn [emit]. rewrite select_tasks_run.
  rewrite for_each_remind_run. cbn [db outbox].
  now rewrite <- app_assoc.
Qed.

Lemma scanned_all rows :
  existsb (due_aware fromisoformat) rows = false ->
  scanned fromisoformat rows = rows.
Proof.
  induction rows as [|r rows IH]; [reflexivity|].
  cbn [existsb scanned]. intros H. apply orb_false_iff in H as [-> H].
  now rewrite (IH H).
Qed.

Lemma scanned_In rows r : In r (scanned fromisoformat rows) -> In r rows.
Proof.
  induction rows as [|u rows IH]; [intros []|].
  cbn [scanned]. destruct (due_aware fromisoformat u); [intros []|].
  intros [->|H]; [now left|right; now apply IH].
Qed.

Lemma scanned_NoDup rows :
  NoDup (map id rows) -> NoDup (map id (scanned fromisoformat rows)).
Proof.
  induction rows as [|u rows IH]; intros Hk; [constructor|].
  cbn [map] in Hk. inversion Hk as [|? ? Hn Hk']; subst.
  cbn [scanned]. destruct (due_aware fromisoformat u); [constructor|].
  cbn [map]. constructor; [|now apply IH].
  intros H. apply Hn. apply in_map_iff in H as (v & Ev & Hv).
  rewrite <- Ev. apply in_map. now apply scanned_In.
Qed.

Lemma notice_about now soon r task_id e :
  In e (notice_of now soon r) -> reminder_about task_id e = true ->
  id r = task_id.
Proof.
  unfold notice. destruct (in_window fromisoformat now soon r); [|intros []].
  destruct (get_channel PROJECT_CHANNEL_ID);
    intros [<-|[]]; [|cbn; discriminate].
  unfold reminder_text. destruct (json_loads_or_empty (claimed_by r));
    cbn; apply Z.eqb_eq.
Qed.

Lemma notice_self now soon r ch :
  get_channel PROJECT_CHANNEL_ID = Some ch ->
  filter (reminder_about (id r)) (notice_of now soon r) = notice_of now soon r.
Proof.
  intros Hch. unfold notice.
  destruct (in_window fromisoformat now soon r); [|reflexivity]. rewrite Hch.
  unfold reminder_text. destruct (json_loads_or_empty (claimed_by r));
    cbn; now rewrite Z.eqb_refl.
Qed.

Lemma notices_of_others now soon u l :
  ~ In (id u) (map id l) ->
  filter (reminder_about (id u)) (flat_map (notice_of now soon) l) = [].
Proof.
  intros Hu. induction l as [|v l IHl]; [reflexivity|].
  cbn [flat_map]. rewrite filter_app, IHl by (intros H; apply Hu; now right).
  rewrite app_nil_r.
  destruct (filter (reminder_about (id u)) (notice_of now soon v))
    as [|e l'] eqn:E; [reflexivity|].
  assert (He : In e (filter (reminder_about (id u)) (notice_of now soon v)))
    by (rewrite E; now left).
  apply filter_In in He as [He1 He2].
  exfalso. apply Hu. left. exact (notice_about _ _ _ _ _ He1 He2).
Qed.

Lemma filter_notices now soon ch t rows :
  get_channel PROJECT_CHANNEL_ID = Some ch ->
  NoDup (map id rows) -> In t rows ->
  filter (reminder_about (id t)) (flat_map (notice_of now soon) rows)
  = notice_of now soon t.
Proof.
  intros Hch. induction rows as [|r rows IH]; intros Hnd Hin; [destruct Hin|].
  cbn [map] in Hnd. inversion Hnd as [|? ? Hnotin Hnd']; subst.
  cbn [flat_map]. rewrite filter_app.
  destruct Hin as [->|Hin].
  - rewrite (notice_self _ _ _ ch Hch), (notices_of_others _ _ t rows Hnotin).
    apply app_nil_r.
  - rewrite (IH Hnd' Hin).
    assert (Hne : ~ In (id t) (map id [r])).
    { intros [E|[]]. apply Hnotin. rewrite E. now apply in_map. }
    pose proof (notices_of_others now soon t [r] Hne) as H1.
    cbn [flat_map] in H1. rewrite app_nil_r in H1. now rewrite H1.
Qed.

Lemma warnings_only now soon rows :
  get_channel PROJECT_CHANNEL_ID = None ->
  flat_map (notice_of now soon) rows
  = repeat LogWarning
      (List.length (filter (in_window fromisoformat now soon) rows)).
Proof.
  intros Hch. induction rows as [|r rows IH]; [reflexivity|].
  cbn [flat_map filter]. unfold notice at 1. rewrite Hch.
  destruct (in_window fromisoformat now soon r); cbn [app List.length repeat];
    now rewrite IH.
Qed.

Lemma NoDup_filter_ids (p : task -> bool) rows :
  NoDup (map id rows) -> NoDup (map id (filter p rows)).
Proof.
  induction rows as [|r rows IH]; intros Hk; [constructor|].
  cbn [map] in Hk. inversion Hk as [|? ? Hn Hk']; subst.
  cbn [filter]. destruct (p r); [|now apply IH].
  cbn [map]. constructor; [|now apply IH].
  intros H. apply Hn. apply in_map_iff in H as (u & Eu & Hu).
  apply filter_In in Hu as [Hu _]. rewrite <- Eu. now apply in_map.
Qed.

Lemma NoDup_ids_inj rows (r t : task) :
  NoDup (map id rows) -> In r rows -> In t rows -> id r = id t -> r = t.
Proof.
  induction rows as [|u rows IH]; intros Hk Hr Ht Eid; [destruct Hr|].
  cbn [map] in Hk. inversion Hk as [|? ? Hn Hk']; subst.
  destruct Hr as [->|Hr], Ht as [->|Ht]; try reflexivity.
  - exfalso. apply Hn. rewrite Eid. now apply in_map.
  - exfalso. apply Hn. rewrite <- Eid. now apply in_map.
  - now apply IH.
Qed.

(** C5, as amended.  A scan leaves the database alone and goes through
    the open tasks in table order.  A due date that does not parse is
    skipped and the scan goes on; a due date that parses to an aware
    datetime (a text with a UTC offset) ends the scan with [TypeError],
    so the rows the scan deals with are the open ones before the first
    such row, all the open ones when there is none.  When the project
    channel resolves, the scan sends only reminders, and for every task
    (ids being distinct) exactly one when the scan reaches it, it is open
    and its due date lies within [now, soon], both ends included, naming
    the claimers or saying there is none, and no reminder otherwise.
    When the channel does not resolve nothing is sent: the scan logs one
    warning for each task it reaches whose due date lies in the
    window. *)
Theorem check_deadlines_reminders (now soon : datetime) (w : world)
    (Hsoon : datetime_add_hours now REMINDER_HOURS = Some soon)
    (Hkey : NoDup (map id (tasks (db w)))) :
  let rows := filter (fun r => completed r =? 0) (tasks (db w)) in
  let reached := scanned fromisoformat rows in
  exists sent,
    check_deadlines REMINDER_HOURS PROJECT_CHANNEL_ID get_channel fromisoformat
                    now w
    = (if existsb (due_aware fromisoformat) rows then Raise TypeError
       else Ret tt,
       mkworld (db w) (outbox w ++ LogInfo :: sent))
    /\ (existsb (due_aware fromisoformat) rows = false -> reached = rows)
    /\ match get_channel PROJECT_CHANNEL_ID with
       | Some ch =>
           Forall (fun e => is_channel_send e = true) sent
           /\ forall t, In t (tasks (db w)) ->
                filter (reminder_about (id t)) sent =
                if (completed t =? 0)
                   && existsb (fun r => id r =? id t) reached
                   && in_window fromisoformat now soon t
                then [ChannelSend ch (reminder_text t)]
                else []
       | None =>
           sent = repeat LogWarning
                    (List.length (filter (in_window fromisoformat now soon)
                                    reached))
       end.
Proof.
  cbv zeta. eexists. split; [apply (check_deadlines_run now soon w Hsoon)|].
  split; [apply scanned_all|].
  set (rows := filter (fun r => completed r =? 0) (tasks (db w))).
  assert (Hrows : NoDup (map id rows)) by (now apply NoDup_filter_ids).
  destruct (get_channel PROJECT_CHANNEL_ID) as [ch|] eqn:Hchannel;
    [|now apply warnings_only].
  split.
  - apply Forall_forall. intros e He. apply in_flat_map in He as (r & _ & He).
    unfold notice in He.
    destruct (in_window fromisoformat now soon r); [|destruct He].
    rewrite Hchannel in He. destruct He as [<-|[]]. reflexivity.
  - intros t Ht.
    destruct (existsb (fun r => id r =? id t) (scanned fromisoformat rows))
      eqn:Er.
    + apply existsb_exists in Er as (r & Hr & Eid). apply Z.eqb_eq in Eid.
      assert (Hr' : In r rows) by (now apply scanned_In).
      assert (Hrt : In r (tasks (db w)))
        by (unfold rows in Hr'; now apply filter_In in Hr').
      assert (E : r = t) by (exact (NoDup_ids_inj _ r t Hkey Hrt Ht Eid)).
      subst r. unfold rows in Hr'. apply filter_In in Hr' as [_ Hopen].
      rewrite Hopen. cbn [andb].
      rewrite (filter_notices now soon ch t _ Hchannel
                 (scanned_NoDup rows Hrows) Hr).
      unfold notice. now rewrite Hchannel.
    + rewrite andb_false_r. cbn [andb].
      apply notices_of_others. intros Hin.
      apply in_map_iff in Hin as (r & Eid & Hr).
      assert (Hex : existsb (fun r => id r =? id t)
                      (scanned fromisoformat rows) = true)
        by (apply existsb_exists; exists r; split;
            [exact Hr|now apply Z.eqb_eq]).
      congruence.
Qed.

End ReminderFacts.

Lemma check_deadlines_reminders_witness :
  datetime_add_hours ex_now 48 = Some (mkdatetime (mkdate 2025 1 3) 0 0 0 0)
  /\ NoDup (map id (tasks (db (ex_world [ex_row 2 "someday";
                                        ex_task 0 (Some [5])]))))
  /\ exists sent,
       check_deadlines 48 0 (fun c => Some c) (fun _ => None) ex_now
                       (ex_world [ex_row 2 "someday"; ex_task 0 (Some [5])])
       = (Ret tt,
          mkworld (db (ex_world [ex_row 2 "someday"; ex_task 0 (Some [5])]))
                  (outbox (ex_world [ex_row 2 "someday";
                                     ex_task 0 (Some [5])])
                   ++ LogInfo :: sent))
       /\ Forall (fun e => is_channel_send e = true) sent
       /\ filter (reminder_about 1) sent
          = [ChannelSend 0 (TxtReminderClaimed 1 "report" "2025-01-02" [5])]
       /\ filter (reminder_about 2) sent = [].
Proof.
  assert (Hk : NoDup (map id (tasks (db (ex_world [ex_row 2 "someday";
                                                 ex_task 0 (Some [5])])))))
    by (repeat constructor; cbn; intuition discriminate).
  split; [reflexivity|]. split; [exact Hk|].
  destruct (check_deadlines_reminders 48 0 (fun c => Some c) (fun _ => None)
              ex_now (mkdatetime (mkdate 2025 1 3) 0 0 0 0)
              (ex_world [ex_row 2 "someday"; ex_task 0 (Some [5])])
              eq_refl Hk)
    as (sent & Hrun & _ & Hall & Hone).
  exists sent. split; [exact Hrun|]. split; [exact Hall|]. split.
  - exact (Hone (ex_task 0 (Some [5])) (or_intror (or_introl eq_refl))).
  - exact (Hone (ex_row 2 "someday") (or_introl eq_refl)).
Defined.

(** C5, the claim as stated fails: with the default configuration
    ([PROJECT_CHANNEL_ID = 0], a channel the bot does not find) an open
    task due inside the window is not notified; the scan logs a warning
    and goes on. *)
Lemma reminder_dropped_without_channel :
  completed (ex_task 0 (Some [5])) = 0
  /\ parse_due (fun _ => None) (due_date (ex_task 0 (Some [5])))
     = Some (Naive (mkdatetime (mkdate 2025 1 2) 0 0 0 0))
  /\ datetime_add_hours ex_now 48 = Some (mkdatetime (mkdate 2025 1 3) 0 0 0 0)
  /\ datetime_leb ex_now (mkdatetime (mkdate 2025 1 2) 0 0 0 0) = true
  /\ datetime_leb (mkdatetime (mkdate 2025 1 2) 0 0 0 0)
                  (mkdatetime (mkdate 2025 1 3) 0 0 0 0) = true
  /\ check_deadlines 48 0 (fun _ => None) (fun _ => None) ex_now
                     (ex_world [ex_task 0 (Some [5])])
     = (Ret tt,
        mkworld (db (ex_world [ex_task 0 (Some [5])])) [LogInfo; LogWarning]).
Proof. repeat split; reflexivity. Qed.

(** * Further properties of the code *)

(** ** [unclaim_task] and missing tasks *)

Lemma py_remove_In u l x : In x (py_remove u l) -> In x l.
Proof.
  induction l as [|y l IH]; cbn [py_remove]; [auto|].
  destruct (y =? u); [now right|]. intros [->|H]; [now left|right; auto].
Qed.

Lemma py_remove_other u l x : x <> u -> In x l -> In x (py_remove u l).
Proof.
  intros Hne. induction l as [|y l IH]; cbn [py_remove]; [auto|].
  destruct (Z.eqb_spec y u) as [->|Hy].
  - intros [E|H]; [congruence|exact H].
  - intros [->|H]; [now left|right; auto].
Qed.

Lemma py_remove_NoDup u l : NoDup l -> NoDup (py_remove u l) /\ ~ In u (py_remove u l).
Proof.
  induction 1 as [|y l Hy Hl IH]; cbn [py_remove].
  - split; [constructor|intros []].
  - destruct (Z.eqb_spec y u) as [->|Hne]; [now split|].
    destruct IH as [IH1 IH2]. split.
    + constructor; [|exact IH1]. intros H. apply Hy. eapply py_remove_In; eauto.
    + intros [E|H]; [congruence|contradiction].
Qed.

Lemma py_remove_absent u l : ~ In u l -> py_remove u l = l.
Proof.
  induction l as [|y l IH]; cbn [py_remove]; [reflexivity|]. intros H.
  destruct (Z.eqb_spec y u) as [->|Hne]; [exfalso; apply H; now left|].
  f_equal. apply IH. intros Hin. apply H. now right.
Qed.

Lemma py_remove_appended u l : ~ In u l -> py_remove u (l ++ [u]) = l.
Proof.
  induction l as [|y l IH]; cbn [py_remove app]; intros H.
  - now rewrite Z.eqb_refl.
  - destruct (Z.eqb_spec y u) as [->|Hne]; [exfalso; apply H; now left|].
    f_equal. apply IH. intros Hin. apply H. now right.
Qed.

Lemma unclaim_list_In u l x : In x (unclaim_list u l) -> In x l.
Proof.
  unfold unclaim_list. destruct (py_in u l); [apply py_remove_In|auto].
Qed.

Lemma unclaim_list_other u l x : x <> u -> In x l -> In x (unclaim_list u l).
Proof.
  unfold unclaim_list. destruct (py_in u l); [apply py_remove_other|auto].
Qed.

Lemma unclaim_list_NoDup u l :
  NoDup l -> NoDup (unclaim_list u l) /\ ~ In u (unclaim_list u l).
Proof.
  intros H. unfold unclaim_list. destruct (py_in u l) eqn:E.
  - now apply py_remove_NoDup.
  - split; [exact H|]. intros Hin. apply py_in_In in Hin. congruence.
Qed.

Lemma unclaim_list_absent u l : ~ In u l -> unclaim_list u l = l.
Proof.
  intros H. unfold unclaim_list. destruct (py_in u l) eqn:E; [|reflexivity].
  apply py_in_In in E. contradiction.
Qed.

Lemma unclaim_claim_list u l : ~ In u l -> unclaim_list u (claim_list u l) = l.
Proof.
  intros H. unfold claim_list.
  assert (E : py_in u l = false).
  { destruct (py_in u l) eqn:E; [|reflexivity]. apply py_in_In in E.
    contradiction. }
  rewrite E. cbn [negb]. unfold unclaim_list.
  assert (E' : py_in u (l ++ [u]) = true).
  { apply py_in_In, in_or_app. right. now left. }
  rewrite E'. now apply py_remove_appended.
Qed.

Lemma unclaim_task_spec w task_id u t :
  sqlite_int task_id = true ->
  find_task task_id (db w) = Some t ->
  let new := unclaim_list u (claimers t) in
  let w' := snd (unclaim_task task_id u w) in
  unclaim_task task_id u w = (Ret (Some new), w')
  /\ find_task task_id (db w') = Some (set_claimed_by (Some new) t)
  /\ outbox w' = outbox w.
Proof.
  intros Hb Hf new w'. subst w'. rewrite (unclaim_task_run _ _ _ Hb), Hf.
  cbn [snd].
  split; [reflexivity|]. split; [|reflexivity].
  rewrite find_task_with_tasks by reflexivity. rewrite Hf. cbn [option_map].
  now rewrite (find_task_id _ _ _ Hf), Z.eqb_refl.
Qed.

(** X1.  On a task that exists, [unclaim_task] returns a list made of
    old claimers only that keeps every old claimer other than the user,
    and the row it leaves in the table has exactly that list in
    [claimed_by], every other column of the row and every other row being
    as they were; [list.remove] drops the first occurrence only, so the
    user is gone from the stored claimers when the old list repeats
    nobody, and the result then repeats nobody either; when the user was
    no claimer the list is the old one. *)
Theorem unclaim_task_removes_user (w : world) (task_id u : Z) (t : task)
    (Hget : get_task task_id w = (Ret (Some t), w)) :
  let old := json_loads_or_empty (claimed_by t) in
  let w' := snd (unclaim_task task_id u w) in
  exists new,
    unclaim_task task_id u w = (Ret (Some new), w')
    /\ (exists t',
          get_task task_id w' = (Ret (Some t'), w')
          /\ claimed_by t' = Some new
          /\ (NoDup old -> ~ In u (json_loads_or_empty (claimed_by t')))
          /\ same_but_claimed_by t t')
    /\ (forall other, other <> task_id ->
          fst (get_task other w') = fst (get_task other w))
    /\ get_task task_id w' = (Ret (Some (set_claimed_by (Some new) t)), w')
    /\ (forall x, In x new -> In x old)
    /\ (forall x, x <> u -> In x old -> In x new)
    /\ (NoDup old -> ~ In u new /\ NoDup new)
    /\ (~ In u old -> new = old).
Proof.
  apply get_task_find in Hget as [Hb Hf]. cbv zeta.
  destruct (unclaim_task_spec w task_id u t Hb Hf) as (E1 & Hf' & _).
  cbv zeta in *. exists (unclaim_list u (claimers t)).
  assert (Hstored : get_task task_id (snd (unclaim_task task_id u w))
                    = (Ret (Some (set_claimed_by
                                    (Some (unclaim_list u (claimers t))) t)),
                       snd (unclaim_task task_id u w)))
    by (now rewrite (get_task_run _ _ Hb), Hf').
  split; [exact E1|]. split; [|split; [|split; [exact Hstored|]]].
  - exists (set_claimed_by (Some (unclaim_list u (claimers t))) t).
    split; [exact Hstored|].
    cbn [claimed_by set_claimed_by json_loads_or_empty].
    split; [reflexivity|].
    split; [intros H; now apply unclaim_list_NoDup|].
    unfold same_but_claimed_by. cbn. tauto.
  - intros other Hne. rewrite (unclaim_task_run _ _ _ Hb), Hf. cbn [snd].
    now apply get_task_other.
  - split; [intros x; apply unclaim_list_In|].
    split; [intros x; apply unclaim_list_other|].
    split; [intros H; split; now apply unclaim_list_NoDup|].
    apply unclaim_list_absent.
Qed.

Lemma unclaim_task_removes_user_witness :
  get_task 1 (ex_world [ex_task 0 (Some [5; 7])])
    = (Ret (Some (ex_task 0 (Some [5; 7]))), ex_world [ex_task 0 (Some [5; 7])])
  /\ exists new,
       unclaim_task 1 5 (ex_world [ex_task 0 (Some [5; 7])])
       = (Ret (Some new), snd (unclaim_task 1 5 (ex_world [ex_task 0 (Some [5; 7])])))
       /\ (forall x, In x new -> In x [5; 7])
       /\ exists t',
            get_task 1 (snd (unclaim_task 1 5
                               (ex_world [ex_task 0 (Some [5; 7])])))
            = (Ret (Some t'),
               snd (unclaim_task 1 5 (ex_world [ex_task 0 (Some [5; 7])])))
            /\ claimed_by t' = Some new.
Proof.
  split; [reflexivity|].
  destruct (unclaim_task_removes_user (ex_world [ex_task 0 (Some [5; 7])]) 1 5
              (ex_task 0 (Some [5; 7])) eq_refl)
    as (new & H1 & (t' & Hs & Hc & _) & _ & _ & H3 & _).
  exists new. split; [exact H1|]. split; [exact H3|].
  exists t'. split; [exact Hs|exact Hc].
Defined.

(** X2.  For a user who does not claim the task, [claim_task] followed by
    [unclaim_task] gives back the claimers as they were and stores them,
    and neither call sends a message. *)
Theorem claim_then_unclaim_restores (w : world) (task_id u : Z) (t : task)
    (Hget : get_task task_id w = (Ret (Some t), w))
    (Habsent : ~ In u (json_loads_or_empty (claimed_by t))) :
  let w1 := snd (claim_task task_id u w) in
  let w2 := snd (unclaim_task task_id u w1) in
  fst (unclaim_task task_id u w1)
    = Ret (Some (json_loads_or_empty (claimed_by t)))
  /\ get_task task_id w2
     = (Ret (Some (set_claimed_by
                     (Some (json_loads_or_empty (claimed_by t))) t)), w2)
  /\ outbox w2 = outbox w.
Proof.
  apply get_task_find in Hget as [Hb Hf]. cbv zeta.
  destruct (claim_task_spec w task_id u t Hb Hf) as (_ & Hf1 & Ho1).
  cbv zeta in *.
  destruct (unclaim_task_spec _ task_id u _ Hb Hf1) as (E2 & Hf2 & Ho2).
  cbv zeta in *.
  assert (Ec : unclaim_list u
                 (claimers (set_claimed_by (Some (claim_list u (claimers t))) t))
               = claimers t)
    by (unfold claimers at 1; cbn; now apply unclaim_claim_list).
  rewrite Ec in *.
  split; [now rewrite E2|]. split; [|congruence].
  rewrite (get_task_run _ _ Hb), Hf2. reflexivity.
Qed.

Lemma claim_then_unclaim_restores_witness :
  get_task 1 (ex_world [ex_task 0 (Some [5])])
    = (Ret (Some (ex_task 0 (Some [5]))), ex_world [ex_task 0 (Some [5])])
  /\ ~ In 7 (json_loads_or_empty (claimed_by (ex_task 0 (Some [5]))))
  /\ fst (unclaim_task 1 7 (snd (claim_task 1 7 (ex_world [ex_task 0 (Some [5])]))))
     = Ret (Some [5]).
Proof.
  assert (H : ~ In 7 (json_loads_or_empty (claimed_by (ex_task 0 (Some [5])))))
    by (intros [E|[]]; discriminate E).
  split; [reflexivity|]. split; [exact H|].
  exact (proj1 (claim_then_unclaim_restores (ex_world [ex_task 0 (Some [5])]) 1 7
                  (ex_task 0 (Some [5])) eq_refl H)).
Defined.

Lemma find_task_none_rows task_id d :
  find_task task_id d = None ->
  forall r, In r (tasks d) -> (id r =? task_id) = false.
Proof.
  unfold find_task. induction (tasks d) as [|r rows IH]; [intros _ ? []|].
  cbn [filter]. destruct (id r =? task_id) eqn:E; [discriminate|].
  intros H r' [<-|Hr]; [exact E|now apply IH].
Qed.

Lemma update_rows_missing task_id f d :
  find_task task_id d = None -> update_rows task_id f (tasks d) = tasks d.
Proof.
  intros H. unfold update_rows. rewrite <- (map_id (tasks d)) at 2.
  apply map_ext_in. intros r Hr.
  now rewrite (find_task_none_rows task_id d H r Hr).
Qed.

Lemma with_tasks_same w : with_tasks (tasks (db w)) w = w.
Proof. destruct w as [[rows anns seq] out]. reflexivity. Qed.

Lemma deletetask_missing task_id w :
  sqlite_int task_id = true -> find_task task_id (db w) = None ->
  _deletetask true task_id w = (Ret (ReplyDeleteMissing task_id), w).
Proof.
  intros Hb Hf. unfold _deletetask. cbn [negb]. unfold bind.
  rewrite (select_tasks_bound _ _ _ Hb).
  fold (find_task task_id (db w)). now rewrite Hf.
Qed.

Lemma deletetask_overflow task_id w :
  sqlite_int task_id = false ->
  _deletetask true task_id w = (Raise OverflowError, w).
Proof.
  intros Hb. unfold _deletetask. cbn [negb]. unfold bind.
  now rewrite (select_tasks_overflow _ _ _ Hb).
Qed.

(** X3.  On an id that no row has (the lookup returns [None], so the id
    is one SQLite binds), [claim_task] and [unclaim_task] return [None]
    and [complete_task] updates nothing, each leaving the world as it
    was; the [complete] command answers that the task is not found and
    writes nothing; the Complete button raises [AttributeError] before it
    writes or sends anything; and [deletetask] by a user who may manage
    messages answers that the task is not found. *)
Theorem missing_task_changes_nothing (w : world) (task_id u : Z)
    (ctx : context) (wk0 : string) (i : interaction)
    (Hget : get_task task_id w = (Ret None, w)) :
  sqlite_int task_id = true
  /\ claim_task task_id u w = (Ret None, w)
  /\ unclaim_task task_id u w = (Ret None, w)
  /\ complete_task task_id w = (Ret tt, w)
  /\ run_coro (_complete ctx task_id) w
     = (Ret tt, mkworld (db w) (outbox w ++ [CtxSend TxtTaskNotFound]))
  /\ run_coro (make_complete_callback wk0 task_id i) w
     = (Raise AttributeError, w)
  /\ _deletetask true task_id w = (Ret (ReplyDeleteMissing task_id), w).
Proof.
  apply get_task_find in Hget as [Hb Hf].
  split; [exact Hb|].
  split; [now rewrite (claim_task_run _ _ _ Hb), Hf|].
  split; [now rewrite (unclaim_task_run _ _ _ Hb), Hf|].
  split.
  { rewrite (complete_task_run _ _ Hb), (update_rows_missing _ _ _ Hf).
    now rewrite with_tasks_same. }
  split; [now rewrite (complete_command_run _ _ _ Hb), Hf|].
  split; [now rewrite (complete_button_run _ _ _ _ Hb), Hf|].
  now apply deletetask_missing.
Qed.

Lemma missing_task_changes_nothing_witness :
  get_task 2 (ex_world [ex_task 0 (Some [5])])
    = (Ret None, ex_world [ex_task 0 (Some [5])])
  /\ claim_task 2 7 (ex_world [ex_task 0 (Some [5])])
     = (Ret None, ex_world [ex_task 0 (Some [5])]).
Proof.
  split; [reflexivity|].
  exact (proj1 (proj2 (missing_task_changes_nothing
                         (ex_world [ex_task 0 (Some [5])])
                         2 7 (mkcontext 7 false) "2024-12-30"
                         (mkinteraction 7 false 100) eq_refl))).
Defined.



(** ** Adding and deleting tasks *)

(** ** [add_task] and [_deletetask] *)

(** the row [add_task] appends *)
Lemma add_task_run ttl s descr creator utcnow w due monday :
  parse_date s = Ret due -> week_start_of due = Some monday ->
  add_task ttl s descr creator utcnow w
  = (Ret (tasks_seq (db w) + 1),
     mkworld
       (mkdatabase
          (tasks (db w)
           ++ [mktask (tasks_seq (db w) + 1) ttl descr (isoformat due) creator
                      utcnow 0 (Some []) (isoformat monday)])
          (announcements (db w)) (tasks_seq (db w) + 1))
       (outbox w)).
Proof. intros Hp Hm. unfold add_task. rewrite Hp, Hm. reflexivity. Qed.

Lemma add_task_fails ttl s descr creator utcnow w e :
  parse_date s = Raise e ->
  add_task ttl s descr creator utcnow w = (Raise e, w).
Proof. intros Hp. unfold add_task. now rewrite Hp. Qed.

Lemma parse_date_valid s d : parse_date s = Ret d -> valid_dateb d = true.
Proof. intros H. now apply parse_date_iff in H. Qed.

Lemma parse_date_week s d : parse_date s = Ret d ->
  exists monday, week_start_of d = Some monday.
Proof.
  intros H. apply parse_date_valid in H.
  destruct (week_start_of_some d H) as [E _]. eauto.
Qed.

Lemma find_task_app_new task_id rows r :
  hd_error (filter (fun x => id x =? task_id) (rows ++ [r])) =
  if id r =? task_id then
    match hd_error (filter (fun x => id x =? task_id) rows) with
    | Some x => Some x
    | None => Some r
    end
  else hd_error (filter (fun x => id x =? task_id) rows).
Proof.
  induction rows as [|x rows IH]; cbn [app filter].
  - destruct (id r =? task_id); reflexivity.
  - destruct (id x =? task_id); [|exact IH].
    cbn [hd_error]. now destruct (id r =? task_id).
Qed.

Lemma key_ok_fresh d task_id :
  key_ok d -> tasks_seq d < task_id -> find_task task_id d = None.
Proof.
  intros [_ Hle] Hlt. unfold find_task.
  induction (tasks d) as [|r rows IH]; [reflexivity|].
  inversion Hle as [|? ? Hr Hrows]; subst. cbn [filter].
  destruct (Z.eqb_spec (id r) task_id) as [E|_]; [lia|]. now apply IH.
Qed.

(** X4.  When the due date parses and the ids of the table are distinct
    and not above the AUTOINCREMENT counter, [add_task] returns the next
    id, which no row had; the row in the table is as written: the given
    title, description, author and creation time, the due date in ISO
    form, the Monday of its week in ISO form, [completed = 0] and no
    claimers, and [get_task] reads it back (the id being one SQLite
    binds, as every id below [2^63] is); the other rows read back as
    before, the new row is last in the table, the ids stay distinct and
    below the counter, and nothing is sent. *)
Theorem add_task_stores_row (ttl s descr utcnow : string) (creator : Z)
    (w : world) (due : date)
    (Hparse : parse_date s = Ret due)
    (Hkey : key_ok (db w)) :
  exists monday,
    week_start_of due = Some monday
    /\ let tid := tasks_seq (db w) + 1 in
       let row := mktask tid ttl descr (isoformat due) creator utcnow 0
                         (Some []) (isoformat monday) in
       let w' := snd (add_task ttl s descr creator utcnow w) in
       add_task ttl s descr creator utcnow w = (Ret tid, w')
       /\ find_task tid (db w) = None
       /\ find_task tid (db w') = Some row
       /\ (sqlite_int tid = true ->
           get_task tid w = (Ret None, w)
           /\ get_task tid w' = (Ret (Some row), w'))
       /\ (forall other, other <> tid ->
             fst (get_task other w') = fst (get_task other w))
       /\ tasks (db w') = (tasks (db w) ++ [row])%list
       /\ key_ok (db w')
       /\ outbox w' = outbox w.
Proof.
  destruct (parse_date_week s due Hparse) as [monday Hm].
  exists monday. split; [exact Hm|]. cbv zeta.
  rewrite (add_task_run ttl s descr creator utcnow w due monday Hparse Hm).
  cbn [snd]. split; [reflexivity|].
  assert (Hnone : find_task (tasks_seq (db w) + 1) (db w) = None)
    by (apply key_ok_fresh; [exact Hkey|lia]).
  split; [exact Hnone|].
  assert (Hsome : find_task (tasks_seq (db w) + 1)
                    (mkdatabase
                       (tasks (db w) ++
                        [mktask (tasks_seq (db w) + 1) ttl descr (isoformat due)
                                creator utcnow 0 (Some []) (isoformat monday)])
                       (announcements (db w)) (tasks_seq (db w) + 1))
                  = Some (mktask (tasks_seq (db w) + 1) ttl descr
                                 (isoformat due) creator utcnow 0 (Some [])
                                 (isoformat monday))).
  { unfold find_task. cbn [db tasks].
    rewrite find_task_app_new.
    cbn [id]. rewrite Z.eqb_refl. unfold find_task in Hnone. now rewrite Hnone. }
  split; [exact Hsome|].
  split.
  { intros Hb. rewrite !(get_task_run _ _ Hb). cbn [db].
    now rewrite Hnone, Hsome. }
  split.
  { intros other Hne. destruct (sqlite_int other) eqn:Hb;
      [|now rewrite !(get_task_overflow _ _ Hb)].
    rewrite !(get_task_run _ _ Hb). cbn [fst]. f_equal.
    unfold find_task. cbn [db tasks].
    rewrite find_task_app_new.
    cbn [id]. destruct (Z.eqb_spec (tasks_seq (db w) + 1) other); [congruence|].
    reflexivity. }
  split; [reflexivity|]. split; [|reflexivity].
  destruct Hkey as [Hnd Hle]. split; cbn [db tasks tasks_seq].
  - rewrite map_app. cbn [map id]. apply NoDup_app; [exact Hnd| |].
    + repeat constructor. intros [].
    + intros x Hx [<-|[]]. apply in_map_iff in Hx as (r & Er & Hr).
      rewrite Forall_forall in Hle. specialize (Hle r Hr). lia.
  - apply Forall_app. split.
    + eapply Forall_impl; [|exact Hle]. cbn. intros; lia.
    + constructor; [cbn; lia|constructor].
Qed.

Lemma add_task_stores_row_witness :
  parse_date "05/01/2025" = Ret (mkdate 2025 1 5)
  /\ key_ok (db empty_world)
  /\ exists monday,
       week_start_of (mkdate 2025 1 5) = Some monday
       /\ add_task "report" "05/01/2025" "" 10 "2024-12-30T08:00:00" empty_world
          = (Ret 1, snd (add_task "report" "05/01/2025" ""  10
                           "2024-12-30T08:00:00" empty_world)).
Proof.
  assert (Hk : key_ok (db empty_world)) by (split; constructor).
  split; [reflexivity|]. split; [exact Hk|].
  destruct (add_task_stores_row "report" "05/01/2025" "" "2024-12-30T08:00:00" 10
              empty_world (mkdate 2025 1 5) eq_refl Hk)
    as (monday & Hm & H).
  exists monday. split; [exact Hm|]. exact (proj1 H).
Defined.

(** X5.  On a text of ASCII characters that is the text of no date in any
    of the three layouts, [add_task] raises the [ValueError] of
    [parse_date] and writes nothing, and [_addtask], in a channel it
    accepts, answers with that error text and writes nothing. *)
Theorem add_task_rejects_bad_date (PROJECT_CHANNEL_ID channel_id creator : Z)
    (ttl s descr utcnow : string) (w : world)
    (Hascii : is_ascii s = true)
    (Hnone : forall d, valid_dateb d = true -> ~ In s (accepted_texts d)) :
  add_task ttl s descr creator utcnow w
  = (Raise (ValueError "Date format should be YYYY-MM-DD or DD/MM/YYYY"), w)
  /\ (wrong_channel PROJECT_CHANNEL_ID channel_id = false ->
      _addtask PROJECT_CHANNEL_ID channel_id creator ttl s descr utcnow w
      = (Ret (ReplyDateError "Date format should be YYYY-MM-DD or DD/MM/YYYY"),
         w)).
Proof.
  assert (Hp : parse_date s
               = Raise (ValueError "Date format should be YYYY-MM-DD or DD/MM/YYYY")).
  { destruct (parse_date s) as [d|e] eqn:E.
    - apply parse_date_iff in E as [Hv Hin]. now destruct (Hnone d Hv).
    - rewrite parse_date_unfold in E.
      destruct (strptime_date s "%Y-%m-%d"); [discriminate|].
      destruct (strptime_date s "%d/%m/%Y"); [discriminate|].
      destruct (strptime_date s "%d-%m-%Y"); [discriminate|]. now symmetry. }
  split; [now apply add_task_fails|].
  intros Hch. unfold _addtask. rewrite Hch.
  unfold except_ValueError, bind.
  now rewrite (add_task_fails _ _ _ _ _ _ _ Hp).
Qed.

Lemma add_task_rejects_bad_date_witness :
  is_ascii "2025-02-30" = true
  /\ (forall d, valid_dateb d = true ->
                ~ In "2025-02-30"%string (accepted_texts d))
  /\ _addtask 0 7 1 "report" "2025-02-30" "" "2025-01-01T09:00:00" empty_world
     = (Ret (ReplyDateError "Date format should be YYYY-MM-DD or DD/MM/YYYY"),
        empty_world).
Proof.
  assert (H : forall d, valid_dateb d = true ->
                        ~ In "2025-02-30"%string (accepted_texts d)).
  { intros d Hv Hin.
    assert (E : parse_date "2025-02-30" = Ret d)
      by (apply parse_date_iff; now split).
    vm_compute in E. discriminate E. }
  split; [reflexivity|]. split; [exact H|].
  exact (proj2 (add_task_rejects_bad_date 0 7 1 "report" "2025-02-30" ""
                  "2025-01-01T09:00:00" empty_world eq_refl H) eq_refl).
Defined.

(** X6.  With [PROJECT_CHANNEL_ID] set, [_addtask] and [_announce_week]
    called in any other channel answer with the wrong-channel notice
    whatever their arguments, and leave the store as it was. *)
Theorem addtask_outside_channel_adds_nothing
    (PROJECT_CHANNEL_ID channel_id creator : Z)
    (ttl s descr utcnow : string) (w : world)
    (Hset : PROJECT_CHANNEL_ID <> 0)
    (Hother : channel_id <> PROJECT_CHANNEL_ID) :
  _addtask PROJECT_CHANNEL_ID channel_id creator ttl s descr utcnow w
  = (Ret ReplyWrongChannel, w)
  /\ forall week today sent_id,
       _announce_week PROJECT_CHANNEL_ID channel_id week today sent_id w
       = (Ret ReplyWrongChannel, w).
Proof.
  assert (E : wrong_channel PROJECT_CHANNEL_ID channel_id = true).
  { unfold wrong_channel.
    destruct (Z.eqb_spec PROJECT_CHANNEL_ID 0); [contradiction|].
    destruct (Z.eqb_spec channel_id PROJECT_CHANNEL_ID); [contradiction|].
    reflexivity. }
  split; [unfold _addtask; now rewrite E|].
  intros. unfold _announce_week. now rewrite E.
Qed.

Lemma addtask_outside_channel_adds_nothing_witness :
  42 <> 0 /\ 7 <> 42
  /\ _addtask 42 7 1 "report" "2025-01-03" "" "2025-01-01T09:00:00" empty_world
     = (Ret ReplyWrongChannel, empty_world).
Proof.
  split; [discriminate|]. split; [discriminate|].
  exact (proj1 (addtask_outside_channel_adds_nothing 42 7 1 "report"
                  "2025-01-03" "" "2025-01-01T09:00:00" empty_world
                  ltac:(discriminate) ltac:(discriminate))).
Defined.

Lemma delete_run task_id w t :
  sqlite_int task_id = true ->
  find_task task_id (db w) = Some t ->
  _deletetask true task_id w
  = (Ret (ReplyDeleted task_id),
     with_tasks (filter (fun r => negb (id r =? task_id)) (tasks (db w))) w).
Proof.
  intros Hb Hf. unfold _deletetask. cbn [negb]. unfold bind.
  rewrite (select_tasks_bound _ _ _ Hb).
  fold (find_task task_id (db w)). rewrite Hf.
  cbn [hd_error]. unfold delete_tasks, bind. cbn.
  now rewrite (bind_params_run task_id w Hb).
Qed.

Lemma find_after_delete task_id other rows :
  hd_error (filter (fun r => id r =? other)
                   (filter (fun r => negb (id r =? task_id)) rows)) =
  if other =? task_id then None
  else hd_error (filter (fun r => id r =? other) rows).
Proof.
  induction rows as [|r rows IH]; cbn [filter].
  - now destruct (other =? task_id).
  - destruct (Z.eqb_spec (id r) task_id) as [E|Hne]; cbn [negb filter].
    + rewrite IH. destruct (Z.eqb_spec other task_id) as [->|Ho]; [reflexivity|].
      destruct (Z.eqb_spec (id r) other); [congruence|reflexivity].
    + destruct (Z.eqb_spec (id r) other) as [Eo|Ho].
      * destruct (Z.eqb_spec other task_id); [congruence|reflexivity].
      * exact IH.
Qed.

(** X7.  [_deletetask] refuses a user who may not manage messages and
    leaves the world as it was.  For a user who may: on an id that no row
    has it answers that the task is not found and changes nothing; on the
    id of a row it answers that the task is deleted, the table is the old
    one without the rows of that id, the id then has no row, every other
    id reads back as before and the announcements are as they were; and
    on an id the lookup raises on, one outside 64 bits, it raises that
    [OverflowError] and changes nothing. *)
Theorem deletetask_behaviour (w : world) (task_id : Z) :
  _deletetask false task_id w = (Ret ReplyDeleteDenied, w)
  /\ match fst (get_task task_id w) with
     | Ret None =>
         _deletetask true task_id w = (Ret (ReplyDeleteMissing task_id), w)
     | Ret (Some _) =>
         let w' := snd (_deletetask true task_id w) in
         _deletetask true task_id w = (Ret (ReplyDeleted task_id), w')
         /\ tasks (db w')
            = filter (fun r => negb (id r =? task_id)) (tasks (db w))
         /\ get_task task_id w' = (Ret None, w')
         /\ (forall other, other <> task_id ->
               fst (get_task other w') = fst (get_task other w))
         /\ announcements (db w') = announcements (db w)
     | Raise e =>
         e = OverflowError /\ sqlite_int task_id = false
         /\ _deletetask true task_id w = (Raise OverflowError, w)
     end.
Proof.
  split; [reflexivity|]. destruct (sqlite_int task_id) eqn:Hb.
  - rewrite (get_task_run _ _ Hb). cbn [fst].
    destruct (find_task task_id (db w)) as [t|] eqn:Hf;
      [|now apply deletetask_missing].
    rewrite (delete_run task_id w t Hb Hf). cbn [snd].
    split; [reflexivity|]. split; [reflexivity|].
    split; [|split; [|reflexivity]].
    + rewrite (get_task_run _ _ Hb). unfold find_task.
      cbn [with_tasks db set_tasks tasks].
      now rewrite find_after_delete, Z.eqb_refl.
    + intros other Hne. destruct (sqlite_int other) eqn:Ho;
        [|now rewrite !(get_task_overflow _ _ Ho)].
      rewrite !(get_task_run _ _ Ho). cbn [fst]. f_equal.
      unfold find_task. cbn [with_tasks db set_tasks tasks].
      rewrite find_after_delete.
      destruct (Z.eqb_spec other task_id); [contradiction|reflexivity].
  - rewrite (get_task_overflow _ _ Hb). cbn [fst].
    split; [reflexivity|]. split; [reflexivity|].
    now apply deletetask_overflow.
Qed.

(** ** The invariants of the store *)

Lemma find_task_In task_id d t : find_task task_id d = Some t -> In t (tasks d).
Proof.
  unfold find_task. induction (tasks d) as [|r rows IH]; [discriminate|].
  cbn [filter]. destruct (id r =? task_id); [|intros H; right; auto].
  intros [= <-]. now left.
Qed.

Lemma gentle_id rows : gentle rows (fun r => r).
Proof. intros r. auto. Qed.

Lemma gentle_update rows tid f : gentle rows f ->
  gentle rows (fun r => if id r =? tid then f r else r).
Proof. intros H r. destruct (id r =? tid); [apply H|auto]. Qed.

Lemma gentle_completed rows : gentle rows (set_completed 1).
Proof. intros r. cbn. auto. Qed.

Lemma gentle_claim d tid u t : find_task tid d = Some t ->
  gentle (tasks d) (set_claimed_by (Some (claim_list u (claimers t)))).
Proof.
  intros Hf r. repeat split. intros Hall _.
  unfold claimers_set, claimers. cbn. apply claim_list_NoDup.
  rewrite Forall_forall in Hall. exact (Hall t (find_task_In _ _ _ Hf)).
Qed.

Lemma gentle_unclaim d tid u t : find_task tid d = Some t ->
  gentle (tasks d) (set_claimed_by (Some (unclaim_list u (claimers t)))).
Proof.
  intros Hf r. repeat split. intros Hall _.
  unfold claimers_set, claimers. cbn. apply unclaim_list_NoDup.
  rewrite Forall_forall in Hall. exact (Hall t (find_task_In _ _ _ Hf)).
Qed.

Lemma perform_gentle a w :
  exists f, gentle (tasks (db w)) f
            /\ tasks (db (perform a w)) = map f (tasks (db w))
            /\ tasks_seq (db (perform a w)) = tasks_seq (db w).
Proof.
  assert (Hsame : forall w', tasks (db w') = tasks (db w) ->
            tasks_seq (db w') = tasks_seq (db w) ->
            exists f, gentle (tasks (db w)) f
                      /\ tasks (db w') = map f (tasks (db w))
                      /\ tasks_seq (db w') = tasks_seq (db w)).
  { intros w' E Es. exists (fun r => r). split; [apply gentle_id|].
    split; [now rewrite map_id|exact Es]. }
  assert (Hupd : forall tid g out, gentle (tasks (db w)) g ->
            exists f, gentle (tasks (db w)) f /\
              tasks (db (mkworld (set_tasks (update_rows tid g (tasks (db w)))
                                            (db w)) out))
              = map f (tasks (db w))
              /\ tasks_seq (db (mkworld (set_tasks (update_rows tid g
                                   (tasks (db w))) (db w)) out))
                 = tasks_seq (db w)).
  { intros tid g out Hg. eexists. split; [apply (gentle_update _ tid g Hg)|].
    split; reflexivity. }
  assert (Hclaim : forall tid u out,
            exists f, gentle (tasks (db w)) f /\
              tasks (db (mkworld (db (snd (claim_task tid u w))) out))
              = map f (tasks (db w))
              /\ tasks_seq (db (mkworld (db (snd (claim_task tid u w))) out))
                 = tasks_seq (db w)).
  { intros tid u out. destruct (sqlite_int tid) eqn:Hb;
      [|rewrite (claim_task_overflow _ _ _ Hb); now apply Hsame].
    rewrite (claim_task_run _ _ _ Hb).
    destruct (find_task tid (db w)) as [t|] eqn:Hf; cbn [snd];
      [|now apply Hsame].
    apply (Hupd tid _ out). now apply (gentle_claim _ tid). }
  destruct a as [tid u|tid u|tid|ctx tid|wk tid i|wk tid i|wk tid i];
    cbn [perform]; destruct (sqlite_int tid) eqn:Hb.
  - destruct (Hclaim tid u (outbox (snd (claim_task tid u w)))) as (f & H).
    exists f. now destruct (snd (claim_task tid u w)).
  - rewrite (claim_task_overflow _ _ _ Hb). now apply Hsame.
  - rewrite (unclaim_task_run _ _ _ Hb).
    destruct (find_task tid (db w)) as [t|] eqn:Hf; cbn [snd];
      [|now apply Hsame].
    apply (Hupd tid _ (outbox w)). now apply (gentle_unclaim _ tid).
  - rewrite (unclaim_task_overflow _ _ _ Hb). now apply Hsame.
  - rewrite (complete_task_run _ _ Hb). cbn [snd].
    apply (Hupd tid _ (outbox w)), gentle_completed.
  - rewrite (complete_task_overflow _ _ Hb). now apply Hsame.
  - rewrite (complete_command_run _ _ _ Hb).
    destruct (find_task tid (db w)) as [t|]; cbn [snd]; [|now apply Hsame].
    destruct (_ || _); cbn [snd]; [|now apply Hsame].
    apply (Hupd tid _ _), gentle_completed.
  - rewrite (complete_command_overflow _ _ _ Hb). now apply Hsame.
  - rewrite (claim_button_run _ _ _ _ Hb). cbn [snd].
    destruct (Hclaim tid (user i) (outbox (snd (claim_task tid (user i) w))))
      as (f & H).
    exists f. now destruct (snd (claim_task tid (user i) w)).
  - rewrite (claim_button_overflow _ _ _ _ Hb). now apply Hsame.
  - rewrite (refresh_claim_button_run _ _ _ _ Hb). cbn [snd]. apply Hclaim.
  - rewrite (refresh_claim_button_overflow _ _ _ _ Hb). now apply Hsame.
  - rewrite (complete_button_run _ _ _ _ Hb).
    destruct (find_task tid (db w)) as [t|]; cbn [snd]; [|now apply Hsame].
    destruct (_ || _); cbn [snd]; [|now apply Hsame].
    apply (Hupd tid _ _), gentle_completed.
  - rewrite (complete_button_overflow _ _ _ _ Hb). now apply Hsame.
Qed.

Lemma store_ok_map d d' f :
  gentle (tasks d) f -> tasks d' = map f (tasks d) ->
  tasks_seq d' = tasks_seq d -> store_ok d -> store_ok d'.
Proof.
  intros Hg Et Es ((Hnd & Hle) & Hdated & Hset).
  assert (Eid : map id (map f (tasks d)) = map id (tasks d)).
  { rewrite map_map. apply map_ext. intros r. apply Hg. }
  repeat split.
  - now rewrite Et, Eid.
  - rewrite Et, Es. apply Forall_map. eapply Forall_impl; [|exact Hle].
    cbn. intros r Hr. destruct (Hg r) as (-> & _). exact Hr.
  - rewrite Et. apply Forall_map. eapply Forall_impl; [|exact Hdated].
    intros r (due & monday & Hv & Hm & Hd & Hw).
    destruct (Hg r) as (_ & Ed & Ew & _).
    exists due, monday. rewrite Ed, Ew. auto.
  - rewrite Et. apply Forall_map. rewrite Forall_forall in *.
    intros r Hr. destruct (Hg r) as (_ & _ & _ & Hc).
    apply Hc; [now apply Forall_forall|auto].
Qed.

Lemma store_ok_filter d p :
  store_ok d -> store_ok (set_tasks (filter p (tasks d)) d).
Proof.
  intros ((Hnd & Hle) & Hdated & Hset).
  assert (Hsub : forall (P : task -> Prop),
            Forall P (tasks d) -> Forall P (filter p (tasks d))).
  { intros P H. rewrite Forall_forall in *. intros r Hr.
    apply filter_In in Hr as [Hr _]. auto. }
  repeat split; cbn [set_tasks tasks tasks_seq]; auto.
  now apply NoDup_filter_ids.
Qed.

Lemma store_ok_add d ttl descr creator utcnow due monday :
  store_ok d -> valid_dateb due = true -> week_start_of due = Some monday ->
  store_ok (mkdatabase
              (tasks d ++ [mktask (tasks_seq d + 1) ttl descr (isoformat due)
                                  creator utcnow 0 (Some []) (isoformat monday)])
              (announcements d) (tasks_seq d + 1)).
Proof.
  intros ((Hnd & Hle) & Hdated & Hset) Hv Hm.
  repeat split; cbn [tasks tasks_seq].
  - rewrite map_app. cbn [map id]. apply NoDup_app; [exact Hnd| |].
    + repeat constructor. intros [].
    + intros x Hx [<-|[]]. apply in_map_iff in Hx as (r & Er & Hr).
      rewrite Forall_forall in Hle. specialize (Hle r Hr). lia.
  - apply Forall_app. split.
    + eapply Forall_impl; [|exact Hle]. cbn. intros; lia.
    + constructor; [cbn; lia|constructor].
  - apply Forall_app. split; [exact Hdated|].
    constructor; [|constructor]. exists due, monday. cbn. auto.
  - apply Forall_app. split; [exact Hset|].
    constructor; [|constructor]. unfold claimers_set, claimers. cbn. constructor.
Qed.

Lemma execute_store_ok c w : store_ok (db w) -> store_ok (db (execute c w)).
Proof.
  intros Hok. destruct c as [ttl s descr creator utcnow|a|can tid];
    cbn [execute].
  - destruct (parse_date s) as [due|e] eqn:Hp.
    + destruct (parse_date_week s due Hp) as [monday Hm].
      rewrite (add_task_run _ _ _ _ _ _ due monday Hp Hm). cbn [snd db].
      apply store_ok_add; [exact Hok|now apply (parse_date_valid s)|exact Hm].
    + now rewrite (add_task_fails _ _ _ _ _ _ e Hp).
  - destruct (perform_gentle a w) as (f & Hg & Et & Es).
    exact (store_ok_map _ _ f Hg Et Es Hok).
  - destruct can; [|exact Hok].
    destruct (sqlite_int tid) eqn:Hb;
      [|now rewrite (deletetask_overflow _ _ Hb)].
    destruct (find_task tid (db w)) as [t|] eqn:Hf.
    + rewrite (delete_run tid w t Hb Hf). cbn [snd with_tasks db].
      now apply store_ok_filter.
    + now rewrite (deletetask_missing _ _ Hb Hf).
Qed.

Lemma store_ok_empty : store_ok (db empty_world).
Proof. repeat split; constructor. Qed.

Lemma run_store_ok cmds : forall w, store_ok (db w) ->
  store_ok (db (fold_left (fun w c => execute c w) cmds w)).
Proof.
  induction cmds as [|c cmds IH]; intros w Hok; cbn [fold_left]; [exact Hok|].
  apply IH. now apply execute_store_ok.
Qed.

(** X8.  Whatever commands ran since the empty database, in whatever order
    and whether they failed or not ([add_task], the claim, unclaim and
    complete operations and buttons, [_deletetask]): the ids of the rows
    are distinct and none is above the AUTOINCREMENT counter, every row
    has as [due_date] the ISO text of a date and as [week_start] the ISO
    text of the Monday of that date's week, and no row lists a claimer
    twice. *)
Theorem store_stays_well_formed (cmds : list command) :
  let d := db (fold_left (fun w c => execute c w) cmds empty_world) in
  NoDup (map id (tasks d))
  /\ Forall (fun r => id r <= tasks_seq d) (tasks d)
  /\ Forall (fun r => exists due monday,
                 valid_dateb due = true /\ week_start_of due = Some monday
                 /\ weekday monday = 0
                 /\ due_date r = isoformat due
                 /\ week_start r = isoformat monday) (tasks d)
  /\ Forall (fun r => NoDup (json_loads_or_empty (claimed_by r))) (tasks d).
Proof.
  cbv zeta.
  destruct (run_store_ok cmds empty_world store_ok_empty)
    as ((Hnd & Hle) & Hdated & Hset).
  split; [exact Hnd|]. split; [exact Hle|]. split; [|exact Hset].
  eapply Forall_impl; [|exact Hdated].
  intros r (due & monday & Hv & Hm & Hd & Hw).
  exists due, monday. repeat split; auto.
  destruct (week_start_of_some due Hv) as [E Hr]. rewrite E in Hm.
  injection Hm as <-. destruct (fromordinal_valid _ Hr) as [_ Ho].
  unfold weekday at 1. rewrite Ho. unfold weekday. apply monday_arith.
Qed.

(** ** Due dates as texts and the weekly listing *)

(** ** ISO texts sort like dates *)

Lemma digit_char_compare a b : 0 <= a <= 9 -> 0 <= b <= 9 ->
  Ascii.compare (digit_char a) (digit_char b) = (a ?= b).
Proof.
  intros Ha Hb. unfold Ascii.compare, digit_char.
  rewrite !N_ascii_embedding by lia.
  rewrite Z2N.inj_compare by lia. apply Z.add_compare_mono_l.
Qed.

Lemma date_compare_lt a b :
  year a < year b
  \/ (year a = year b
      /\ (month a < month b \/ (month a = month b /\ day a < day b))) ->
  date_compare a b = Lt.
Proof.
  unfold date_compare. intros [H|[Ey [H|[Em H]]]].
  - now rewrite (proj2 (Z.compare_lt_iff _ _) H).
  - rewrite Ey, Z.compare_refl. now rewrite (proj2 (Z.compare_lt_iff _ _) H).
  - rewrite Ey, Em, !Z.compare_refl. now apply Z.compare_lt_iff.
Qed.

Lemma date_compare_gt a b :
  year b < year a
  \/ (year a = year b
      /\ (month b < month a \/ (month a = month b /\ day b < day a))) ->
  date_compare a b = Gt.
Proof.
  unfold date_compare. intros [H|[Ey [H|[Em H]]]].
  - now rewrite (proj2 (Z.compare_gt_iff _ _) H).
  - rewrite Ey, Z.compare_refl. now rewrite (proj2 (Z.compare_gt_iff _ _) H).
  - rewrite Ey, Em, !Z.compare_refl. now apply Z.compare_gt_iff.
Qed.

Lemma date_compare_eq a b :
  year a = year b -> month a = month b -> day a = day b ->
  date_compare a b = Eq.
Proof. unfold date_compare. intros -> -> ->. now rewrite !Z.compare_refl. Qed.

(** One digit of two ISO texts: equal digits pass to the next one, a
    smaller or larger digit decides. *)
Ltac digit_step :=
  match goal with
  | |- context [?x ?= ?y] =>
      lazymatch goal with
      | |- match x ?= y with _ => _ end = _ =>
          destruct (Z.compare_spec x y);
          [| symmetry; apply date_compare_lt; cbn [year month day];
             Z.div_mod_to_equations; lia
           | symmetry; apply date_compare_gt; cbn [year month day];
             Z.div_mod_to_equations; lia ]
      end
  end.

Lemma isoformat_compare a b :
  valid_dateb a = true -> valid_dateb b = true ->
  String.compare (isoformat a) (isoformat b) = date_compare a b.
Proof.
  intros Ha Hb.
  apply valid_date_spec in Ha as (Hya & Hma & Hda).
  apply valid_date_spec in Hb as (Hyb & Hmb & Hdb).
  pose proof (days_in_month_le (year a) (month a)).
  pose proof (days_in_month_le (year b) (month b)).
  destruct a as [ya ma da], b as [yb mb db]. cbn [year month day] in *.
  unfold isoformat, fmt_04d, fmt_02d. cbn [year month day String.append].
  cbn [String.compare].
  assert (Hdash : Ascii.compare "-" "-" = Eq) by reflexivity.
  rewrite Hdash.
  rewrite !digit_char_compare by (Z.div_mod_to_equations; lia).
  clear Hdash.
  do 7 digit_step.
  destruct (Z.compare_spec (da mod 10) (db mod 10)).
  - symmetry. apply date_compare_eq; cbn [year month day];
      Z.div_mod_to_equations; lia.
  - symmetry; apply date_compare_lt; cbn [year month day];
      Z.div_mod_to_equations; lia.
  - symmetry; apply date_compare_gt; cbn [year month day];
      Z.div_mod_to_equations; lia.
Qed.

Lemma date_compare_eq_inv a b : date_compare a b = Eq -> a = b.
Proof.
  destruct a as [ya ma da], b as [yb mb db]. unfold date_compare.
  cbn [year month day].
  destruct (Z.compare_spec ya yb); try discriminate.
  destruct (Z.compare_spec ma mb); try discriminate.
  destruct (Z.compare_spec da db); try discriminate.
  intros _. congruence.
Qed.

Lemma string_compare_refl s : String.compare s s = Eq.
Proof.
  induction s as [|c s IH]; cbn; [reflexivity|].
  unfold Ascii.compare. now rewrite N.compare_refl.
Qed.

Lemma isoformat_inj a b :
  valid_dateb a = true -> valid_dateb b = true ->
  isoformat a = isoformat b -> a = b.
Proof.
  intros Ha Hb E. apply date_compare_eq_inv.
  rewrite <- (isoformat_compare a b Ha Hb), E. apply string_compare_refl.
Qed.

Lemma isoformat_leb a b :
  valid_dateb a = true -> valid_dateb b = true ->
  String.leb (isoformat a) (isoformat b) = true <-> date_compare a b <> Gt.
Proof.
  intros Ha Hb. unfold String.leb. rewrite (isoformat_compare a b Ha Hb).
  destruct (date_compare a b); split; congruence.
Qed.

(** X9.  The ISO texts of two dates compare as texts the way the dates
    compare, so that [ORDER BY due_date] on the stored texts is the
    chronological order; and two dates with the same ISO text are
    equal. *)
Theorem iso_texts_sort_like_dates (a b : date)
    (Ha : valid_dateb a = true) (Hb : valid_dateb b = true) :
  String.compare (isoformat a) (isoformat b) = date_compare a b
  /\ (String.leb (isoformat a) (isoformat b) = true <-> date_compare a b <> Gt)
  /\ (isoformat a = isoformat b -> a = b).
Proof.
  split; [now apply isoformat_compare|].
  split; [now apply isoformat_leb|now apply isoformat_inj].
Qed.

Lemma iso_texts_sort_like_dates_witness :
  valid_dateb (mkdate 2024 12 31) = true /\ valid_dateb (mkdate 2025 1 2) = true
  /\ String.compare (isoformat (mkdate 2024 12 31)) (isoformat (mkdate 2025 1 2))
     = date_compare (mkdate 2024 12 31) (mkdate 2025 1 2).
Proof.
  split; [reflexivity|]. split; [reflexivity|].
  exact (proj1 (iso_texts_sort_like_dates (mkdate 2024 12 31) (mkdate 2025 1 2)
                  eq_refl eq_refl)).
Defined.

Lemma StronglySorted_weaken {A} (R S : A -> A -> Prop) l :
  (forall x y, In x l -> In y l -> R x y -> S x y) ->
  StronglySorted R l -> StronglySorted S l.
Proof.
  intros H Hs. induction Hs as [|x l Hs IH Hall]; [constructor|].
  constructor.
  - apply IH. intros a b Ha Hb. apply H; now right.
  - rewrite Forall_forall in *. intros y Hy.
    apply H; [now left|now right|auto].
Qed.

Lemma ex_task_dated done who : dated_row (ex_task done who).
Proof.
  exists (mkdate 2025 1 2), (mkdate 2024 12 30). repeat split; reflexivity.
Qed.

(** X10.  When every row has the ISO text of a date as [due_date],
    [get_tasks_for_week] returns, for any week text, the rows of that
    week, each as often as the table has it, in chronological order of
    their due dates: no row is due after a row that follows it. *)
Theorem week_listing_is_chronological (w : world) (wk : string)
    (Hdated : Forall dated_row (tasks (db w))) :
  exists rows,
    get_tasks_for_week wk w = (Ret rows, w)
    /\ Permutation rows
         (filter (fun r => String.eqb (week_start r) wk) (tasks (db w)))
    /\ StronglySorted
         (fun r1 r2 => exists d1 d2,
              valid_dateb d1 = true /\ valid_dateb d2 = true
              /\ due_date r1 = isoformat d1 /\ due_date r2 = isoformat d2
              /\ date_compare d1 d2 <> Gt) rows.
Proof.
  eexists. split; [reflexivity|].
  split; [symmetry; apply order_by_due_date_perm|].
  eapply StronglySorted_weaken; [|apply order_by_due_date_sorted].
  intros x y Hx Hy Hle. unfold due_le in Hle.
  apply order_by_due_date_In, filter_In in Hx as [Hx _].
  apply order_by_due_date_In, filter_In in Hy as [Hy _].
  rewrite Forall_forall in Hdated.
  destruct (Hdated x Hx) as (d1 & _ & Hv1 & _ & E1 & _).
  destruct (Hdated y Hy) as (d2 & _ & Hv2 & _ & E2 & _).
  exists d1, d2. repeat split; auto.
  rewrite E1, E2 in Hle. now apply isoformat_leb.
Qed.

Lemma week_listing_is_chronological_witness :
  Forall dated_row
    (tasks (db (ex_world [ex_row 1 "2025-01-03"; ex_row 2 "2024-12-31";
                          ex_row 3 "2025-01-02"])))
  /\ exists rows,
       get_tasks_for_week "2024-12-30"
         (ex_world [ex_row 1 "2025-01-03"; ex_row 2 "2024-12-31";
                    ex_row 3 "2025-01-02"])
       = (Ret rows,
          ex_world [ex_row 1 "2025-01-03"; ex_row 2 "2024-12-31";
                    ex_row 3 "2025-01-02"])
       /\ map id rows = [2; 3; 1]
       /\ StronglySorted
            (fun r1 r2 => exists d1 d2,
                 valid_dateb d1 = true /\ valid_dateb d2 = true
                 /\ due_date r1 = isoformat d1 /\ due_date r2 = isoformat d2
                 /\ date_compare d1 d2 <> Gt) rows.
Proof.
  assert (H : Forall dated_row
                (tasks (db (ex_world [ex_row 1 "2025-01-03";
                                      ex_row 2 "2024-12-31";
                                      ex_row 3 "2025-01-02"])))).
  { repeat constructor.
    - exists (mkdate 2025 1 3), (mkdate 2024 12 30).
      repeat split; reflexivity.
    - exists (mkdate 2024 12 31), (mkdate 2024 12 30).
      repeat split; reflexivity.
    - exists (mkdate 2025 1 2), (mkdate 2024 12 30).
      repeat split; reflexivity. }
  split; [exact H|].
  destruct (week_listing_is_chronological
              (ex_world [ex_row 1 "2025-01-03"; ex_row 2 "2024-12-31";
                         ex_row 3 "2025-01-02"]) "2024-12-30" H)
    as (rows & Hrun & _ & Hsorted).
  exists rows. split; [exact Hrun|]. split; [|exact Hsorted].
  assert (E : Ret rows
              = Ret [ex_row 2 "2024-12-31"; ex_row 3 "2025-01-02";
                     ex_row 1 "2025-01-03"])
    by (exact (eq_trans (eq_sym (f_equal fst Hrun)) eq_refl)).
  injection E as ->. reflexivity.
Defined.

Lemma isoformat_in_texts_ymd d : In (isoformat d) (texts_ymd d).
Proof.
  unfold texts_ymd. apply in_flat_map.
  exists (fmt_02d (month d)). split; [apply month_texts_head|].
  apply in_map_iff. exists (fmt_02d (day d)).
  split; [reflexivity|apply day_texts_head].
Qed.

Lemma get_tasks_for_week_run wk w :
  get_tasks_for_week wk w
  = (Ret (order_by_due_date
            (filter (fun r => String.eqb (week_start r) wk) (tasks (db w)))), w).
Proof. reflexivity. Qed.

Lemma get_open_tasks_for_week_run wk w :
  get_open_tasks_for_week wk w
  = (Ret (order_by_due_date
            (filter (fun r => String.eqb (week_start r) wk && (completed r =? 0))
                    (tasks (db w)))), w).
Proof. reflexivity. Qed.

(** X11.  A task added with a due date that parses is, right after
    [add_task], among the rows [get_tasks_for_week] and
    [get_open_tasks_for_week] return for the ISO text of the Monday of
    the due date's week. *)
Theorem added_task_is_listed (ttl s descr utcnow : string) (creator : Z)
    (w : world) (due : date)
    (Hparse : parse_date s = Ret due) :
  exists monday row,
    week_start_of due = Some monday
    /\ row = mktask (tasks_seq (db w) + 1) ttl descr (isoformat due) creator
                    utcnow 0 (Some []) (isoformat monday)
    /\ let w' := snd (add_task ttl s descr creator utcnow w) in
       (exists rows, get_tasks_for_week (isoformat monday) w' = (Ret rows, w')
                     /\ In row rows)
       /\ (exists rows,
             get_open_tasks_for_week (isoformat monday) w' = (Ret rows, w')
             /\ In row rows).
Proof.
  destruct (parse_date_week s due Hparse) as [monday Hm].
  eexists monday, _. split; [exact Hm|]. split; [reflexivity|]. cbv zeta.
  rewrite (add_task_run ttl s descr creator utcnow w due monday Hparse Hm).
  cbn [snd]. split.
  - eexists. split; [apply get_tasks_for_week_run|].
    apply order_by_due_date_In, filter_In. cbn [db tasks week_start]. split.
    + apply in_or_app. right. now left.
    + apply String.eqb_refl.
  - eexists. split; [apply get_open_tasks_for_week_run|].
    apply order_by_due_date_In, filter_In.
    cbn [db tasks week_start completed]. split.
    + apply in_or_app. right. now left.
    + now rewrite String.eqb_refl.
Qed.

Lemma added_task_is_listed_witness :
  parse_date "5/1/2025" = Ret (mkdate 2025 1 5)
  /\ exists monday row,
       week_start_of (mkdate 2025 1 5) = Some monday
       /\ row = mktask (tasks_seq (db empty_world) + 1) "report" ""
                       (isoformat (mkdate 2025 1 5)) 10 "2024-12-30T08:00:00" 0
                       (Some []) (isoformat monday)
       /\ exists rows,
            get_tasks_for_week (isoformat monday)
              (snd (add_task "report" "5/1/2025" "" 10 "2024-12-30T08:00:00"
                      empty_world))
            = (Ret rows,
               snd (add_task "report" "5/1/2025" "" 10 "2024-12-30T08:00:00"
                      empty_world))
            /\ In row rows.
Proof.
  split; [reflexivity|].
  destruct (added_task_is_listed "report" "5/1/2025" "" "2024-12-30T08:00:00" 10
              empty_world (mkdate 2025 1 5) eq_refl)
    as (monday & row & Hm & Er & H1 & _).
  exists monday, row. split; [exact Hm|]. split; [exact Er|exact H1].
Defined.

(** ** The week argument of the commands *)

(** ** [_listtasks] and [_announce_week] *)

Lemma week_text_ok_run wk w d :
  parse_date wk = Ret d -> week_text_ok wk w = (Ret true, w).
Proof. intros H. unfold week_text_ok, except_ValueError. now rewrite H. Qed.

Lemma dated_week_rows w wk :
  Forall dated_row (tasks (db w)) ->
  (forall monday, valid_dateb monday = true -> weekday monday = 0 ->
                  wk <> isoformat monday) ->
  filter (fun r => String.eqb (week_start r) wk) (tasks (db w)) = [].
Proof.
  intros Hd Hwk. induction (tasks (db w)) as [|r rows IH]; [reflexivity|].
  inversion Hd as [|? ? (due & monday & Hv & Hm & _ & Ew) Hrows]; subst.
  cbn [filter]. destruct (String.eqb_spec (week_start r) wk) as [E|_];
    [|now apply IH].
  exfalso. destruct (week_start_of_some due Hv) as [Es Hr].
  rewrite Es in Hm. injection Hm as <-.
  destruct (fromordinal_valid _ Hr) as [Hvm Ho].
  apply (Hwk (fromordinal (toordinal due - weekday due)) Hvm); [|congruence].
  unfold weekday at 1. rewrite Ho. unfold weekday. apply monday_arith.
Qed.

(** X12.  [_listtasks] checks that the week text parses and then compares it,
    as a text, with the stored [week_start]: when every row was written
    the way [add_task] writes it, a week given in a day-month-year
    layout, or as the ISO text of a day that is not a Monday, passes the
    check and lists no task. *)
Theorem listtasks_needs_iso_monday (w : world) (wk : string) (today d : date)
    (Hdated : Forall dated_row (tasks (db w)))
    (Hd : valid_dateb d = true)
    (Hwk : In wk (texts_dmy "/" d) \/ In wk (texts_dmy "-" d)
           \/ (wk = isoformat d /\ weekday d <> 0)) :
  parse_date wk = Ret d
  /\ _listtasks (Some wk) today w = (Ret ReplyNoTasks, w).
Proof.
  assert (Hp : parse_date wk = Ret d).
  { apply parse_date_iff. split; [exact Hd|]. unfold accepted_texts.
    destruct Hwk as [H|[H|[-> _]]].
    - apply in_or_app. right. apply in_or_app. now left.
    - apply in_or_app. right. apply in_or_app. now right.
    - apply in_or_app. left. apply isoformat_in_texts_ymd. }
  split; [exact Hp|].
  unfold _listtasks, bind. cbn [ret]. rewrite (week_text_ok_run wk w d Hp).
  cbn [negb]. rewrite get_tasks_for_week_run.
  rewrite (dated_week_rows w wk Hdated); [reflexivity|].
  intros monday Hvm Hwm E. destruct Hwk as [H|[H|[E' Hnm]]].
  - apply (ymd_not_dmy "/" monday d wk eq_refl Hvm Hd); [|exact H].
    rewrite E. apply isoformat_in_texts_ymd.
  - apply (ymd_not_dmy "-" monday d wk eq_refl Hvm Hd); [|exact H].
    rewrite E. apply isoformat_in_texts_ymd.
  - apply Hnm. rewrite E' in E.
    now rewrite (isoformat_inj d monday Hd Hvm E).
Qed.

Lemma listtasks_needs_iso_monday_witness :
  Forall dated_row (tasks (db (ex_world [ex_task 0 None])))
  /\ valid_dateb (mkdate 2024 12 30) = true
  /\ In "30/12/2024"%string (texts_dmy "/" (mkdate 2024 12 30))
  /\ _listtasks (Some "30/12/2024"%string) (mkdate 2025 1 1)
                (ex_world [ex_task 0 None])
     = (Ret ReplyNoTasks, ex_world [ex_task 0 None]).
Proof.
  assert (H : Forall dated_row (tasks (db (ex_world [ex_task 0 None]))))
    by (repeat constructor; apply ex_task_dated).
  assert (Hin : In "30/12/2024"%string (texts_dmy "/" (mkdate 2024 12 30)))
    by (now left).
  split; [exact H|]. split; [reflexivity|]. split; [exact Hin|].
  exact (proj2 (listtasks_needs_iso_monday (ex_world [ex_task 0 None])
                  "30/12/2024" (mkdate 2025 1 1) (mkdate 2024 12 30) H eq_refl
                  (or_introl Hin))).
Defined.

Lemma isoformat_parses d : valid_dateb d = true -> parse_date (isoformat d) = Ret d.
Proof.
  intros Hv. apply parse_date_iff. split; [exact Hv|].
  apply in_or_app. left. apply isoformat_in_texts_ymd.
Qed.

(** X13.  Without a week argument [_listtasks] answers as it does for the
    ISO text of the Monday of today's week: the default never fails the
    date check, and the command writes nothing. *)
Theorem default_week_is_current_monday (today : date) (w : world)
    (Htoday : valid_dateb today = true) :
  exists monday,
    week_start_of today = Some monday
    /\ weekday monday = 0
    /\ _listtasks None today w = _listtasks (Some (isoformat monday)) today w
    /\ fst (_listtasks None today w) <> Ret ReplyBadWeek
    /\ snd (_listtasks None today w) = w.
Proof.
  destruct (week_start_of_some today Htoday) as [Es Hr].
  destruct (fromordinal_valid _ Hr) as [Hvm Ho].
  exists (fromordinal (toordinal today - weekday today)).
  split; [exact Es|]. split.
  { unfold weekday at 1. rewrite Ho. unfold weekday. apply monday_arith. }
  assert (E : _listtasks None today w
              = _listtasks (Some (isoformat
                   (fromordinal (toordinal today - weekday today)))) today w).
  { unfold _listtasks, current_week. now rewrite Es. }
  split; [exact E|]. rewrite E.
  unfold _listtasks, bind. cbn [ret].
  rewrite (week_text_ok_run _ w _ (isoformat_parses _ Hvm)). cbn [negb].
  rewrite get_tasks_for_week_run.
  destruct (order_by_due_date _); cbn [fst snd]; split;
    try discriminate; reflexivity.
Qed.

Lemma default_week_is_current_monday_witness :
  valid_dateb (mkdate 2025 1 1) = true
  /\ exists monday,
       week_start_of (mkdate 2025 1 1) = Some monday
       /\ weekday monday = 0
       /\ _listtasks None (mkdate 2025 1 1) empty_world
          = _listtasks (Some (isoformat monday)) (mkdate 2025 1 1) empty_world.
Proof.
  split; [reflexivity|].
  destruct (default_week_is_current_monday (mkdate 2025 1 1) empty_world eq_refl)
    as (monday & H1 & H2 & H3 & _).
  exists monday. auto.
Defined.

Lemma replace_announcement_run a w :
  replace_announcement "announcements" a w
  = (Ret tt,
     mkworld (mkdatabase (tasks (db w))
                (filter (fun b => negb (message_id b =? message_id a))
                        (announcements (db w)) ++ [a])
                (tasks_seq (db w))) (outbox w)).
Proof. reflexivity. Qed.

(** X14.  In a channel it accepts and for a week text that parses,
    [_announce_week], run without interruption, answers that no task is
    open when the week has no open task and then writes nothing;
    otherwise it posts one field and the two buttons for each open task
    of the week in due-date order, leaves the tasks as they were, and
    records the posted message with the week text: exactly one
    announcement has the message id afterwards, and the announcements of
    other messages are as before. *)
Theorem announce_week_records_message (PROJECT_CHANNEL_ID channel_id : Z)
    (wk : string) (today d : date) (sent_id : Z) (w : world)
    (Hchannel : wrong_channel PROJECT_CHANNEL_ID channel_id = false)
    (Hparse : parse_date wk = Ret d) :
  let rows := order_by_due_date
                (filter (fun r => String.eqb (week_start r) wk
                                  && (completed r =? 0)) (tasks (db w))) in
  let w' := snd (_announce_week PROJECT_CHANNEL_ID channel_id (Some wk) today
                   sent_id w) in
  match rows with
  | [] => _announce_week PROJECT_CHANNEL_ID channel_id (Some wk) today sent_id w
          = (Ret ReplyNoOpenTasks, w)
  | _ :: _ =>
      _announce_week PROJECT_CHANNEL_ID channel_id (Some wk) today sent_id w
      = (Ret (ReplyAnnouncement wk (map announce_field_of rows)
                (flat_map (fun t => [BtnClaim (id t); BtnComplete (id t)]) rows)),
         w')
      /\ tasks (db w') = tasks (db w)
      /\ filter (fun a => message_id a =? sent_id) (announcements (db w'))
         = [mkannouncement sent_id wk]
      /\ (forall a, message_id a <> sent_id ->
            In a (announcements (db w')) <-> In a (announcements (db w)))
      /\ Forall (fun r => completed r = 0) rows
  end.
Proof.
  cbv zeta. unfold _announce_week. rewrite Hchannel. unfold bind. cbn [ret].
  rewrite (week_text_ok_run wk w d Hparse). cbn [negb].
  rewrite get_open_tasks_for_week_run.
  set (rows := order_by_due_date _).
  assert (Hopen : Forall (fun r => completed r = 0) rows).
  { apply Forall_forall. intros r Hr. subst rows.
    apply order_by_due_date_In, filter_In in Hr as [_ Hr].
    apply andb_true_iff in Hr as [_ Hr]. now apply Z.eqb_eq. }
  destruct rows as [|r rows']; [reflexivity|].
  rewrite replace_announcement_run.
  cbn [ret snd db tasks outbox announcements message_id].
  split; [reflexivity|]. split; [reflexivity|].
  split; [|split].
  - rewrite filter_app. cbn [filter message_id]. rewrite Z.eqb_refl.
    assert (E : filter (fun a => message_id a =? sent_id)
                  (filter (fun b => negb (message_id b =? sent_id))
                          (announcements (db w))) = []).
    { induction (announcements (db w)) as [|a l IH]; [reflexivity|].
      cbn [filter]. destruct (message_id a =? sent_id) eqn:E; cbn [negb filter];
        [exact IH|]. now rewrite E. }
    now rewrite E.
  - intros a Hne. rewrite in_app_iff, filter_In. cbn [In message_id].
    destruct (Z.eqb_spec (message_id a) sent_id) as [E|_]; [contradiction|].
    cbn [negb]. split.
    + intros [[H _]|[<-|[]]]; [exact H|]. now cbn in Hne.
    + intros H. left. now split.
  - exact Hopen.
Qed.

Lemma announce_week_records_message_witness :
  wrong_channel 0 7 = false
  /\ parse_date "2024-12-30" = Ret (mkdate 2024 12 30)
  /\ filter (fun a => message_id a =? 100)
       (announcements
          (db (snd (_announce_week 0 7 (Some "2024-12-30"%string)
                      (mkdate 2025 1 1) 100 (ex_world [ex_task 0 None])))))
     = [mkannouncement 100 "2024-12-30"].
Proof.
  split; [reflexivity|]. split; [reflexivity|].
  exact (proj1 (proj2 (proj2
           (announce_week_records_message 0 7 "2024-12-30" (mkdate 2025 1 1)
              (mkdate 2024 12 30) 100 (ex_world [ex_task 0 None])
              eq_refl eq_refl)))).
Defined.

(** ** The announcement after a completion; tasks due today *)

(** ** The refreshed view *)

Lemma refresh_event_buttons msg wk d b :
  match refresh_event msg wk d with
  | MessageEdit _ _ _ view => In b view
  | _ => False
  end ->
  exists r, In r (tasks d) /\ week_start r = wk /\ completed r = 0
            /\ (b = BtnClaim (id r) \/ b = BtnComplete (id r)).
Proof.
  unfold refresh_event. intros H. apply in_flat_map in H as (r & Hr & Hb).
  apply filter_In in Hr as [Hr Ho].
  apply order_by_due_date_In, filter_In in Hr as [Hr Hw].
  exists r. apply String.eqb_eq in Hw. apply Z.eqb_eq in Ho.
  repeat split; auto. destruct Hb as [<-|[<-|[]]]; auto.
Qed.

Lemma update_rows_In tid f rows r :
  In r (update_rows tid f rows) ->
  exists r0, In r0 rows /\ r = (if id r0 =? tid then f r0 else r0).
Proof.
  unfold update_rows. intros H. apply in_map_iff in H as (r0 & E & H).
  exists r0. auto.
Qed.

(** X15.  When the Complete button is pressed on a task that exists by a
    claimer or by a user who may manage messages, the announcement is
    edited and then the confirmation is sent; the edited view has neither
    button of that task, every field of that task is marked done, and
    every button left belongs to an open task of the announced week. *)
Theorem completed_task_loses_its_buttons (w : world) (wk0 : string)
    (task_id : Z) (i : interaction) (t : task)
    (Hget : get_task task_id w = (Ret (Some t), w))
    (Hmay : py_in (user i) (json_loads_or_empty (claimed_by t))
            || manage_messages i = true) :
  exists fields view,
    outbox (snd (run_coro (make_complete_callback wk0 task_id i) w))
    = (outbox w ++ [MessageEdit (message i) wk0 fields view;
                    InteractionSend (TxtTaskCompleted task_id)])%list
    /\ ~ In (BtnClaim task_id) view
    /\ ~ In (BtnComplete task_id) view
    /\ (forall f, In f fields -> f_id f = task_id -> f_done f = true)
    /\ (forall b, In b view ->
          exists r, In r (tasks (db (snd (run_coro
                        (make_complete_callback wk0 task_id i) w))))
                    /\ week_start r = wk0 /\ completed r = 0
                    /\ (b = BtnClaim (id r) \/ b = BtnComplete (id r))).
Proof.
  apply get_task_find in Hget as [Hbound Hf].
  rewrite (complete_button_run _ _ _ _ Hbound), Hf.
  fold (claimers t) in Hmay. rewrite Hmay.
  cbv zeta. cbn [snd say outbox db].
  set (w1 := with_tasks (update_rows task_id (set_completed 1) (tasks (db w))) w).
  assert (Hdone : forall r, In r (tasks (db w1)) -> id r = task_id ->
                            completed r = 1).
  { intros r Hr Hid. subst w1. cbn [with_tasks db set_tasks tasks] in Hr.
    apply update_rows_In in Hr as (r0 & Hr0 & ->).
    destruct (Z.eqb_spec (id r0) task_id) as [E|Hne]; [reflexivity|].
    contradiction. }
  assert (Hbtn : forall b, In b
            (flat_map (fun t0 => [BtnClaim (id t0); BtnComplete (id t0)])
               (filter (fun tt => completed tt =? 0)
                  (order_by_due_date
                     (filter (fun r => String.eqb (week_start r) wk0)
                             (tasks (db w1)))))) ->
            exists r, In r (tasks (db w1)) /\ week_start r = wk0
                      /\ completed r = 0
                      /\ (b = BtnClaim (id r) \/ b = BtnComplete (id r))).
  { intros b Hb. exact (refresh_event_buttons (message i) wk0 (db w1) b Hb). }
  eexists _, _. split.
  { unfold refresh_event. rewrite <- app_assoc. reflexivity. }
  split; [|split; [|split]].
  - intros H. apply Hbtn in H as (r & Hr & _ & Ho & [E|E]); [|discriminate].
    injection E as E. rewrite (Hdone r Hr (eq_sym E)) in Ho. discriminate.
  - intros H. apply Hbtn in H as (r & Hr & _ & Ho & [E|E]); [discriminate|].
    injection E as E. rewrite (Hdone r Hr (eq_sym E)) in Ho. discriminate.
  - intros f Hfld Hid. apply in_map_iff in Hfld as (r & <- & Hr).
    apply order_by_due_date_In, filter_In in Hr as [Hr _].
    cbn [f_id f_done] in *. now rewrite (Hdone r Hr Hid).
  - exact Hbtn.
Qed.

Lemma completed_task_loses_its_buttons_witness :
  get_task 1 (ex_world [ex_task 0 (Some [5])])
    = (Ret (Some (ex_task 0 (Some [5]))), ex_world [ex_task 0 (Some [5])])
  /\ py_in 5 (json_loads_or_empty (claimed_by (ex_task 0 (Some [5]))))
     || false = true
  /\ exists fields view,
       outbox (snd (run_coro (make_complete_callback "2024-12-30" 1
                                (mkinteraction 5 false 100))
                      (ex_world [ex_task 0 (Some [5])])))
       = (outbox (ex_world [ex_task 0 (Some [5])])
          ++ [MessageEdit 100 "2024-12-30" fields view;
              InteractionSend (TxtTaskCompleted 1)])%list
       /\ ~ In (BtnClaim 1) view.
Proof.
  split; [reflexivity|]. split; [reflexivity|].
  destruct (completed_task_loses_its_buttons (ex_world [ex_task 0 (Some [5])])
              "2024-12-30" 1 (mkinteraction 5 false 100) (ex_task 0 (Some [5]))
              eq_refl eq_refl) as (fields & view & H1 & H2 & _).
  exists fields, view. auto.
Defined.

(** ** The reminder window *)

Lemma with_nothing_sent w : mkworld (db w) (outbox w ++ []) = w.
Proof. destruct w. cbn. now rewrite app_nil_r. Qed.

Lemma strptime_isoformat d : valid_dateb d = true ->
  strptime_date (isoformat d) "%Y-%m-%d" = Some d.
Proof.
  intros Hv. apply strptime_ymd_iff. split; [exact Hv|].
  apply isoformat_in_texts_ymd.
Qed.

Lemma parse_due_isoformat fromisoformat d :
  valid_dateb d = true ->
  fromisoformat (isoformat d) = None
  \/ fromisoformat (isoformat d) = Some (Naive (midnight d)) ->
  parse_due fromisoformat (isoformat d) = Some (Naive (midnight d)).
Proof.
  intros Hv [E|E]; unfold parse_due; rewrite E; [|reflexivity].
  now rewrite (strptime_isoformat d Hv).
Qed.

Lemma date_compare_refl d : date_compare d d = Eq.
Proof. unfold date_compare. now rewrite !Z.compare_refl. Qed.

Lemma after_midnight now :
  valid_timeb now = true ->
  0 < hour now + minute now + second now + microsecond now ->
  datetime_leb now (midnight (dt_date now)) = false.
Proof.
  unfold valid_timeb. rewrite !andb_true_iff, !Z.leb_le, !Z.ltb_lt.
  intros Hv Hpos. unfold datetime_leb, datetime_compare, midnight.
  cbn [dt_date hour minute second microsecond].
  rewrite date_compare_refl.
  destruct (Z.compare_spec (hour now) 0); [|lia|reflexivity].
  destruct (Z.compare_spec (minute now) 0); [|lia|reflexivity].
  destruct (Z.compare_spec (second now) 0); [|lia|reflexivity].
  destruct (Z.compare_spec (microsecond now) 0); [lia|lia|reflexivity].
Qed.

(** X16.  A task whose due date is today is never reminded once the day has
    started: the due text is read as midnight of today, which lies before
    [now], so [check_deadlines] skips the row without sending or
    logging. *)
Theorem task_due_today_is_not_reminded
    (PROJECT_CHANNEL_ID : Z) (get_channel : Z -> option Z)
    (fromisoformat : string -> option iso_datetime)
    (now soon : datetime) (r : task) (w : world)
    (Hdue : due_date r = isoformat (dt_date now))
    (Hdate : valid_dateb (dt_date now) = true)
    (Hiso : fromisoformat (isoformat (dt_date now)) = None
            \/ fromisoformat (isoformat (dt_date now))
               = Some (Naive (midnight (dt_date now))))
    (Htime : valid_timeb now = true)
    (Hstarted : 0 < hour now + minute now + second now + microsecond now) :
  parse_due fromisoformat (due_date r)
  = Some (Naive (midnight (dt_date now)))
  /\ remind PROJECT_CHANNEL_ID get_channel fromisoformat now soon r w
     = (Ret tt, w).
Proof.
  assert (Hp : parse_due fromisoformat (due_date r)
               = Some (Naive (midnight (dt_date now))))
    by (rewrite Hdue; now apply parse_due_isoformat).
  split; [exact Hp|].
  rewrite remind_run. unfold notice, due_aware, in_window. rewrite Hp.
  rewrite (after_midnight now Htime Hstarted). cbn [andb].
  now rewrite with_nothing_sent.
Qed.

Lemma task_due_today_is_not_reminded_witness :
  due_date (ex_task 0 None)
    = isoformat (dt_date (mkdatetime (mkdate 2025 1 2) 9 30 0 0))
  /\ valid_dateb (mkdate 2025 1 2) = true
  /\ valid_timeb (mkdatetime (mkdate 2025 1 2) 9 30 0 0) = true
  /\ remind 0 (fun c => Some c) (fun _ => None)
            (mkdatetime (mkdate 2025 1 2) 9 30 0 0)
            (mkdatetime (mkdate 2025 1 4) 9 30 0 0) (ex_task 0 None)
            (ex_world [ex_task 0 None])
     = (Ret tt, ex_world [ex_task 0 None]).
Proof.
  split; [reflexivity|]. split; [reflexivity|]. split; [reflexivity|].
  exact (proj2 (task_due_today_is_not_reminded 0 (fun c => Some c) (fun _ => None)
                  (mkdatetime (mkdate 2025 1 2) 9 30 0 0)
                  (mkdatetime (mkdate 2025 1 4) 9 30 0 0) (ex_task 0 None)
                  (ex_world [ex_task 0 None]) eq_refl eq_refl
                  (or_introl eq_refl) eq_refl ltac:(cbn; lia))).
Defined.

(** ** The reminder window, week buckets and stored dates *)

Lemma valid_datetime_spec dt : valid_datetimeb dt = true <->
  valid_dateb (dt_date dt) = true
  /\ 0 <= hour dt < 24 /\ 0 <= minute dt < 60 /\ 0 <= second dt < 60
  /\ 0 <= microsecond dt < 1000000.
Proof.
  unfold valid_datetimeb, valid_timeb.
  rewrite !andb_true_iff, !Z.leb_le, !Z.ltb_lt. tauto.
Qed.

Lemma datetime_compare_micros a b :
  valid_datetimeb a = true -> valid_datetimeb b = true ->
  datetime_compare a b = (micros_of a ?= micros_of b).
Proof.
  rewrite !valid_datetime_spec.
  intros (Hda & Hha & Hma & Hsa & Hua) (Hdb & Hhb & Hmb & Hsb & Hub).
  unfold datetime_compare, micros_of, seconds_of.
  rewrite <- (toordinal_compare _ _ Hda Hdb).
  destruct (Z.compare_spec (toordinal (dt_date a)) (toordinal (dt_date b)));
    [|symmetry; apply Z.compare_lt_iff; lia
     |symmetry; apply Z.compare_gt_iff; lia].
  destruct (Z.compare_spec (hour a) (hour b));
    [|symmetry; apply Z.compare_lt_iff; lia
     |symmetry; apply Z.compare_gt_iff; lia].
  destruct (Z.compare_spec (minute a) (minute b));
    [|symmetry; apply Z.compare_lt_iff; lia
     |symmetry; apply Z.compare_gt_iff; lia].
  destruct (Z.compare_spec (second a) (second b));
    [|symmetry; apply Z.compare_lt_iff; lia
     |symmetry; apply Z.compare_gt_iff; lia].
  destruct (Z.compare_spec (microsecond a) (microsecond b));
    symmetry;
    [apply Z.compare_eq_iff|apply Z.compare_lt_iff|apply Z.compare_gt_iff];
    lia.
Qed.

Lemma datetime_leb_micros a b :
  valid_datetimeb a = true -> valid_datetimeb b = true ->
  datetime_leb a b = (micros_of a <=? micros_of b).
Proof.
  intros Ha Hb. unfold datetime_leb, Z.leb.
  now rewrite (datetime_compare_micros a b Ha Hb).
Qed.

Lemma add_hours_micros now h soon :
  valid_datetimeb now = true -> datetime_add_hours now h = Some soon ->
  valid_datetimeb soon = true
  /\ micros_of soon = micros_of now + h * 3600000000.
Proof.
  rewrite valid_datetime_spec. intros (Hd & Hh & Hm & Hs & Hu).
  unfold datetime_add_hours.
  set (secs := hour now * 3600 + minute now * 60 + second now + h * 3600).
  destruct ((0 <? toordinal (dt_date now) + secs / 86400)
            && (toordinal (dt_date now) + secs / 86400 <=? MAXORDINAL)) eqn:E;
    [|discriminate].
  apply andb_true_iff in E as [E1 E2].
  apply Z.ltb_lt in E1. apply Z.leb_le in E2.
  destruct (fromordinal_valid (toordinal (dt_date now) + secs / 86400)
              ltac:(lia)) as [Hv Ho].
  intros [= <-]. split.
  - apply valid_datetime_spec. cbn [dt_date hour minute second microsecond].
    split; [exact Hv|].
    pose proof (Z.mod_pos_bound secs 86400 ltac:(lia)) as Hb.
    set (s := secs mod 86400) in *. clearbody s.
    repeat split; try lia; Z.div_mod_to_equations; lia.
  - unfold micros_of, seconds_of. cbn [dt_date hour minute second microsecond].
    rewrite Ho.
    pose proof (Z.mod_pos_bound secs 86400 ltac:(lia)) as Hb.
    pose proof (Z.div_mod secs 86400 ltac:(lia)) as Hdm.
    set (s := secs mod 86400) in *. set (q := secs / 86400) in *.
    assert (Es : s / 3600 * 3600 + s mod 3600 / 60 * 60 + s mod 3600 mod 60 = s).
    { clearbody s. Z.div_mod_to_equations. lia. }
    unfold secs in Hdm. clearbody s q. lia.
Qed.

(** X17.  [now + timedelta(hours=REMINDER_HOURS)], when it does not overflow,
    is a datetime the constructor accepts, later than [now] by that many
    hours to the microsecond; and the test [now <= due <= soon] of
    [check_deadlines] holds exactly when the time from [now] to [due],
    in microseconds, is between zero and that many hours, so that with a
    negative [REMINDER_HOURS] no task is ever in the window. *)
Theorem reminder_window_in_hours (now due soon : datetime) (h : Z)
    (Hnow : valid_datetimeb now = true)
    (Hdue : valid_datetimeb due = true)
    (Hsoon : datetime_add_hours now h = Some soon) :
  valid_datetimeb soon = true
  /\ micros_of soon = micros_of now + h * 3600000000
  /\ (datetime_leb now due && datetime_leb due soon = true <->
      0 <= micros_of due - micros_of now <= h * 3600000000)
  /\ (h < 0 -> datetime_leb now due && datetime_leb due soon = false).
Proof.
  destruct (add_hours_micros now h soon Hnow Hsoon) as [Hv Em].
  split; [exact Hv|]. split; [exact Em|].
  rewrite (datetime_leb_micros now due Hnow Hdue).
  rewrite (datetime_leb_micros due soon Hdue Hv).
  split.
  - rewrite andb_true_iff, !Z.leb_le. lia.
  - intros Hneg. apply andb_false_iff.
    rewrite !Z.leb_gt. lia.
Qed.

Lemma reminder_window_in_hours_witness :
  valid_datetimeb ex_now = true
  /\ valid_datetimeb (mkdatetime (mkdate 2025 1 2) 12 0 0 0) = true
  /\ datetime_add_hours ex_now 48 = Some (mkdatetime (mkdate 2025 1 3) 0 0 0 0)
  /\ micros_of (mkdatetime (mkdate 2025 1 3) 0 0 0 0)
     = micros_of ex_now + 48 * 3600000000.
Proof.
  split; [reflexivity|]. split; [reflexivity|]. split; [reflexivity|].
  exact (proj1 (proj2 (reminder_window_in_hours ex_now
                         (mkdatetime (mkdate 2025 1 2) 12 0 0 0)
                         (mkdatetime (mkdate 2025 1 3) 0 0 0 0) 48
                         eq_refl eq_refl eq_refl))).
Defined.

(** ** Week buckets *)

Lemma monday_ordinal o : 1 <= o -> o - (o + 6) mod 7 = 7 * ((o - 1) / 7) + 1.
Proof. intros H. Z.div_mod_to_equations. lia. Qed.

(** X18.  Two dates get the same week bucket exactly when they lie in the
    same run of seven days counted from 0001-01-01, a Monday; the bucket
    of a date is the first day of its run, and lies in it. *)
Theorem same_week_same_bucket (a b : date)
    (Ha : valid_dateb a = true) (Hb : valid_dateb b = true) :
  (week_start_of a = week_start_of b <-> week_number a = week_number b)
  /\ exists monday, week_start_of a = Some monday
                    /\ toordinal monday = 7 * week_number a + 1
                    /\ week_number monday = week_number a.
Proof.
  destruct (week_start_of_some a Ha) as [Ea Hra].
  destruct (week_start_of_some b Hb) as [Eb Hrb].
  pose proof (toordinal_range a Ha) as Hoa.
  pose proof (toordinal_range b Hb) as Hob.
  destruct (fromordinal_valid _ Hra) as [Hva Hta].
  destruct (fromordinal_valid _ Hrb) as [Hvb Htb].
  pose proof (monday_ordinal _ (proj1 Hoa)) as Hma.
  pose proof (monday_ordinal _ (proj1 Hob)) as Hmb.
  fold (weekday a) in Hma. fold (weekday b) in Hmb.
  unfold week_number.
  split.
  - rewrite Ea, Eb. split.
    + intros E.
      assert (E' : toordinal (fromordinal (toordinal a - weekday a))
                   = toordinal (fromordinal (toordinal b - weekday b)))
        by congruence.
      rewrite Hta, Htb in E'. lia.
    + intros E. rewrite Hma, Hmb, E. reflexivity.
  - eexists. split; [exact Ea|]. rewrite Hta. split; [lia|].
    rewrite Hma. Z.div_mod_to_equations. lia.
Qed.

Lemma same_week_same_bucket_witness :
  valid_dateb (mkdate 2025 1 1) = true /\ valid_dateb (mkdate 2025 1 5) = true
  /\ (week_start_of (mkdate 2025 1 1) = week_start_of (mkdate 2025 1 5)
      <-> week_number (mkdate 2025 1 1) = week_number (mkdate 2025 1 5)).
Proof.
  split; [reflexivity|]. split; [reflexivity|].
  exact (proj1 (same_week_same_bucket (mkdate 2025 1 1) (mkdate 2025 1 5)
                  eq_refl eq_refl)).
Defined.

(** X19.  The due date [add_task] stores parses back to the date it came
    from, both with [parse_date] and with the [%Y-%m-%d] format
    [check_deadlines] falls back to; and [add_task] with the stored text
    does what it did with the text given. *)
Theorem stored_due_date_parses_back (s : string) (d : date)
    (Hparse : parse_date s = Ret d) :
  parse_date (isoformat d) = Ret d
  /\ strptime_date (isoformat d) "%Y-%m-%d" = Some d
  /\ (forall ttl descr utcnow creator w,
        add_task ttl (isoformat d) descr creator utcnow w
        = add_task ttl s descr creator utcnow w).
Proof.
  pose proof (parse_date_valid s d Hparse) as Hv.
  pose proof (isoformat_parses d Hv) as Hiso.
  split; [exact Hiso|].
  split; [now apply strptime_isoformat|].
  intros ttl descr utcnow creator w.
  destruct (parse_date_week s d Hparse) as [monday Hm].
  rewrite (add_task_run ttl s descr creator utcnow w d monday Hparse Hm).
  now rewrite (add_task_run ttl (isoformat d) descr creator utcnow w d monday
                 Hiso Hm).
Qed.

Lemma stored_due_date_parses_back_witness :
  parse_date "5/1/2025" = Ret (mkdate 2025 1 5)
  /\ parse_date (isoformat (mkdate 2025 1 5)) = Ret (mkdate 2025 1 5).
Proof.
  split; [reflexivity|].
  exact (proj1 (stored_due_date_parses_back "5/1/2025" (mkdate 2025 1 5)
                  eq_refl)).
Defined.
